(** * AI-Plagiarism-Detection: the result-analysis and report engine

    A shallow embedding of [src/script.py] ([format_results]) and
    [src/visualize.py] ([OriginalityVisualizer] and [export_to_html]),
    and the properties of the analysis document, its derived metrics,
    its insights and its two renderings.

    Layout: [Py] holds the values and the operations of the Python
    runtime the two files use; [Pandas], [Plotly] and [Jinja] hold what
    the code asks of these libraries; [Script] and [Visualize] follow the
    two source files function by function; the lemmas and theorems come
    last. *)

From Stdlib Require Import ZArith List String Ascii Bool Lia Floats.
From Stdlib Require Import Decimal DecimalString DecimalNat DecimalZ DecimalPos.
From Stdlib Require Uint63.
Import ListNotations.

Set Warnings "-inexact-float,-register-all".
Open Scope string_scope.
Open Scope Z_scope.

(* ================================================================== *)
(** * The Python runtime, as far as the two files use it *)
(* ================================================================== *)

Module Py.

(** A value read by [json.load] or built from such values: [None], a
    bool, an int (unbounded), a float (binary64), a str (its UTF-8
    bytes), a list, or a dict (insertion ordered, string keys). *)
Inductive value : Type :=
| VNone
| VBool (b : bool)
| VInt (z : Z)
| VFloat (f : float)
| VStr (s : string)
| VList (l : list value)
| VDict (d : list (string * value)).

Definition dict := list (string * value).

(** The exceptions the code can meet. *)
Inductive exn : Type :=
| KeyError (key : string)
| TypeError
| AttributeError
| ValueError
| OverflowError
| ZeroDivisionError.

(** The outcome of a call: it returns, it raises, or ([Unmodelled]) it
    reaches a behaviour decided inside a library on data outside the
    shapes this development covers (the ordering of lists, pandas on
    data that is not a list of mappings). No theorem below concludes
    anything from [Unmodelled]. *)
Inductive outcome (A : Type) : Type :=
| Return (a : A)
| Raise (e : exn)
| Unmodelled.
Arguments Return {A} a.
Arguments Raise {A} e.
Arguments Unmodelled {A}.

Definition bind {A B} (m : outcome A) (k : A -> outcome B) : outcome B :=
  match m with
  | Return a => k a
  | Raise e => Raise e
  | Unmodelled => Unmodelled
  end.

Declare Scope py_scope.
Delimit Scope py_scope with py.
Notation "x <- m ;; k" := (bind m (fun x => k))
  (at level 61, m at next level, right associativity) : py_scope.
Notation "m ;;; k" := (bind m (fun _ => k))
  (at level 61, right associativity) : py_scope.
Open Scope py_scope.

(** [for x in xs: acc = step acc x], stopping at the first exception. *)
Fixpoint foldM {A B} (step : B -> A -> outcome B) (xs : list A) (acc : B)
  : outcome B :=
  match xs with
  | [] => Return acc
  | x :: xs' => acc' <- step acc x ;; foldM step xs' acc'
  end.

Fixpoint mapM {A B} (f : A -> outcome B) (xs : list A) : outcome (list B) :=
  match xs with
  | [] => Return []
  | x :: xs' => y <- f x ;; ys <- mapM f xs' ;; Return (y :: ys)
  end.

(** ** Strings *)

(** [needle in hay] for two strs. *)
Fixpoint contains (needle hay : string) : bool :=
  if prefix needle hay then true
  else match hay with
       | EmptyString => false
       | String _ hay' => contains needle hay'
       end.

(** A UTF-8 continuation byte, 0x80..0xBF. *)
Definition is_continuation (c : ascii) : bool :=
  let n := N_of_ascii c in (N.leb 128 n && N.ltb n 192)%bool.

(** The characters (code points) of a str, each as the str of its bytes. *)
Fixpoint chars (s : string) : list string :=
  match s with
  | EmptyString => []
  | String c s' =>
      let rest := chars s' in
      let continued := match s' with
                       | String c' _ => is_continuation c'
                       | EmptyString => false
                       end in
      match rest with
      | g :: gs => if continued then String c g :: gs
                   else String c EmptyString :: rest
      | [] => [String c EmptyString]
      end
  end.

Fixpoint repeat_string (n : nat) (s : string) : string :=
  match n with
  | O => EmptyString
  | S n' => s ++ repeat_string n' s
  end.

Fixpoint repeat_list {A} (n : nat) (l : list A) : list A :=
  match n with
  | O => []
  | S n' => l ++ repeat_list n' l
  end.

(** [sep.join(parts)] *)
Definition join (sep : string) (parts : list string) : string :=
  String.concat sep parts.

(** ** Dicts *)

Fixpoint lookup (k : string) (d : dict) : option value :=
  match d with
  | [] => None
  | (k', v) :: d' => if String.eqb k k' then Some v else lookup k d'
  end.

Definition has_key (k : string) (d : dict) : bool :=
  match lookup k d with Some _ => true | None => false end.

(** [d[k] = v]: the value is replaced in place when the key is there,
    the pair is appended otherwise. *)
Fixpoint dict_set (k : string) (v : value) (d : dict) : dict :=
  match d with
  | [] => [(k, v)]
  | (k', v') :: d' =>
      if String.eqb k k' then (k', v) :: d' else (k', v') :: dict_set k v d'
  end.

Definition keys (d : dict) : list string := map fst d.
Definition values (d : dict) : list value := map snd d.

(** [bool(v)] *)
Definition truthy (v : value) : bool :=
  match v with
  | VNone => false
  | VBool b => b
  | VInt z => negb (z =? 0)
  | VFloat f => negb (PrimFloat.eqb f 0%float)
  | VStr s => negb (String.eqb s "")
  | VList l => match l with [] => false | _ => true end
  | VDict d => match d with [] => false | _ => true end
  end.

(** [o.get(k, default)]: only a dict has [get]. *)
Definition get (o : value) (k : string) (default : value) : outcome value :=
  match o with
  | VDict d => Return (match lookup k d with Some v => v | None => default end)
  | _ => Raise AttributeError
  end.

(** [o[k]] for a str key. *)
Definition getitem (o : value) (k : string) : outcome value :=
  match o with
  | VDict d => match lookup k d with
               | Some v => Return v
               | None => Raise (KeyError k)
               end
  | _ => Raise TypeError
  end.

(** [k in o] for a str [k]. *)
Definition isin (k : string) (o : value) : outcome bool :=
  match o with
  | VDict d => Return (has_key k d)
  | VList l => Return (existsb (fun x => match x with
                                         | VStr s => String.eqb s k
                                         | _ => false
                                         end) l)
  | VStr s => Return (contains k s)
  | _ => Raise TypeError
  end.

(** [len(o)] *)
Definition len (o : value) : outcome Z :=
  match o with
  | VStr s => Return (Z.of_nat (List.length (chars s)))
  | VList l => Return (Z.of_nat (List.length l))
  | VDict d => Return (Z.of_nat (List.length d))
  | _ => Raise TypeError
  end.

(** [iter(o)]: the items a [for] loop or a generator visits. *)
Definition iter (o : value) : outcome (list value) :=
  match o with
  | VList l => Return l
  | VDict d => Return (map VStr (keys d))
  | VStr s => Return (map VStr (chars s))
  | _ => Raise TypeError
  end.

(** [sum(1 for x in xs if cond(x))] *)
Definition count_if (cond : value -> outcome bool) (xs : list value)
  : outcome Z :=
  foldM (fun n x => b <- cond x ;; Return (if b then n + 1 else n)) xs 0.

(** ** Numbers *)

(** [float(z)]: the nearest binary64, ties to even. *)
Definition float_of_Z (z : Z) : outcome float :=
  match binary_normalize prec emax z 0 false with
  | S754_infinity _ => Raise OverflowError
  | sf => Return (SF2Prim sf)
  end.

(** An int against a float, compared exactly as Python does. [None]:
    the float is a NaN. *)
Definition compare_Z_float (z : Z) (f : float) : option comparison :=
  match Prim2SF f with
  | S754_nan => None
  | S754_infinity s => Some (if s then Gt else Lt)
  | S754_zero _ => Some (z ?= 0)
  | S754_finite s m e =>
      let sm := if s then Z.neg m else Z.pos m in
      Some (if 0 <=? e then z ?= sm * 2 ^ e else z * 2 ^ (- e) ?= sm)
  end.

(** A bool is an int in arithmetic. *)
Inductive num : Type :=
| NInt (z : Z)
| NFloat (f : float).

Definition as_num (v : value) : option num :=
  match v with
  | VBool b => Some (NInt (Z.b2z b))
  | VInt z => Some (NInt z)
  | VFloat f => Some (NFloat f)
  | _ => None
  end.

(** [a > b] *)
Definition gt (a b : value) : outcome bool :=
  match as_num a, as_num b with
  | Some (NInt x), Some (NInt y) => Return (y <? x)
  | Some (NFloat x), Some (NFloat y) => Return (PrimFloat.ltb y x)
  | Some (NInt x), Some (NFloat y) =>
      Return (match compare_Z_float x y with Some Gt => true | _ => false end)
  | Some (NFloat x), Some (NInt y) =>
      Return (match compare_Z_float y x with Some Lt => true | _ => false end)
  | _, _ =>
      match a, b with
      | VStr x, VStr y => Return (String.ltb y x)
      | VList _, VList _ => Unmodelled
      | _, _ => Raise TypeError
      end
  end.

(** [seq * n] for a str or a list. *)
Definition repeat_seq (v : value) (n : Z) : outcome value :=
  match v with
  | VStr s => Return (VStr (repeat_string (Z.to_nat n) s))
  | VList l => Return (VList (repeat_list (Z.to_nat n) l))
  | _ => Raise TypeError
  end.

(** [a * b] *)
Definition mul (a b : value) : outcome value :=
  match as_num a, as_num b with
  | Some (NInt x), Some (NInt y) => Return (VInt (x * y))
  | Some (NFloat x), Some (NFloat y) => Return (VFloat (x * y))
  | Some (NInt x), Some (NFloat y) =>
      fx <- float_of_Z x ;; Return (VFloat (fx * y))
  | Some (NFloat x), Some (NInt y) =>
      fy <- float_of_Z y ;; Return (VFloat (x * fy))
  | Some (NInt n), None => repeat_seq b n
  | None, Some (NInt n) => repeat_seq a n
  | _, _ => Raise TypeError
  end.

(** [a + b] *)
Definition add (a b : value) : outcome value :=
  match as_num a, as_num b with
  | Some (NInt x), Some (NInt y) => Return (VInt (x + y))
  | Some (NFloat x), Some (NFloat y) => Return (VFloat (x + y))
  | Some (NInt x), Some (NFloat y) =>
      fx <- float_of_Z x ;; Return (VFloat (fx + y))
  | Some (NFloat x), Some (NInt y) =>
      fy <- float_of_Z y ;; Return (VFloat (x + fy))
  | _, _ =>
      match a, b with
      | VStr x, VStr y => Return (VStr (x ++ y))
      | VList x, VList y => Return (VList (List.app x y))
      | _, _ => Raise TypeError
      end
  end.

(** [a - b] *)
Definition sub (a b : value) : outcome value :=
  match as_num a, as_num b with
  | Some (NInt x), Some (NInt y) => Return (VInt (x - y))
  | Some (NFloat x), Some (NFloat y) => Return (VFloat (x - y))
  | Some (NInt x), Some (NFloat y) =>
      fx <- float_of_Z x ;; Return (VFloat (fx - y))
  | Some (NFloat x), Some (NInt y) =>
      fy <- float_of_Z y ;; Return (VFloat (x - fy))
  | _, _ => Raise TypeError
  end.

(** [max(xs)] for a list that is not empty: the first item is kept
    until a later one is [>] it. *)
Definition max_of (x : value) (xs : list value) : outcome value :=
  foldM (fun best item => b <- gt item best ;;
                          Return (if b then item else best)) xs x.

(** [a / b] for two ints: the binary64 nearest to the exact quotient.
    The quotient is taken with at least 55 bits and one sticky bit, then
    rounded once. *)
Definition int_truediv (a b : Z) : outcome float :=
  if b =? 0 then Raise ZeroDivisionError
  else if a =? 0 then
    Return (if b <? 0 then (-0)%float else 0%float)
  else
    let neg := xorb (a <? 0) (b <? 0) in
    let a' := Z.abs a in
    let b' := Z.abs b in
    let k := Z.max 0 (55 + Z.log2 b' - Z.log2 a') in
    let q := (a' * 2 ^ k) / b' in
    let sticky := if (a' * 2 ^ k) mod b' =? 0 then 0 else 1 in
    let m := 2 * q + sticky in
    match binary_normalize prec emax (if neg then - m else m) (- k - 1) false with
    | S754_infinity _ => Raise OverflowError
    | sf => Return (SF2Prim sf)
    end.

(** [x / y] for two floats. *)
Definition float_truediv (x y : float) : outcome float :=
  if PrimFloat.eqb y 0 then Raise ZeroDivisionError
  else Return (x / y)%float.

(** [a / b] *)
Definition truediv (a b : value) : outcome value :=
  match as_num a, as_num b with
  | Some (NInt x), Some (NInt y) => q <- int_truediv x y ;; Return (VFloat q)
  | Some (NFloat x), Some (NFloat y) =>
      q <- float_truediv x y ;; Return (VFloat q)
  | Some (NInt x), Some (NFloat y) =>
      fx <- float_of_Z x ;; q <- float_truediv fx y ;; Return (VFloat q)
  | Some (NFloat x), Some (NInt y) =>
      fy <- float_of_Z y ;; q <- float_truediv x fy ;; Return (VFloat q)
  | _, _ => Raise TypeError
  end.

(** ** Text of numbers *)

(** [str(z)] for an int. *)
Definition string_of_Z (z : Z) : string :=
  NilZero.string_of_int (Z.to_int z).

Definition round_half_even (num den : Z) : Z :=
  let q := num / den in
  let r := num mod den in
  match 2 * r ?= den with
  | Lt => q
  | Gt => q + 1
  | Eq => if Z.even q then q else q + 1
  end.

Definition zeros (n : nat) : string := repeat_string n "0".

(** The digits of [n / 10^p] with [p] decimals, for [n >= 0]. *)
Definition fixed_digits (p : nat) (n : Z) : string :=
  let scale := 10 ^ Z.of_nat p in
  let frac := string_of_Z (n mod scale) in
  string_of_Z (n / scale) ++
  match p with
  | O => EmptyString
  | _ => "." ++ zeros (p - String.length frac) ++ frac
  end.

(** [format(f, '.pf')] for a float: the exact binary value rounded to
    [p] decimals, ties to even. *)
Definition fixed (p : nat) (f : float) : string :=
  match Prim2SF f with
  | S754_nan => "nan"
  | S754_infinity s => if s then "-inf" else "inf"
  | S754_zero s => (if s then "-" else EmptyString) ++ fixed_digits p 0
  | S754_finite s m e =>
      let num := Z.pos m * 10 ^ Z.of_nat p in
      let n := if 0 <=? e then num * 2 ^ e
               else round_half_even num (2 ^ (- e)) in
      (if s then "-" else EmptyString) ++ fixed_digits p n
  end.

(** [f"{v:.pf}"] *)
Definition format_f (p : nat) (v : value) : outcome string :=
  match v with
  | VFloat f => Return (fixed p f)
  | VInt z => f <- float_of_Z z ;; Return (fixed p f)
  | VBool b => f <- float_of_Z (Z.b2z b) ;; Return (fixed p f)
  | VStr _ => Raise ValueError
  | VNone | VList _ | VDict _ => Raise TypeError
  end.

(** [f"{v:.p%}"]: the float times 100, [p] decimals, a percent sign. *)
Definition format_percent (p : nat) (v : value) : outcome string :=
  match v with
  | VFloat f => Return (fixed p (f * 100) ++ "%")
  | VInt z => f <- float_of_Z z ;; Return (fixed p (f * 100) ++ "%")
  | VBool b => f <- float_of_Z (Z.b2z b) ;; Return (fixed p (f * 100) ++ "%")
  | VStr _ => Raise ValueError
  | VNone | VList _ | VDict _ => Raise TypeError
  end.

(** ** [repr] and [str] *)

(** [10^j <= m * 2^e], exactly. *)
Definition pow10_le (j m e : Z) : bool :=
  10 ^ Z.max j 0 * 2 ^ Z.max (- e) 0 <=? m * 2 ^ Z.max e 0 * 10 ^ Z.max (- j) 0.

(** [floor (log10 (m * 2^e))] for [m > 0]: an estimate from the bit
    length, then the largest of its three neighbours that fits. *)
Definition floor_log10 (m e : Z) : Z :=
  let est := ((Z.log2 m + e) * 30103) / 100000 in
  if pow10_le (est + 1) m e then est + 1
  else if pow10_le est m e then est
  else est - 1.

(** The decimals with [n] digits next to [x = m * 2^e] that read back
    as [x]: [Some (d, k)] stands for [d * 10^k]. The interval of the
    reals that round to [x] is [(4m - below) .. (4m + 2)] in units of
    [2^(e-2)], its ends included when [m] is even. *)
Definition shortest_at (m e : Z) (below : Z) (e10 : Z) (n : Z)
  : option (Z * Z) :=
  let k := e10 - n + 1 in
  let a := 2 ^ Z.max (e - 2) 0 * 10 ^ Z.max (- k) 0 in
  let b := 2 ^ Z.max (2 - e) 0 * 10 ^ Z.max k 0 in
  let x := 4 * m * a in
  let lo := (4 * m - below) * a in
  let hi := (4 * m + 2) * a in
  let inside c :=
    if Z.even m then ((lo <=? c) && (c <=? hi))%bool
    else ((lo <? c) && (c <? hi))%bool in
  let d0 := x / b in
  let d1 := d0 + 1 in
  match inside (d0 * b), inside (d1 * b) with
  | true, true =>
      match x - d0 * b ?= d1 * b - x with
      | Lt => Some (d0, k)
      | Gt => Some (d1, k)
      | Eq => Some (if Z.even d0 then d0 else d1, k)
      end
  | true, false => Some (d0, k)
  | false, true => Some (d1, k)
  | false, false => None
  end.

Fixpoint shortest_from (fuel : nat) (m e below e10 n : Z) : Z * Z :=
  match shortest_at m e below e10 n, fuel with
  | Some r, _ => r
  | None, S fuel' => shortest_from fuel' m e below e10 (n + 1)
  | None, O => (m * 2 ^ Z.max e 0, 0)
  end.

(** The shortest digits that read back as the float, and the place of
    the decimal point after them: [(digits, decpt)] stands for
    [0.digits * 10^decpt]. *)
Fixpoint strip_zeros (fuel : nat) (d k : Z) : Z * Z :=
  match fuel with
  | O => (d, k)
  | S fuel' => if (d mod 10 =? 0) && negb (d =? 0)
               then strip_zeros fuel' (d / 10) (k + 1) else (d, k)
  end%bool.

Definition shortest_digits (m : positive) (e : Z) : string * Z :=
  let below := if (Pos.eqb m (2 ^ 52)) && (- 1074 <? e) then 1 else 2 in
  let '(d, k) := shortest_from 17 (Z.pos m) e below
                   (floor_log10 (Z.pos m) e) 1 in
  let '(d', k') := strip_zeros 400 d k in
  let ds := string_of_Z d' in
  (ds, Z.of_nat (String.length ds) + k').

(** [repr(f)]: the shortest decimal that reads back as [f], written
    with an exponent when the point falls outside [-4 < decpt <= 16]. *)
Definition float_repr (f : float) : string :=
  match Prim2SF f with
  | S754_nan => "nan"
  | S754_infinity s => if s then "-inf" else "inf"
  | S754_zero s => if s then "-0.0" else "0.0"
  | S754_finite s m e =>
      let '(ds, decpt) := shortest_digits m e in
      let nd := Z.of_nat (String.length ds) in
      (if s then "-" else EmptyString) ++
      (if (- 4 <? decpt) && (decpt <=? 16) then
         if decpt <=? 0 then "0." ++ zeros (Z.to_nat (- decpt)) ++ ds
         else if nd <=? decpt then ds ++ zeros (Z.to_nat (decpt - nd)) ++ ".0"
         else substring 0 (Z.to_nat decpt) ds ++ "." ++
              substring (Z.to_nat decpt) (Z.to_nat (nd - decpt)) ds
       else
         let x := decpt - 1 in
         let xs := string_of_Z (Z.abs x) in
         substring 0 1 ds ++
         (if 1 <? nd then "." ++ substring 1 (Z.to_nat (nd - 1)) ds
          else EmptyString) ++
         "e" ++ (if x <? 0 then "-" else "+") ++
         zeros (2 - String.length xs) ++ xs)%bool
  end.

Definition quote1 : string := "'".
Definition quote2 : string := String (ascii_of_nat 34) EmptyString.
Definition backslash : string := String (ascii_of_nat 92) EmptyString.

Definition hex_digit (n : N) : string :=
  substring (N.to_nat n) 1 "0123456789abcdef".

(** One byte of a str inside its [repr]. Bytes above 0x7f, the bytes of
    a character outside ASCII, are kept: Python keeps such a character
    when its Unicode tables call it printable. *)
Definition escape_byte (quote : string) (c : ascii) : string :=
  let n := N_of_ascii c in
  let s := String c EmptyString in
  if String.eqb s backslash then backslash ++ backslash
  else if String.eqb s quote then backslash ++ quote
  else if N.eqb n 10 then backslash ++ "n"
  else if N.eqb n 13 then backslash ++ "r"
  else if N.eqb n 9 then backslash ++ "t"
  else if (N.ltb n 32 || N.eqb n 127)%bool
       then backslash ++ "x" ++ hex_digit (N.div n 16) ++ hex_digit (N.modulo n 16)
  else s.

Fixpoint escape_bytes (quote : string) (s : string) : string :=
  match s with
  | EmptyString => EmptyString
  | String c s' => escape_byte quote c ++ escape_bytes quote s'
  end.

(** [repr(s)] for a str: single quotes unless the str has one and no
    double quote. *)
Definition str_repr (s : string) : string :=
  let quote := if (contains quote1 s && negb (contains quote2 s))%bool
               then quote2 else quote1 in
  quote ++ escape_bytes quote s ++ quote.

(** [repr(v)] *)
Fixpoint repr (v : value) : string :=
  match v with
  | VNone => "None"
  | VBool b => if b then "True" else "False"
  | VInt z => string_of_Z z
  | VFloat f => float_repr f
  | VStr s => str_repr s
  | VList l => "[" ++ join ", " (map repr l) ++ "]"
  | VDict d =>
      "{" ++ join ", " (map (fun kv => match kv with
                                       | (k, x) => str_repr k ++ ": " ++ repr x
                                       end) d) ++ "}"
  end.

(** [str(v)], which is also [f"{v}"]. *)
Definition str (v : value) : string :=
  match v with
  | VStr s => s
  | _ => repr v
  end.

End Py.

(* ================================================================== *)
(** * pandas, as far as visualize.py uses it *)
(* ================================================================== *)

Module Pandas.
Import Py.

(** [pd.DataFrame(data)] for a list of mappings: one row per mapping,
    one column per key. The frame is held as its list of rows. *)
Definition DataFrame (data : value) : outcome (list dict) :=
  match data with
  | VList l =>
      mapM (fun r => match r with
                     | VDict d => Return d
                     | _ => Unmodelled
                     end) l
  | _ => Unmodelled
  end.

Definition nan : float := (0 / 0)%float.

(** [df[c]]: [KeyError] when no row has the key; a row without it
    holds NaN. *)
Definition column (c : string) (df : list dict) : outcome (list value) :=
  if existsb (has_key c) df then
    Return (map (fun r => match lookup c r with
                          | Some v => v
                          | None => VFloat nan
                          end) df)
  else Raise (KeyError c).

Definition int64 (z : Z) : bool := (- 2 ^ 63 <=? z) && (z <? 2 ^ 63).

(** [series.astype(int)] for a column of flags: a bool is 0 or 1, an
    int is kept, NaN cannot be cast. *)
Definition astype_int (series : list value) : outcome (list Z) :=
  mapM (fun v => match v with
                 | VBool b => Return (Z.b2z b)
                 | VInt z => if int64 z then Return z else Unmodelled
                 | VFloat f => if PrimFloat.eqb f f then Unmodelled
                               else Raise ValueError
                 | _ => Unmodelled
                 end) series.

(** [series.str.len()]: the length of each str or list of the column. *)
Definition str_len (series : list value) : outcome (list Z) :=
  mapM (fun v => match v with
                 | VStr _ | VList _ => len v
                 | _ => Unmodelled
                 end) series.

(** [a + b] for two columns of one frame. *)
Definition series_add (a b : list Z) : list Z :=
  map (fun xy => fst xy + snd xy) (combine a b).

(** An int64 of a column as binary64, as numpy converts it. *)
Definition to_float (z : Z) : float :=
  if z <? 0 then (- PrimFloat.of_uint63 (Uint63.of_Z (- z)))%float
  else PrimFloat.of_uint63 (Uint63.of_Z z).

(** [np.column_stack((lengths, ai_prob * 100)).T]: the two rows of the
    heat map. numpy holds them in one array of one dtype: int64 when
    every probability is an int, binary64 when they are ints and floats. *)
Definition heatmap_rows (lengths : list Z) (ai_prob : list value)
  : outcome (list (list value)) :=
  if forallb (fun v => match v with
                       | VInt z => int64 (z * 100)
                       | _ => false
                       end) ai_prob
  then Return [map VInt lengths;
               map (fun v => match v with
                             | VInt z => VInt (z * 100)
                             | _ => v
                             end) ai_prob]
  else if forallb (fun v => match v with
                            | VInt z => int64 z
                            | VFloat _ => true
                            | _ => false
                            end) ai_prob
  then Return [map (fun n => VFloat (to_float n)) lengths;
               map (fun v => match v with
                             | VInt z => VFloat (to_float z * 100)
                             | VFloat f => VFloat (f * 100)
                             | _ => v
                             end) ai_prob]
  else Unmodelled.

(** [series.rolling(window, min_periods).mean()], the way pandas runs
    it: one pass that keeps the sum and the number of the observations
    in the window; at each position it removes the value that leaves
    the window, once the window is full, and adds the one that enters;
    the mean is NaN while the window holds fewer than [min_periods]
    observations. [seen] holds the values of the window, oldest first.
    The sum is kept exactly; pandas keeps it in binary64, which is
    exact below 2^53. *)
Fixpoint roll_mean (window min_periods : nat) (seen : list Z) (sum_x : Z)
    (xs : list Z) : list float :=
  match xs with
  | [] => []
  | x :: xs' =>
      let '(seen1, sum1) :=
        if (List.length seen <? window)%nat then (seen, sum_x)
        else match seen with
             | [] => (seen, sum_x)
             | old :: rest => (rest, sum_x - old)
             end in
      let seen2 := List.app seen1 [x] in
      let sum2 := sum1 + x in
      let nobs := List.length seen2 in
      (if (min_periods <=? nobs)%nat
       then (to_float sum2 / to_float (Z.of_nat nobs))%float
       else nan)
        :: roll_mean window min_periods seen2 sum2 xs'
  end.

Definition rolling_mean (window min_periods : nat) (series : list Z)
  : list float :=
  roll_mean window min_periods [] 0 series.

End Pandas.

(* ================================================================== *)
(** * plotly: a figure as the data the code hands over *)
(* ================================================================== *)

Module Plotly.
Import Py.

(** One trace of [go.Figure]. *)
Inductive trace : Type :=
| Pie (labels : list string) (values : list value) (hole : float)
      (marker_colors : list string)
| Scatterpolar (r : list value) (theta : list string) (fill name : string)
| Bar (x : list string) (y : list value) (marker_color : value)
      (text : option (list value))
| Heatmap (z : list (list value)) (x : list Z) (y : list string)
          (colorscale : string)
| Scatter (x : list Z) (y : list float) (name mode : string).

(** A figure: its traces and the keywords of [update_layout]. *)
Record Figure : Type := { data : list trace; layout : dict }.

End Plotly.

(* ================================================================== *)
(** * script.py *)
(* ================================================================== *)

Module Script.
Import Py.

(** Several [output.append(line)] in a row. *)
Definition extend (output lines : list string) : list string :=
  List.app output lines.

(** The line feed of a Python newline escape. *)
Definition nl : string := String (ascii_of_nat 10) EmptyString.

(** [if k in result and result[k]]: the section under [k], when the key
    is there and its value is truthy. *)
Definition section (k : string) (result : dict) : option value :=
  match lookup k result with
  | Some v => if truthy v then Some v else None
  | None => None
  end.

(** Lines 121-130, the body of [if "ai" in result and result["ai"]]. *)
Definition format_ai (ai_data : value) (output : list string)
  : outcome (list string) :=
  has_classification <- isin "classification" ai_data ;;
  output <-
    (if has_classification then
       c1 <- getitem ai_data "classification" ;;
       ai <- get c1 "AI" (VStr "N/A") ;;
       c2 <- getitem ai_data "classification" ;;
       original <- get c2 "Original" (VStr "N/A") ;;
       Return (extend output [nl ++ "AI Detection Results:";
                          "AI Probability: " ++ str ai;
                          "Original Probability: " ++ str original])
     else Return output) ;;
  has_confidence <- isin "confidence" ai_data ;;
  if has_confidence then
    c1 <- getitem ai_data "confidence" ;;
    ai <- get c1 "AI" (VStr "N/A") ;;
    ai_text <- format_percent 2 ai ;;
    c2 <- getitem ai_data "confidence" ;;
    original <- get c2 "Original" (VStr "N/A") ;;
    original_text <- format_percent 2 original ;;
    Return (extend output [nl ++ "Confidence Scores:";
                       "AI Confidence: " ++ ai_text;
                       "Original Confidence: " ++ original_text])
  else Return output.

(** Line 141, one line per match. *)
Definition format_match (match_ : value) : outcome string :=
  url <- get match_ "url" (VStr "N/A") ;;
  score <- get match_ "score" (VStr "N/A") ;;
  Return ("- " ++ str url ++ ": " ++ str score ++ "% match").

(** Lines 133-141. *)
Definition format_plagiarism (plag_data : value) (output : list string)
  : outcome (list string) :=
  let output := extend output [nl ++ "Plagiarism Results:"] in
  has_score <- isin "score" plag_data ;;
  output <-
    (if has_score then
       score <- getitem plag_data "score" ;;
       Return (extend output ["Plagiarism Score: " ++ str score ++ "%"])
     else Return output) ;;
  has_matches <- isin "matches" plag_data ;;
  some_matches <-
    (if has_matches then
       m <- getitem plag_data "matches" ;; Return (truthy m)
     else Return false) ;;
  if some_matches then
    matches <- getitem plag_data "matches" ;;
    items <- iter matches ;;
    lines <- mapM format_match items ;;
    Return (extend (extend output [nl ++ "Plagiarism Matches:"]) lines)
  else Return output.

(** Lines 144-157. *)
Definition format_readability (read_data : value) (output : list string)
  : outcome (list string) :=
  let output := extend output [nl ++ "Readability Metrics:"] in
  has_stats <- isin "textStats" read_data ;;
  output <-
    (if has_stats then
       stats <- getitem read_data "textStats" ;;
       words <- get stats "uniqueWordCount" (VStr "N/A") ;;
       sentences <- get stats "sentenceCount" (VStr "N/A") ;;
       speaking <- get stats "averageSpeakingTime" (VStr "N/A") ;;
       reading <- get stats "averageReadingTime" (VStr "N/A") ;;
       Return (extend output ["Word Count: " ++ str words;
                "Sentence Count: " ++ str sentences;
                "Average Speaking Time: " ++ str speaking ++ " minutes";
                "Average Reading Time: " ++ str reading ++ " minutes"])
     else Return output) ;;
  has_scores <- isin "readability" read_data ;;
  if has_scores then
    scores <- getitem read_data "readability" ;;
    ease <- get scores "fleschReadingEase" (VStr "N/A") ;;
    grade <- get scores "fleschGradeLevel" (VStr "N/A") ;;
    Return (extend output [nl ++ "Readability Scores:";
             "Flesch Reading Ease: " ++ str ease;
             "Flesch-Kincaid Grade Level: " ++ str grade])
  else Return output.

(** Lines 160-161. *)
Definition format_grammar (grammar : value) (output : list string)
  : outcome (list string) :=
  has_error <- isin "error" grammar ;;
  if has_error then
    e <- getitem grammar "error" ;;
    Return (extend output [nl ++ "Grammar & Spelling: " ++ str e])
  else Return output.

(** Lines 164-168. *)
Definition format_credits (credits : value) (output : list string)
  : outcome (list string) :=
  used <- get credits "used" (VStr "N/A") ;;
  base <- get credits "base_credits" (VStr "N/A") ;;
  subscription <- get credits "subscription_credits" (VStr "N/A") ;;
  Return (extend output [nl ++ "Credits Information:";
           "Used Credits: " ++ str used;
           "Base Credits: " ++ str base;
           "Subscription Credits: " ++ str subscription]).

(** One [if k in result and result[k]: ...] block. *)
Definition when_section (k : string) (result : dict)
    (body : value -> list string -> outcome (list string))
    (output : list string) : outcome (list string) :=
  match section k result with
  | Some v => body v output
  | None => Return output
  end.

(** [format_results(result)] *)
Definition format_results (result : dict) : outcome string :=
  match lookup "error" result with
  | Some e => Return ("Error: " ++ str e)
  | None =>
      output <- when_section "ai" result format_ai [] ;;
      output <- when_section "plagiarism" result format_plagiarism output ;;
      output <- when_section "readability" result format_readability output ;;
      output <- when_section "grammarSpelling" result format_grammar output ;;
      output <- when_section "credits" result format_credits output ;;
      Return (match output with
              | [] => "No results available"
              | _ => join nl output
              end)
  end.

End Script.

(* ================================================================== *)
(** * jinja2: what the report template asks of it *)
(* ================================================================== *)

Module Jinja.
Import Py.

(** The double quote of the template's attributes. *)
Definition dq : string := String (ascii_of_nat 34) EmptyString.

(** A piece of template text, line by line. *)
Definition lines (ls : list string) : string := join Script.nl ls.

(** The text of an expression [obj.name], for the six names of the
    report template (title, id, public_link, used, base_credits,
    subscription_credits), none of which is an attribute of a dict, a
    list or a number: the item under the name, and nothing when there is
    none. A str has a method [title], whose text holds an address. *)
Definition attribute (obj : value) (name : string) : outcome string :=
  match obj with
  | VDict d => Return (match lookup name d with
                       | Some v => str v
                       | None => EmptyString
                       end)
  | VStr _ => if String.eqb name "title" then Unmodelled
              else Return EmptyString
  | _ => Return EmptyString
  end.

End Jinja.

(* ================================================================== *)
(** * visualize.py *)
(* ================================================================== *)

Module Visualize.
Import Py.
Import Plotly.

Definition nl : string := Script.nl.

(** [self.data.get(k)] *)
Definition data_get (data : dict) (k : string) : value :=
  match lookup k data with
  | Some v => v
  | None => VNone
  end.

(** ** Metric derivation *)

(** [sum(1 for s in sentences if s.get(k, default))] *)
Definition count_flag (k : string) (default : value) (sentences : list value)
  : outcome Z :=
  count_if (fun s => v <- get s k default ;; Return (truthy v)) sentences.

(** [analyze_sentence_complexity(self)]: the empty dict, or the dict of
    the five counts. *)
Definition analyze_sentence_complexity (data : dict) : outcome dict :=
  if negb (truthy (data_get data "readability")) then Return []
  else
    readability <- getitem (VDict data) "readability" ;;
    sentences <- get readability "sentences" (VList []) ;;
    total <- len sentences ;;
    items <- iter sentences ;;
    hard <- count_flag "isHard" (VBool false) items ;;
    very_hard <- count_flag "isVeryHard" (VBool false) items ;;
    long_words <- count_flag "wordsOver13Chars" (VList []) items ;;
    complex_words <- count_flag "wordsOver4Syllables" (VList []) items ;;
    Return [("total_sentences", VInt total);
            ("hard_sentences", VInt hard);
            ("very_hard_sentences", VInt very_hard);
            ("sentences_with_long_words", VInt long_words);
            ("sentences_with_complex_words", VInt complex_words)].

(** One row of the frame [analyze_ai_blocks] returns. *)
Record block_row : Type :=
  { text : value; ai_score : value; human_score : value }.

(** [lambda x: x.get(k, 0) * 100] *)
Definition score_of (k : string) (x : value) : outcome value :=
  p <- get x k (VInt 0) ;; mul p (VInt 100).

(** [not self.data.get('ai') or not self.data['ai'].get('blocks')] *)
Definition no_blocks (data : dict) : outcome bool :=
  if negb (truthy (data_get data "ai")) then Return true
  else
    ai <- getitem (VDict data) "ai" ;;
    blocks <- get ai "blocks" VNone ;;
    Return (negb (truthy blocks)).

(** [analyze_ai_blocks(self)]: the rows of [df[['text', 'ai_score',
    'human_score']]], the empty list for the empty frame. Each score is
    kept as the lambda computes it; pandas then holds a column in one
    dtype, an int beside floats as the float of the same value. *)
Definition analyze_ai_blocks (data : dict) : outcome (list block_row) :=
  none <- no_blocks data ;;
  if none then Return []
  else
    ai <- getitem (VDict data) "ai" ;;
    blocks <- getitem ai "blocks" ;;
    df <- Pandas.DataFrame blocks ;;
    result <- Pandas.column "result" df ;;
    ai_scores <- mapM (score_of "fake") result ;;
    result' <- Pandas.column "result" df ;;
    human_scores <- mapM (score_of "real") result' ;;
    texts <- Pandas.column "text" df ;;
    Return (map (fun r => {| text := fst (fst r);
                             ai_score := snd (fst r);
                             human_score := snd r |})
                (combine (combine texts ai_scores) human_scores)).

(** ** Insights *)

(** [sum(1 for b in blocks if b['result'].get('fake', 0) > 0.75)] *)
Definition high_ai_count (blocks : list value) : outcome Z :=
  count_if (fun b => r <- getitem b "result" ;;
                     fake <- get r "fake" (VInt 0) ;;
                     gt fake (VFloat 0.75)) blocks.

(** Lines 305-314. *)
Definition ai_insights (data : dict) (insights : list string)
  : outcome (list string) :=
  if truthy (data_get data "ai") then
    ai <- getitem (VDict data) "ai" ;;
    ai_conf <- getitem ai "confidence" ;;
    p <- get ai_conf "AI" (VInt 0) ;;
    ai_prob <- mul p (VInt 100) ;;
    prob_text <- format_f 1 ai_prob ;;
    let insights :=
      Script.extend insights
        ["ðŸ¤– AI Detection:";
         "  - Overall AI Probability: " ++ prob_text ++ "%"] in
    ai' <- getitem (VDict data) "ai" ;;
    blocks <- get ai' "blocks" (VList []) ;;
    if truthy blocks then
      items <- iter blocks ;;
      high_ai_blocks <- high_ai_count items ;;
      Return (Script.extend insights
                ["  - " ++ str (VInt high_ai_blocks) ++
                 " text blocks show strong AI characteristics"])
    else Return insights
  else Return insights.

(** Lines 325-332. *)
Definition complexity_insight (data : dict) (insights : list string)
  : outcome (list string) :=
  complexity <- analyze_sentence_complexity data ;;
  if truthy (VDict complexity) then
    total <- getitem (VDict complexity) "total_sentences" ;;
    hard <- getitem (VDict complexity) "hard_sentences" ;;
    very_hard <- getitem (VDict complexity) "very_hard_sentences" ;;
    positive <- gt total (VInt 0) ;;
    if positive then
      s <- add hard very_hard ;;
      q <- truediv s total ;;
      hard_percent <- mul q (VInt 100) ;;
      percent_text <- format_f 1 hard_percent ;;
      Return (Script.extend insights
                ["  - " ++ percent_text ++ "% of sentences are complex"])
    else Return insights
  else Return insights.

(** Lines 317-332. *)
Definition readability_insights (data : dict) (insights : list string)
  : outcome (list string) :=
  if truthy (data_get data "readability") then
    r <- getitem (VDict data) "readability" ;;
    metrics <- getitem r "readability" ;;
    r' <- getitem (VDict data) "readability" ;;
    stats <- getitem r' "textStats" ;;
    ease <- get metrics "fleschReadingEase" (VInt 0) ;;
    ease_text <- format_f 1 ease ;;
    time <- get stats "averageReadingTime" (VInt 0) ;;
    time_text <- format_f 1 time ;;
    complexity_insight data
      (Script.extend insights
         [nl ++ "ðŸ“š Readability Analysis:";
          "  - Flesch Reading Ease: " ++ ease_text;
          "  - Average Reading Time: " ++ time_text ++ " minutes"])
  else Return insights.

(** Lines 335-341. *)
Definition plagiarism_insights (data : dict) (insights : list string)
  : outcome (list string) :=
  if truthy (data_get data "plagiarism") then
    plag_data <- getitem (VDict data) "plagiarism" ;;
    score <- get plag_data "score" (VInt 0) ;;
    let insights :=
      Script.extend insights
        [nl ++ "ðŸ” Plagiarism Check:";
         "  - Overall Score: " ++ str score ++ "%"] in
    matches <- get plag_data "matches" VNone ;;
    if truthy matches then
      m <- getitem plag_data "matches" ;;
      n <- len m ;;
      Return (Script.extend insights
                ["  - Found " ++ str (VInt n) ++ " potential matches"])
    else Return insights
  else Return insights.

(** [generate_detailed_insights(self)] *)
Definition generate_detailed_insights (data : dict) : outcome (list string) :=
  insights <- ai_insights data [] ;;
  insights <- readability_insights data insights ;;
  plagiarism_insights data insights.

(** ** Figures *)

Definition figure (traces : list trace) (layout : dict) : Figure :=
  {| data := traces; layout := layout |}.

(** [np.arange(n)] *)
Definition arange (n : nat) : list Z := map Z.of_nat (seq 0 n).

(** [plot_ai_detection_results(self)] *)
Definition plot_ai_detection_results (data : dict) : outcome (option Figure) :=
  if negb (truthy (data_get data "ai")) then Return None
  else
    ai_data <- getitem (VDict data) "ai" ;;
    c1 <- getitem ai_data "confidence" ;;
    ai <- get c1 "AI" (VInt 0) ;;
    ai100 <- mul ai (VInt 100) ;;
    c2 <- getitem ai_data "confidence" ;;
    original <- get c2 "Original" (VInt 0) ;;
    original100 <- mul original (VInt 100) ;;
    Return (Some (figure
      [Pie ["AI Generated"; "Original"] [ai100; original100] 0.3
           ["#FF9999"; "#66B2FF"]]
      [("title", VStr "AI Detection Confidence Scores");
       ("annotations",
        VList [VDict [("text", VStr "AI Analysis"); ("x", VFloat 0.5);
                      ("y", VFloat 0.5); ("font_size", VInt 20);
                      ("showarrow", VBool false)]])])).

(** [plot_readability_metrics(self)] *)
Definition plot_readability_metrics (data : dict) : outcome (option Figure) :=
  if negb (truthy (data_get data "readability")) then Return None
  else
    r <- getitem (VDict data) "readability" ;;
    metrics <- getitem r "readability" ;;
    v1 <- get metrics "fleschReadingEase" (VInt 0) ;;
    v2 <- get metrics "fleschGradeLevel" (VInt 0) ;;
    v3 <- get metrics "gunningFoxIndex" (VInt 0) ;;
    v4 <- get metrics "smogIndex" (VInt 0) ;;
    v5 <- get metrics "colemanLiauIndex" (VInt 0) ;;
    top <- max_of v1 [v2; v3; v4; v5] ;;
    upper <- mul top (VFloat 1.2) ;;
    Return (Some (figure
      [Scatterpolar [v1; v2; v3; v4; v5]
         ["Flesch Reading Ease"; "Flesch-Kincaid Grade";
          "Gunning Fox Index"; "SMOG Index"; "Coleman-Liau"]
         "toself" "Readability Scores"]
      [("polar",
        VDict [("radialaxis",
                VDict [("visible", VBool true);
                       ("range", VList [VInt 0; upper])])]);
       ("showlegend", VBool false);
       ("title", VStr "Readability Metrics")])).

Definition palette5 : value :=
  VList [VStr "#FF9999"; VStr "#66B2FF"; VStr "#99FF99"; VStr "#FFCC99";
         VStr "#FF99CC"].

(** [plot_text_statistics(self)] *)
Definition plot_text_statistics (data : dict) : outcome (option Figure) :=
  if negb (truthy (data_get data "readability")) then Return None
  else
    r <- getitem (VDict data) "readability" ;;
    stats <- getitem r "textStats" ;;
    words <- get stats "uniqueWordCount" (VInt 0) ;;
    sentences <- get stats "sentenceCount" (VInt 0) ;;
    syllables <- get stats "syllableCount" (VInt 0) ;;
    speaking <- get stats "averageSpeakingTime" (VInt 0) ;;
    reading <- get stats "averageReadingTime" (VInt 0) ;;
    let metrics : dict :=
      [("Word Count", words); ("Sentence Count", sentences);
       ("Syllable Count", syllables); ("Speaking Time (min)", speaking);
       ("Reading Time (min)", reading)] in
    Return (Some (figure
      [Bar (keys metrics) (values metrics) palette5 None]
      [("title", VStr "Text Statistics"); ("xaxis_title", VStr "Metric");
       ("yaxis_title", VStr "Value")])).

(** [plot_sentence_complexity(self)] *)
Definition plot_sentence_complexity (data : dict) : outcome (option Figure) :=
  analysis <- analyze_sentence_complexity data ;;
  if negb (truthy (VDict analysis)) then Return None
  else
    total <- getitem (VDict analysis) "total_sentences" ;;
    hard <- getitem (VDict analysis) "hard_sentences" ;;
    d <- sub total hard ;;
    very_hard <- getitem (VDict analysis) "very_hard_sentences" ;;
    simple <- sub d very_hard ;;
    hard' <- getitem (VDict analysis) "hard_sentences" ;;
    very_hard' <- getitem (VDict analysis) "very_hard_sentences" ;;
    Return (Some (figure
      [Bar ["Simple"; "Hard"; "Very Hard"] [simple; hard'; very_hard']
           (VList [VStr "#99FF99"; VStr "#FFCC99"; VStr "#FF9999"]) None]
      [("title", VStr "Sentence Complexity Distribution");
       ("xaxis_title", VStr "Complexity Level");
       ("yaxis_title", VStr "Number of Sentences")])).

(** Lines 181-182: [metrics[f'Match {i}'] = match.get('score', 0)]
    for the matches from number [i] on. *)
Fixpoint add_matches (i : Z) (matches : list value) (metrics : dict)
  : outcome dict :=
  match matches with
  | [] => Return metrics
  | match_ :: rest =>
      score <- get match_ "score" (VInt 0) ;;
      add_matches (i + 1) rest
        (dict_set ("Match " ++ str (VInt i)) score metrics)
  end.

(** Lines 172-182: the dict [metrics] of [plot_plagiarism_metrics]. *)
Definition plagiarism_metrics (plag_data : value) : outcome dict :=
  score <- get plag_data "score" (VInt 0) ;;
  let metrics : dict := [("Overall Score", score)] in
  m <- get plag_data "matches" VNone ;;
  if truthy m then
    matches <- getitem plag_data "matches" ;;
    items <- iter matches ;;
    add_matches 1 items metrics
  else Return metrics.

(** [plot_plagiarism_metrics(self)] *)
Definition plot_plagiarism_metrics (data : dict) : outcome (option Figure) :=
  if negb (truthy (data_get data "plagiarism")) then Return None
  else
    plag_data <- getitem (VDict data) "plagiarism" ;;
    metrics <- plagiarism_metrics plag_data ;;
    Return (Some (figure
      [Bar (keys metrics) (values metrics) (VStr "#FF9999")
           (Some (map (fun v => VStr (str v ++ "%")) (values metrics)))]
      [("title", VStr "Plagiarism Analysis");
       ("xaxis_title", VStr "Source");
       ("yaxis_title", VStr "Match Percentage (%)");
       ("yaxis_range", VList [VInt 0; VInt 100])])).

(** [f'{v:.1f}' if isinstance(v, float) else v] *)
Definition detail_text (v : value) : value :=
  match v with
  | VFloat f => VStr (fixed 1 f)
  | _ => v
  end.

(** [plot_readability_details(self)] *)
Definition plot_readability_details (data : dict) : outcome (option Figure) :=
  if negb (truthy (data_get data "readability")) then Return None
  else
    read_data <- getitem (VDict data) "readability" ;;
    text_stats <- getitem read_data "textStats" ;;
    unique <- get text_stats "uniqueWordCount" (VInt 0) ;;
    syllables <- get text_stats "totalSyllables" (VInt 0) ;;
    average <- get text_stats "averageSyllablesPerWord" (VInt 0) ;;
    three <- get text_stats "wordsWithThreeSyllables" (VInt 0) ;;
    percent <- get text_stats "percentWordsWithThreeSyllables" (VInt 0) ;;
    let metrics : dict :=
      [("Unique Words", unique); ("Total Syllables", syllables);
       ("Avg Syllables/Word", average); ("Words with 3+ Syllables", three);
       ("% Complex Words", percent)] in
    Return (Some (figure
      [Bar (keys metrics) (values metrics)
           (VList [VStr "#66B2FF"; VStr "#99FF99"; VStr "#FFCC99";
                   VStr "#FF99CC"; VStr "#FF9999"])
           (Some (map detail_text (values metrics)))]
      [("title", VStr "Detailed Readability Metrics");
       ("xaxis_title", VStr "Metric"); ("yaxis_title", VStr "Value")])).

(** [plot_sentence_heatmap(self)] *)
Definition plot_sentence_heatmap (data : dict) : outcome (option Figure) :=
  none <- no_blocks data ;;
  if none then Return None
  else
    ai <- getitem (VDict data) "ai" ;;
    blocks <- getitem ai "blocks" ;;
    df <- Pandas.DataFrame blocks ;;
    texts <- Pandas.column "text" df ;;
    lengths <- Pandas.str_len texts ;;
    result <- Pandas.column "result" df ;;
    ai_prob <- mapM (fun x => get x "fake" (VInt 0)) result ;;
    z <- Pandas.heatmap_rows lengths ai_prob ;;
    Return (Some (figure
      [Heatmap z (arange (List.length df)) ["Length"; "AI Probability"]
               "RdBu_r"]
      [("title", VStr "Sentence Analysis Heatmap");
       ("xaxis_title", VStr "Sentence Index");
       ("yaxis_title", VStr "Metrics")])).

Definition window_size : nat := 5.

(** [not self.data.get('readability') or
     not self.data['readability'].get('sentences')] *)
Definition no_sentences (data : dict) : outcome bool :=
  if negb (truthy (data_get data "readability")) then Return true
  else
    r <- getitem (VDict data) "readability" ;;
    sentences <- get r "sentences" VNone ;;
    Return (negb (truthy sentences)).

(** Lines 275-279: the three series of the timeline, by name. *)
Definition timeline_metrics (df : list dict)
  : outcome (list (string * list Z)) :=
  hard <- Pandas.column "isHard" df ;;
  hard_int <- Pandas.astype_int hard ;;
  very_hard <- Pandas.column "isVeryHard" df ;;
  very_hard_int <- Pandas.astype_int very_hard ;;
  long_words <- Pandas.column "wordsOver13Chars" df ;;
  long_count <- Pandas.str_len long_words ;;
  complex_words <- Pandas.column "wordsOver4Syllables" df ;;
  complex_count <- Pandas.str_len complex_words ;;
  Return [("Complexity", Pandas.series_add hard_int very_hard_int);
          ("Long Words", long_count);
          ("Complex Words", complex_count)].

(** Lines 283-290: one trace per series. *)
Definition timeline_trace (metric : string * list Z) : trace :=
  let rolling_avg := Pandas.rolling_mean window_size 1 (snd metric) in
  Scatter (arange (List.length rolling_avg)) rolling_avg (fst metric)
          "lines+markers".

(** [plot_readability_timeline(self)] *)
Definition plot_readability_timeline (data : dict) : outcome (option Figure) :=
  none <- no_sentences data ;;
  if none then Return None
  else
    r <- getitem (VDict data) "readability" ;;
    sentences <- getitem r "sentences" ;;
    df <- Pandas.DataFrame sentences ;;
    metrics <- timeline_metrics df ;;
    Return (Some (figure
      (map timeline_trace metrics)
      [("title", VStr ("Readability Timeline (Rolling Average: " ++
                       str (VInt (Z.of_nat window_size)) ++ " sentences)"));
       ("xaxis_title", VStr "Sentence Position");
       ("yaxis_title", VStr "Metric Value");
       ("showlegend", VBool true)])).

(** ** The HTML report *)

Import Jinja.

(** The template of [export_to_html], cut at its tags. *)
Definition template_head : string :=
  lines
    [EmptyString;
     "    <!DOCTYPE html>";
     "    <html>";
     "    <head>";
     "        <title>Originality.AI Analysis Report</title>";
     "        <script src=" ++ dq ++ "https://cdn.plot.ly/plotly-latest.min.js" ++ dq ++ "></script>";
     "        <style>";
     "            body { ";
     "                font-family: 'Segoe UI', Tahoma, Geneva, Verdana, sans-serif;";
     "                margin: 0;";
     "                padding: 20px;";
     "                background-color: #f5f5f5;";
     "            }";
     "            .container { ";
     "                max-width: 1200px;";
     "                margin: auto;";
     "                background-color: white;";
     "                padding: 20px;";
     "                border-radius: 10px;";
     "                box-shadow: 0 2px 10px rgba(0,0,0,0.1);";
     "            }";
     "            .section { ";
     "                margin: 30px 0;";
     "                padding: 20px;";
     "                border: 1px solid #eee;";
     "                border-radius: 8px;";
     "                background-color: white;";
     "            }";
     "            .section h2 {";
     "                color: #2c3e50;";
     "                border-bottom: 2px solid #3498db;";
     "                padding-bottom: 10px;";
     "            }";
     "            .insights { ";
     "                background-color: #f8f9fa;";
     "                padding: 20px;";
     "                border-radius: 8px;";
     "                font-family: monospace;";
     "                white-space: pre-wrap;";
     "            }";
     "            .metric { ";
     "                display: inline-block;";
     "                margin: 10px;";
     "                padding: 15px 25px;";
     "                background-color: #fff;";
     "                border-radius: 8px;";
     "                box-shadow: 0 2px 5px rgba(0,0,0,0.1);";
     "                transition: transform 0.2s;";
     "            }";
     "            .metric:hover {";
     "                transform: translateY(-2px);";
     "                box-shadow: 0 4px 8px rgba(0,0,0,0.15);";
     "            }";
     "            .plot-container {";
     "                margin: 20px 0;";
     "                padding: 10px;";
     "                background-color: white;";
     "                border-radius: 8px;";
     "                box-shadow: 0 2px 5px rgba(0,0,0,0.05);";
     "            }";
     "        </style>";
     "    </head>";
     "    <body>";
     "        <div class=" ++ dq ++ "container" ++ dq ++ ">";
     "            <h1 style=" ++ dq ++ "color: #2c3e50; text-align: center;" ++ dq ++ ">Originality.AI Analysis Report</h1>";
     "            ";
     "            <div class=" ++ dq ++ "section" ++ dq ++ ">";
     "                <h2>Document Properties</h2>";
     "                "].

Definition properties_block (title id public_link : string) : string :=
  (lines
     [EmptyString;
      "                    <div class=" ++ dq ++ "metric" ++ dq ++ ">Title: "]) ++ title ++
  (lines
     ["</div>";
      "                    <div class=" ++ dq ++ "metric" ++ dq ++ ">ID: "]) ++ id ++
  (lines
     ["</div>";
      "                    <div class=" ++ dq ++ "metric" ++ dq ++ ">Public Link: <a href=" ++ dq]) ++ public_link ++
  (lines
     [dq ++ " target=" ++ dq ++ "_blank" ++ dq ++ ">View</a></div>";
      "                "]).

Definition template_insights : string :=
  lines
    [EmptyString;
     "            </div>";
     "            ";
     "            <div class=" ++ dq ++ "section" ++ dq ++ ">";
     "                <h2>Key Insights</h2>";
     "                <div class=" ++ dq ++ "insights" ++ dq ++ ">";
     "                    "].

Definition insight_block (insight : string) : string :=
  (lines
     [EmptyString;
      "                        "]) ++ insight ++
  (lines
     [EmptyString;
      "                    "]).

Definition template_plots : string :=
  lines
    [EmptyString;
     "                </div>";
     "            </div>";
     "            ";
     "            "].

Definition plot_block (plot : string) : string :=
  (lines
     [EmptyString;
      "                <div class=" ++ dq ++ "section" ++ dq ++ ">";
      "                    <div class=" ++ dq ++ "plot-container" ++ dq ++ ">";
      "                        "]) ++ plot ++
  (lines
     [EmptyString;
      "                    </div>";
      "                </div>";
      "            "]).

Definition template_credits : string :=
  lines
    [EmptyString;
     "            ";
     "            <div class=" ++ dq ++ "section" ++ dq ++ ">";
     "                <h2>Credits Information</h2>";
     "                "].

Definition credits_block (used base_credits subscription_credits : string)
  : string :=
  (lines
     [EmptyString;
      "                    <div class=" ++ dq ++ "metric" ++ dq ++ ">Used Credits: "]) ++ used ++
  (lines
     ["</div>";
      "                    <div class=" ++ dq ++ "metric" ++ dq ++ ">Base Credits: "]) ++ base_credits ++
  (lines
     ["</div>";
      "                    <div class=" ++ dq ++ "metric" ++ dq ++ ">Subscription Credits: "]) ++ subscription_credits ++
  (lines
     ["</div>";
      "                "]).

Definition template_tail : string :=
  lines
    [EmptyString;
     "            </div>";
     "        </div>";
     "        <script>";
     "            // Add any interactive features here";
     "            document.addEventListener('DOMContentLoaded', function() {";
     "                // Make plots responsive";
     "                window.onresize = function() {";
     "                    Plotly.Plots.resize();";
     "                };";
     "            });";
     "        </script>";
     "    </body>";
     "    </html>";
     "    "].

(** [{% if properties %} ... {% endif %}] *)
Definition render_properties (properties : value) : outcome string :=
  if truthy properties then
    title <- attribute properties "title" ;;
    id <- attribute properties "id" ;;
    public_link <- attribute properties "public_link" ;;
    Return (properties_block title id public_link)
  else Return EmptyString.

(** [{% if credits %} ... {% endif %}] *)
Definition render_credits (credits : value) : outcome string :=
  if truthy credits then
    used <- attribute credits "used" ;;
    base_credits <- attribute credits "base_credits" ;;
    subscription_credits <- attribute credits "subscription_credits" ;;
    Return (credits_block used base_credits subscription_credits)
  else Return EmptyString.

Definition concat_blocks (blocks : list string) : string :=
  String.concat EmptyString blocks.

Section Report.

(** [fig.to_html(full_html=False, include_plotlyjs=False)], plotly's
    rendering of a figure. *)
Variable to_html : Figure -> string.

(** [[fig.to_html(...) for fig in figs if fig is not None]] *)
Fixpoint plot_htmls (figs : list (option Figure)) : list string :=
  match figs with
  | [] => []
  | Some fig :: figs' => to_html fig :: plot_htmls figs'
  | None :: figs' => plot_htmls figs'
  end.

(** [export_to_html(figs, insights, data)] *)
Definition export_to_html (figs : list (option Figure))
    (insights : list string) (data : dict) : outcome string :=
  let plots := plot_htmls figs in
  let properties := match lookup "properties" data with
                    | Some v => v
                    | None => VDict []
                    end in
  let credits := match lookup "credits" data with
                 | Some v => v
                 | None => VDict []
                 end in
  properties_html <- render_properties properties ;;
  credits_html <- render_credits credits ;;
  Return (template_head ++ properties_html ++
          template_insights ++ concat_blocks (map insight_block insights) ++
          template_plots ++ concat_blocks (map plot_block plots) ++
          template_credits ++ credits_html ++
          template_tail).

(** Lines 653-662 of [display_analysis]: the figures of the report. *)
Definition report_figures (data : dict) : outcome (list (option Figure)) :=
  f1 <- plot_ai_detection_results data ;;
  f2 <- plot_readability_metrics data ;;
  f3 <- plot_text_statistics data ;;
  f4 <- plot_sentence_complexity data ;;
  f5 <- plot_plagiarism_metrics data ;;
  f6 <- plot_readability_details data ;;
  f7 <- plot_readability_timeline data ;;
  f8 <- plot_sentence_heatmap data ;;
  Return [f1; f2; f3; f4; f5; f6; f7; f8].

(** Lines 652-668 of [display_analysis]: the report of a document. *)
Definition html_report (data : dict) : outcome string :=
  figures <- report_figures data ;;
  insights <- generate_detailed_insights data ;;
  export_to_html figures insights data.

End Report.

End Visualize.

(* ================================================================== *)
(** * Reference definitions for the properties *)
(* ================================================================== *)

Module Spec.
Import Py.

(** ** Documents *)

(** The document without the key [k]. *)
Fixpoint without_key (k : string) (d : dict) : dict :=
  match d with
  | [] => []
  | (k', v) :: d' =>
      if String.eqb k k' then without_key k d' else (k', v) :: without_key k d'
  end.

(** Some line of a rendering holds the text. *)
Definition mentions (text : string) (lines : list string) : bool :=
  existsb (contains text) lines.

(** The field [k] of a mapping, [default] when it has none. *)
Definition field (k : string) (default : value) (d : dict) : value :=
  match lookup k d with
  | Some v => v
  | None => default
  end.

(** The mappings of a list of values, when all of them are mappings. *)
Fixpoint as_dicts (l : list value) : option (list dict) :=
  match l with
  | [] => Some []
  | VDict d :: l' => option_map (cons d) (as_dicts l')
  | _ :: _ => None
  end.

(** The sequence of mappings under [k]: empty when the key is absent,
    [None] when the value is not a list of mappings. *)
Definition records_of (k : string) (section : dict) : option (list dict) :=
  match lookup k section with
  | None => Some []
  | Some (VList l) => as_dicts l
  | Some _ => None
  end.

(** The sentence records of a readability section. *)
Definition sentences_of (readability : dict) : option (list dict) :=
  records_of "sentences" readability.

(** The matches of a plagiarism section. *)
Definition matches_of (plagiarism : dict) : option (list dict) :=
  records_of "matches" plagiarism.

(** A number that Python can format as a float, also once it is
    multiplied by 100: a float, a bool, or an int well below the
    binary64 range. *)
Definition is_real (v : value) : bool :=
  match v with
  | VFloat _ | VBool _ => true
  | VInt z => Z.abs z <? 2 ^ 1000
  | _ => false
  end.

(** The lines [m] adds, after the lines already there. *)
Definition after (acc : list string) (m : outcome (list string))
  : outcome (list string) :=
  bind m (fun x => Return (acc ++ x)%list).

(** ** Sentence complexity *)

(** The number of sentences whose field [k] is truthy. *)
Definition count_truthy (k : string) (default : value) (ss : list dict) : Z :=
  Z.of_nat (List.length (filter (fun s => truthy (field k default s)) ss)).

(** DerivedComplexity, as the data model words it. *)
Definition complexity_summary (ss : list dict) : dict :=
  [("total_sentences", VInt (Z.of_nat (List.length ss)));
   ("hard_sentences", VInt (count_truthy "isHard" (VBool false) ss));
   ("very_hard_sentences", VInt (count_truthy "isVeryHard" (VBool false) ss));
   ("sentences_with_long_words",
    VInt (count_truthy "wordsOver13Chars" (VList []) ss));
   ("sentences_with_complex_words",
    VInt (count_truthy "wordsOver4Syllables" (VList []) ss))].

(** [(hard + very_hard) / total * 100] to one decimal. *)
Definition percent_complex (hard very_hard total : Z) : outcome string :=
  q <- int_truediv (hard + very_hard) total ;;
  Return (fixed 1 (q * 100)).

(** The percent-complex line: there when [total > 0], left out
    otherwise. *)
Definition percent_lines (hard very_hard total : Z) : list string :=
  if 0 <? total then
    match percent_complex hard very_hard total with
    | Return text => ["  - " ++ text ++ "% of sentences are complex"]
    | _ => []
    end
  else [].


(** ** Plagiarism metrics *)

(** One entry per match, numbered from [i]. *)
Fixpoint match_entries (i : Z) (ms : list dict) : dict :=
  match ms with
  | [] => []
  | m :: ms' =>
      ("Match " ++ string_of_Z i, field "score" (VInt 0) m)
        :: match_entries (i + 1) ms'
  end.

(** The plagiarism metric set, as section 4.2 words it. *)
Definition plagiarism_metric_set (plagiarism : dict) (ms : list dict) : dict :=
  ("Overall Score", field "score" (VInt 0) plagiarism) :: match_entries 1 ms.

(** ** Rolling timeline *)

(** SentenceRecord of the data model. *)
Record SentenceRecord : Type :=
  { isHard : bool;
    isVeryHard : bool;
    wordsOver13Chars : list string;
    wordsOver4Syllables : list string }.

(** The mapping [d] holds the sentence record [s]. *)
Definition represents (d : dict) (s : SentenceRecord) : Prop :=
  lookup "isHard" d = Some (VBool (isHard s))
  /\ lookup "isVeryHard" d = Some (VBool (isVeryHard s))
  /\ lookup "wordsOver13Chars" d = Some (VList (map VStr (wordsOver13Chars s)))
  /\ lookup "wordsOver4Syllables" d
     = Some (VList (map VStr (wordsOver4Syllables s))).

(** The three series: complexity 0, 1 or 2, long words per sentence,
    complex words per sentence. *)
Definition complexity_series (ss : list SentenceRecord) : list Z :=
  map (fun s => Z.b2z (isHard s) + Z.b2z (isVeryHard s)) ss.

Definition long_word_series (ss : list SentenceRecord) : list Z :=
  map (fun s => Z.of_nat (List.length (wordsOver13Chars s))) ss.

Definition complex_word_series (ss : list SentenceRecord) : list Z :=
  map (fun s => Z.of_nat (List.length (wordsOver4Syllables s))) ss.

(** The sum of the points of a window. *)
Definition total (xs : list Z) : Z := fold_right Z.add 0 xs.

(** The points of the window that ends at position [i]: the last
    [window] points up to [i], fewer near the start. *)
Definition window_at (window : nat) (xs : list Z) (i : nat) : list Z :=
  skipn (i + 1 - window) (firstn (i + 1) xs).

(** The simple moving average as section 4.2 words it: at each
    position, the mean of however many points the window holds. *)
Definition moving_average (window : nat) (xs : list Z) (i : nat) : float :=
  let w := window_at window xs i in
  (Pandas.to_float (total w) / Pandas.to_float (Z.of_nat (List.length w)))%float.

Definition moving_averages (window : nat) (xs : list Z) : list float :=
  map (moving_average window xs) (seq 0 (List.length xs)).

Definition is_nan (f : float) : bool := negb (PrimFloat.eqb f f).

(** One line of the timeline: a point per sentence, the moving average
    over five sentences. *)
Definition timeline_series (name : string) (xs : list Z) : Plotly.trace :=
  Plotly.Scatter (Visualize.arange (List.length xs)) (moving_averages 5 xs)
                 name "lines+markers".

(** ** Text blocks *)

(** A number of the data model. *)
Definition is_number (v : value) : bool :=
  match v with
  | VInt _ | VFloat _ => true
  | _ => false
  end.

(** TextBlock of the data model: a text and a result whose [fake] and
    [real], when there, are numbers. *)
Definition is_text_block (b : dict) : bool :=
  has_key "text" b &&
  match lookup "result" b with
  | Some (VDict r) =>
      is_number (field "fake" (VInt 0) r) && is_number (field "real" (VInt 0) r)
  | _ => false
  end.

(** [result.k] of a block, 0 when it is missing. *)
Definition result_field (k : string) (b : dict) : value :=
  match lookup "result" b with
  | Some (VDict r) => field k (VInt 0) r
  | _ => VInt 0
  end.

(** A number times 100, in the arithmetic of its type. *)
Definition times_100 (v : value) : value :=
  match v with
  | VInt z => VInt (z * 100)
  | VFloat f => VFloat (f * 100)
  | _ => v
  end.

(** The derived row of a block. *)
Definition derived_row (b : dict) : Visualize.block_row :=
  {| Visualize.text := field "text" VNone b;
     Visualize.ai_score := times_100 (result_field "fake" b);
     Visualize.human_score := times_100 (result_field "real" b) |}.

(** A probability: a number in [0, 1]. *)
Definition in_unit_interval (v : value) : bool :=
  match v with
  | VInt z => (0 <=? z) && (z <=? 1)
  | VFloat f => PrimFloat.leb 0 f && PrimFloat.leb f 1
  | _ => false
  end.

(** A percentage: a number in [0, 100]. *)
Definition in_percent_interval (v : value) : bool :=
  match v with
  | VInt z => (0 <=? z) && (z <=? 100)
  | VFloat f => PrimFloat.leb 0 f && PrimFloat.leb f 100
  | _ => false
  end.

(** ** Documents of the expected shape *)

(** The field under [k], when it is there, satisfies [p]. *)
Definition optional (k : string) (p : value -> bool) (d : dict) : bool :=
  match lookup k d with
  | Some v => p v
  | None => true
  end.

(** The field under [k] is there and satisfies [p]. *)
Definition required (k : string) (p : value -> bool) (d : dict) : bool :=
  match lookup k d with
  | Some v => p v
  | None => false
  end.

Definition is_dict (v : value) : bool :=
  match v with
  | VDict _ => true
  | _ => false
  end.

(** A list of mappings, each of which satisfies [p]. *)
Definition list_of (p : dict -> bool) (v : value) : bool :=
  match v with
  | VList l => forallb (fun x => match x with
                                 | VDict d => p d
                                 | _ => false
                                 end) l
  | _ => false
  end.

Definition mapping (p : dict -> bool) (v : value) : bool :=
  match v with
  | VDict d => p d
  | _ => false
  end.

(** The [ai] section: a mapping whose [classification], when there, is
    a mapping, whose [confidence] is a mapping with numbers under [AI]
    and [Original], and whose [blocks], when there, are text blocks. *)
Definition ai_shape (ai : dict) : bool :=
  optional "classification" is_dict ai
  && required "confidence"
       (mapping (fun c => required "AI" is_real c
                          && required "Original" is_real c)) ai
  && optional "blocks" (list_of is_text_block) ai.

(** The [plagiarism] section: a mapping whose [matches], when there,
    are mappings. *)
Definition plagiarism_shape (p : dict) : bool :=
  optional "matches" (list_of (fun _ => true)) p.

(** The [readability] section: a mapping with the mappings [textStats]
    and [readability], whose formatted fields, when there, are numbers,
    and whose [sentences], when there, are mappings. *)
Definition readability_shape (r : dict) : bool :=
  required "textStats" (mapping (optional "averageReadingTime" is_real)) r
  && required "readability" (mapping (optional "fleschReadingEase" is_real)) r
  && optional "sentences" (list_of (fun _ => true)) r.

(** The section under [k], when it is there and truthy, satisfies [p]. *)
Definition section_shape (k : string) (p : value -> bool) (data : dict) : bool :=
  match lookup k data with
  | Some v => if truthy v then p v else true
  | None => true
  end.

(** A document whose sections have the shape of the data model. *)
Definition well_shaped (data : dict) : bool :=
  section_shape "ai" (mapping ai_shape) data
  && section_shape "plagiarism" (mapping plagiarism_shape) data
  && section_shape "readability" (mapping readability_shape) data
  && section_shape "grammarSpelling" is_dict data
  && section_shape "credits" is_dict data.

(** ** Scenario documents *)

(** The document of the error scenario. *)
Definition rate_limited : dict := [("error", VStr "rate limited")].

(** An error document that also carries a credits section. *)
Definition rate_limited_with_credits : dict :=
  [("error", VStr "rate limited");
   ("credits", VDict [("used", VInt 5); ("base_credits", VInt 100);
                      ("subscription_credits", VInt 0)])].

(** The document of the AI scenario. *)
Definition ai_confidence_only : dict :=
  [("ai", VDict [("confidence",
                  VDict [("AI", VFloat 0.82); ("Original", VFloat 0.18)])])].

(** A block with the given [fake]. *)
Definition scored_block (fake : value) : value :=
  VDict [("text", VStr "t"); ("result", VDict [("fake", fake)])].

(** A sentence mapping with the two flags. *)
Definition sentence (hard very_hard : bool) : dict :=
  [("isHard", VBool hard); ("isVeryHard", VBool very_hard);
   ("wordsOver13Chars", VList []); ("wordsOver4Syllables", VList [])].

(** Six sentences: two hard, one very hard, none both. *)
Definition six_sentences : list dict :=
  [sentence true false; sentence false false; sentence false true;
   sentence true false; sentence false false; sentence false false].

(** The document of the complexity scenario. *)
Definition six_sentence_document : dict :=
  [("readability",
    VDict [("textStats", VDict [("averageReadingTime", VFloat 0.5)]);
           ("readability", VDict [("fleschReadingEase", VFloat 61.5)]);
           ("sentences", VList (map VDict six_sentences))])].

(** The document of the plagiarism scenario. *)
Definition two_matches : dict :=
  [("plagiarism",
    VDict [("score", VInt 25);
           ("matches",
            VList [VDict [("url", VStr "https://a.example"); ("score", VInt 40)];
                   VDict [("url", VStr "https://b.example"); ("score", VInt 10)]])])].

(** A document with every section, all of the expected shape; its
    classification has no [Original]. *)
Definition full_document : dict :=
  [("ai",
    VDict [("classification", VDict [("AI", VFloat 0.9)]);
           ("confidence",
            VDict [("AI", VFloat 0.82); ("Original", VFloat 0.18)]);
           ("blocks",
            VList [VDict [("text", VStr "First block.");
                          ("result", VDict [("fake", VFloat 0.9);
                                            ("real", VFloat 0.1)])];
                   VDict [("text", VStr "Second block.");
                          ("result", VDict [("real", VInt 1)])]])]);
   ("plagiarism",
    VDict [("score", VInt 25);
           ("matches", VList [VDict [("url", VStr "https://a.example");
                                     ("score", VInt 40)]])]);
   ("readability",
    VDict [("textStats", VDict [("averageReadingTime", VFloat 0.5)]);
           ("readability", VDict [("fleschReadingEase", VInt 61)]);
           ("sentences", VList (map VDict six_sentences))]);
   ("grammarSpelling", VDict [("error", VStr "not available")]);
   ("credits", VDict [("used", VInt 1)])].

End Spec.

(** ** Binary64 rounding *)

Module Binary64.

(** The exponent of the format of binary64 for a number of magnitude
    [2^e]: 53 bits of mantissa, no exponent below -1074. *)
Definition fexp64 (e : Z) : Z := Z.max (e - 53) (-1074).

(** The shape of a product or an aligned number rounded to binary64:
    the mantissa [mx / 2^n] or its successor, at the exponent of its
    format, renormalised when the successor reaches [2^53]. *)
Definition rounded (s : bool) (r e : Z) : spec_float :=
  match r with
  | Z0 => S754_zero s
  | Zpos p =>
      if r <? 2 ^ 53 then
        if e <=? 971 then S754_finite s p e else S754_infinity s
      else
        if e + 1 <=? 971 then S754_finite s (2 ^ 52) (e + 1) else S754_infinity s
  | Zneg _ => S754_nan
  end.

(** The mantissa of 100. *)
Definition m100 : positive := 7036874417766400.

End Binary64.

(* ================================================================== *)
(** * requests: what the client asks of it *)
(* ================================================================== *)

Module Requests.
Import Py.

(** How a call that may raise ends: with a result, with a
    [requests.exceptions.RequestException] (or one of its subclasses),
    or with another exception; each exception with its text [str(e)]. *)
Inductive attempt (A : Type) : Type :=
| Done (a : A)
| RequestException (message : string)
| Failed (message : string)
| NotModelled.

Arguments Done {A} a.
Arguments RequestException {A} message.
Arguments Failed {A} message.
Arguments NotModelled {A}.

(** A response: its status, its text, and how [raise_for_status()] and
    [json()] end on it. *)
Record response : Type :=
  { status_code : Z;
    text : string;
    raise_for_status : attempt unit;
    json : attempt value }.

End Requests.

(* ================================================================== *)
(** * script.py: the client *)
(* ================================================================== *)

Module Client.
Import Py.
Import Requests.

(** What a run does to the world, in the order it does it. *)
Inductive event : Type :=
| sent (method url : string) (headers : dict) (body : option string)
| printed (line : string)
| made_dirs (path : string)
| opened (path : string)
| wrote (path content : string)
| temp_opened (suffix : string)
| temp_wrote (suffix content : string).

(** A run: what it did, and how it ended. What is done before an
    exception stays done. *)
Definition io (A : Type) : Type := (list event * attempt A)%type.

Definition ret {A} (a : A) : io A := ([], Done a).

Definition then_ {A B} (m : io A) (k : A -> io B) : io B :=
  match m with
  | (log, Done a) => let '(log', r) := k a in (List.app log log', r)
  | (log, RequestException e) => (log, RequestException e)
  | (log, Failed e) => (log, Failed e)
  | (log, NotModelled) => (log, NotModelled)
  end.

Definition emit (e : event) : io unit := ([e], Done tt).

Definition lift {A} (m : attempt A) : io A := ([], m).

End Client.

Declare Scope io_scope.
Delimit Scope io_scope with io.
Notation "x <~ m ;; k" := (Client.then_ m (fun x => k))
  (at level 61, m at next level, right associativity) : io_scope.
Notation "m >> k" := (Client.then_ m (fun _ => k))
  (at level 61, right associativity) : io_scope.

Module Scanner.
Import Py.
Import Requests.
Import Client.
Local Open Scope io_scope.

(** [s.upper()] for a str of ASCII characters. *)
Definition upper_ascii (c : ascii) : ascii :=
  let n := N_of_ascii c in
  if (N.leb 97 n && N.leb n 122)%bool then ascii_of_N (n - 32) else c.

Fixpoint upper (s : string) : option string :=
  match s with
  | EmptyString => Some EmptyString
  | String c s' =>
      if N.ltb (N_of_ascii c) 128
      then option_map (String (upper_ascii c)) (upper s')
      else None
  end.

(** An [OriginalityAI]: lines 9-16. *)
Record OriginalityAI : Type :=
  { api_key : value; base_url : string; headers : dict }.

Definition new_client (key : value) : OriginalityAI :=
  {| api_key := key;
     base_url := "https://api.originality.ai/api/v2";
     headers := [("X-OAI-API-KEY", key);
                 ("Accept", VStr "application/json");
                 ("Content-Type", VStr "application/json")] |}.

(** [except requests.exceptions.RequestException as e:
       return {"error": str(e)}] *)
Definition or_error_document (m : io value) : io value :=
  match m with
  | (log, RequestException message) =>
      (log, Done (VDict [("error", VStr message)]))
  | _ => m
  end.

(** [x in ['a', 'b']] for two strs. *)
Definition one_of (a b : string) (x : value) : bool :=
  match x with
  | VStr s => (String.eqb s a || String.eqb s b)%bool
  | _ => false
  end.

Section Session.

(** The world of the client: [requests.post] and [requests.get] (each
    answers a request by a response or by an exception), the text of
    [json.dumps(data)], the text [json.dump(result, f, indent=2,
    ensure_ascii=False)] writes, [os.path.join], the time of the run as
    [strftime] gives it, the text [str(e)] of an exception of the
    formatter, and the key of [config.py]. *)
Variable post : string -> dict -> option string -> attempt response.
Variable get : string -> dict -> attempt response.
Variable dumps : value -> string.
Variable dump_indented : value -> string.
Variable path_join : string -> string -> string.
Variable timestamp : string.
Variable describe : exn -> string.
Variable ORIGINALITY_AI_API_KEY : value.

(** Lines 18-31. *)
Definition _make_request (self : OriginalityAI) (method endpoint : string)
    (data : value) : io value :=
  let url := base_url self ++ "/" ++ endpoint in
  or_error_document
    (m <~ lift (match upper method with
                | Some u => Done u
                | None => NotModelled
                end) ;;
     response <~
       (if String.eqb m "POST" then
          let payload := if truthy data then Some (dumps data) else None in
          emit (sent "POST" url (headers self) payload) >>
          lift (post url (headers self) payload)
        else
          emit (sent "GET" url (headers self) None) >>
          lift (get url (headers self))) ;;
     emit (printed ("Response status: " ++ str (VInt (status_code response)))) >>
     emit (printed ("Response text: " ++ text response)) >>
     lift (raise_for_status response) >>
     lift (json response)).

(** Lines 33-53. *)
Definition new_scan (self : OriginalityAI) (text scan_type title
    excluded_url : value) : io value :=
  let data : dict :=
    [("content", text);
     ("title", if truthy title then title else VStr "Scan");
     ("excludedUrl", excluded_url);
     ("storeScan", VBool true);
     ("aiModel", VStr "lite");
     ("scan_ai", VBool (one_of "ai" "all" scan_type));
     ("scan_plag", VBool (one_of "plagiarism" "all" scan_type));
     ("scan_readability", VBool true);
     ("scan_grammar_spelling", VBool true)] in
  _make_request self "POST" "scan" (VDict data).

(** Lines 55-65. *)
Definition url_scan (self : OriginalityAI) (url scan_type : value)
  : io value :=
  let data : dict :=
    [("url", url);
     ("aidetect", VBool (one_of "ai" "all" scan_type));
     ("plagiarism", VBool (one_of "plagiarism" "all" scan_type))] in
  _make_request self "POST" "scan/url" (VDict data).

(** Lines 67-73. *)
Definition batch_scan (self : OriginalityAI) (items : value) : io value :=
  _make_request self "POST" "scan/batch" (VDict [("items", items)]).

(** Lines 75-77. *)
Definition get_scan (self : OriginalityAI) (scan_id : value) : io value :=
  _make_request self "GET" ("scan/" ++ str scan_id) VNone.

(** Lines 79-81. *)
Definition get_scans (self : OriginalityAI) (page limit : value) : io value :=
  _make_request self "GET"
    ("scans?page=" ++ str page ++ "&limit=" ++ str limit) VNone.

(** An exception of the formatter, as the caller sees it. *)
Definition of_outcome {A} (m : outcome A) : attempt A :=
  match m with
  | Return a => Done a
  | Raise e => Failed (describe e)
  | Unmodelled => NotModelled
  end.

(** Lines 83-111. The file is opened, and so emptied, before the text
    that goes into it is made. *)
Definition save_results (result : dict) (filename : option string)
    (save_raw : bool) : io (string * option string) :=
  let results_dir := "originality_results" in
  emit (made_dirs results_dir) >>
  let filename := match filename with
                  | Some name => name
                  | None => "scan_result_" ++ timestamp
                  end in
  let formatted_path := path_join results_dir (filename ++ ".txt") in
  emit (opened formatted_path) >>
  summary <~ lift (of_outcome (Script.format_results result)) ;;
  emit (wrote formatted_path summary) >>
  if save_raw then
    let raw_path := path_join results_dir (filename ++ "_raw.json") in
    emit (opened raw_path) >>
    emit (wrote raw_path (dump_indented (VDict result))) >>
    ret (formatted_path, Some raw_path)
  else ret (formatted_path, None).

(** Lines 172-175. *)
Definition initialize_client : attempt OriginalityAI :=
  if negb (truthy ORIGINALITY_AI_API_KEY)
  then Failed ("API key not found. " ++
               "Please set your Originality.AI API key in config.py")
  else Done (new_client ORIGINALITY_AI_API_KEY).

(** [except Exception as e:
       raise Exception(f"Error processing text: {str(e)}")] *)
Definition or_processing_error {A} (m : io A) : io A :=
  match m with
  | (log, RequestException message) =>
      (log, Failed ("Error processing text: " ++ message))
  | (log, Failed message) =>
      (log, Failed ("Error processing text: " ++ message))
  | _ => m
  end.

(** [process_text_input(text)] of visualize.py, lines 480-501. Each
    temporary file is opened before the text that goes into it is
    made, and is kept. *)
Definition process_text_input (text : string) : io value :=
  or_processing_error
    (client <~ lift initialize_client ;;
     result <~ new_scan client (VStr text) (VStr "all") VNone VNone ;;
     emit (temp_opened ".txt") >>
     summary <~ lift (match result with
                      | VDict d => of_outcome (Script.format_results d)
                      | _ => NotModelled
                      end) ;;
     emit (temp_wrote ".txt" summary) >>
     emit (temp_opened ".json") >>
     emit (temp_wrote ".json" (dump_indented result)) >>
     ret result).

End Session.

End Scanner.

(* ================================================================== *)
(** * base64, as far as visualize.py uses it *)
(* ================================================================== *)

Module Base64.

(** The alphabet of RFC 4648, section 4. *)
Definition alphabet : string :=
  "ABCDEFGHIJKLMNOPQRSTUVWXYZabcdefghijklmnopqrstuvwxyz0123456789+/".

Definition pad : ascii := "="%char.

(** Six bits, the most significant first. *)
Definition sextet : Type := (bool * bool * bool * bool * bool * bool)%type.

Definition index (s : sextet) : nat :=
  let '(b5, b4, b3, b2, b1, b0) := s in
  (if b5 then 32 else 0) + (if b4 then 16 else 0) + (if b3 then 8 else 0)
  + (if b2 then 4 else 0) + (if b1 then 2 else 0) + (if b0 then 1 else 0).

(** The character of a sextet. *)
Definition digit (s : sextet) : ascii :=
  match String.get (index s) alphabet with
  | Some c => c
  | None => pad
  end.

(** [base64.b64encode(s)]: three bytes give four characters; one byte
    or two bytes at the end give two or three characters, filled with
    zero bits and padded with [=] to four. The first bit of an [Ascii]
    is the least significant one. *)
Fixpoint b64encode (s : string) : string :=
  match s with
  | EmptyString => EmptyString
  | String (Ascii a0 a1 a2 a3 a4 a5 a6 a7) EmptyString =>
      String (digit (a7, a6, a5, a4, a3, a2))
        (String (digit (a1, a0, false, false, false, false))
           (String pad (String pad EmptyString)))
  | String (Ascii a0 a1 a2 a3 a4 a5 a6 a7)
      (String (Ascii b0 b1 b2 b3 b4 b5 b6 b7) EmptyString) =>
      String (digit (a7, a6, a5, a4, a3, a2))
        (String (digit (a1, a0, b7, b6, b5, b4))
           (String (digit (b3, b2, b1, b0, false, false))
              (String pad EmptyString)))
  | String (Ascii a0 a1 a2 a3 a4 a5 a6 a7)
      (String (Ascii b0 b1 b2 b3 b4 b5 b6 b7)
         (String (Ascii c0 c1 c2 c3 c4 c5 c6 c7) rest)) =>
      String (digit (a7, a6, a5, a4, a3, a2))
        (String (digit (a1, a0, b7, b6, b5, b4))
           (String (digit (b3, b2, b1, b0, c7, c6))
              (String (digit (c5, c4, c3, c2, c1, c0))
                 (b64encode rest))))
  end.

End Base64.

(* ================================================================== *)
(** * visualize.py: the download link *)
(* ================================================================== *)

Module Download.
Import Py.

(** [get_binary_file_downloader_html(bin_file, file_label)]. A str of
    this development is the sequence of its UTF-8 bytes, which is what
    [bin_file.encode()] gives; the base64 text is ASCII, so [decode()]
    leaves it as it is. *)
Definition get_binary_file_downloader_html (bin_file file_label : string)
  : string :=
  let b64 := Base64.b64encode bin_file in
  "<a href=" ++ Jinja.dq ++ "data:text/html;base64," ++ b64 ++ Jinja.dq
  ++ " download=" ++ Jinja.dq ++ file_label ++ ".html" ++ Jinja.dq
  ++ ">Download " ++ file_label ++ "</a>".

End Download.

(* ================================================================== *)
(** * streamlit: the page as the elements the code puts on it *)
(* ================================================================== *)

Module Streamlit.
Import Py.

(** One call of [st]: what it shows. [in_column i e] is the element [e]
    shown inside [with col_i:], [in_tab i e] the one inside
    [with tab_i:]. *)
Inductive element : Type :=
| page_config (page_title layout : string)
| title (body : string)
| tabs (labels : list string)
| in_tab (i : nat) (e : element)
| file_uploader (label : string)
| text_area (label : string)
| spinner (label : string)
| header (body : string)
| subheader (body : string)
| write (body : string)
| metric (label value : string)
| error (body : string)
| warning (body : string)
| success (body : string)
| columns (n : nat)
| in_column (i : nat) (e : element)
| plotly_chart (fig : Plotly.Figure)
| dataframe (rows : list dict)
| styled_dataframe (rows : list (value * value * value)) (styles : list string)
| button (label : string)
| checkbox (label : string)
| markdown (body : string)
| json (data : dict).

(** A run of the script: the elements shown so far, and how it went on.
    What is shown before an exception stays on the page. *)
Definition ui (A : Type) : Type := (list element * outcome A)%type.

Definition ret {A} (a : A) : ui A := ([], Return a).

Definition then_ {A B} (m : ui A) (k : A -> ui B) : ui B :=
  match m with
  | (shown, Return a) => let '(shown', r) := k a in (List.app shown shown', r)
  | (shown, Raise e) => (shown, Raise e)
  | (shown, Unmodelled) => (shown, Unmodelled)
  end.

(** A call of [st] that shows one element. *)
Definition show (e : element) : ui unit := ([e], Return tt).

(** A computation that shows nothing. *)
Definition run {A} (m : outcome A) : ui A := ([], m).

(** [with col_i: ...] *)
Definition within {A} (i : nat) (m : ui A) : ui A :=
  (map (in_column i) (fst m), snd m).

End Streamlit.

Declare Scope ui_scope.
Delimit Scope ui_scope with ui.
Notation "x <~ m ;; k" := (Streamlit.then_ m (fun x => k))
  (at level 61, m at next level, right associativity) : ui_scope.
Notation "m >> k" := (Streamlit.then_ m (fun _ => k))
  (at level 61, right associativity) : ui_scope.

(* ================================================================== *)
(** * visualize.py: the dashboard *)
(* ================================================================== *)

Module Dashboard.
Import Py.
Import Plotly.
Import Visualize.
Import Streamlit.
Local Open Scope ui_scope.

Definition high_risk : string := "âš ï¸ High Risk of AI Generation".
Definition moderate_risk : string := "âš¡ Moderate Risk of AI Generation".
Definition low_risk : string := "âœ… Low Risk of AI Generation".

(** Lines 578-583: the risk level of [ai_prob]. *)
Definition risk_level (ai_prob : value) : ui unit :=
  high <~ run (gt ai_prob (VInt 75)) ;;
  if high then show (error high_risk)
  else
    moderate <~ run (gt ai_prob (VInt 50)) ;;
    if moderate then show (warning moderate_risk)
    else show (success low_risk).

(** Lines 610-615, [highlight_ai_score(val)]. *)
Definition highlight_ai_score (val : value) : outcome string :=
  red <- gt val (VInt 75) ;;
  if red then Return "background-color: #ffcccc"
  else
    yellow <- gt val (VInt 50) ;;
    if yellow then Return "background-color: #ffffcc"
    else Return EmptyString.

(** [if fig: st.plotly_chart(fig, use_container_width=True)]; a figure
    is truthy. *)
Definition chart (fig : option Figure) : ui unit :=
  match fig with
  | Some f => show (plotly_chart f)
  | None => ret tt
  end.

(** Lines 551-560. *)
Definition show_properties (data : dict) : ui unit :=
  show (header "Document Properties") >>
  if has_key "properties" data then
    props <~ run (getitem (VDict data) "properties") ;;
    show (columns 2) >>
    within 1 (title <~ run (get props "title" (VStr "N/A")) ;;
              show (write ("Title: " ++ str title)) >>
              id <~ run (get props "id" (VStr "N/A")) ;;
              show (write ("ID: " ++ str id))) >>
    within 2 (link <~ run (get props "public_link" (VStr "N/A")) ;;
              show (write ("Public Link: " ++ str link)) >>
              private <~ run (get props "privateID" (VStr "N/A")) ;;
              show (write ("Private ID: " ++ str private)))
  else ret tt.

(** Lines 563-583. *)
Definition show_ai_detection (data : dict) : ui unit :=
  show (header "AI Detection Analysis") >>
  show (columns 2) >>
  within 1 (ai_fig <~ run (plot_ai_detection_results data) ;; chart ai_fig) >>
  within 2 (if truthy (data_get data "ai") then
              ai <~ run (getitem (VDict data) "ai") ;;
              ai_conf <~ run (getitem ai "confidence") ;;
              p <~ run (get ai_conf "AI" (VInt 0)) ;;
              ai_prob <~ run (mul p (VInt 100)) ;;
              text <~ run (format_f 1 ai_prob) ;;
              show (metric "AI Probability" (text ++ "%")) >>
              risk_level ai_prob
            else ret tt).

(** Lines 586-597. *)
Definition show_readability (data : dict) : ui unit :=
  show (header "Readability Analysis") >>
  show (columns 2) >>
  within 1 (read_fig <~ run (plot_readability_metrics data) ;; chart read_fig) >>
  within 2 (text_fig <~ run (plot_text_statistics data) ;; chart text_fig).

(** Lines 600-603. *)
Definition show_complexity (data : dict) : ui unit :=
  show (header "Sentence Complexity") >>
  comp_fig <~ run (plot_sentence_complexity data) ;;
  chart comp_fig.

(** Lines 606-619: the table of the blocks, each [ai_score] with its
    background. *)
Definition show_blocks (data : dict) : ui unit :=
  show (header "Detailed AI Detection by Text Block") >>
  df <~ run (analyze_ai_blocks data) ;;
  match df with
  | [] => ret tt
  | _ =>
      styles <~ run (mapM (fun row => highlight_ai_score (ai_score row)) df) ;;
      show (styled_dataframe
              (map (fun row => (text row, ai_score row, human_score row)) df)
              styles)
  end.

(** Lines 622-631. *)
Definition show_plagiarism (data : dict) : ui unit :=
  show (header "Plagiarism Analysis") >>
  plag_fig <~ run (plot_plagiarism_metrics data) ;;
  match plag_fig with
  | Some fig =>
      show (plotly_chart fig) >>
      let plagiarism := match lookup "plagiarism" data with
                        | Some v => v
                        | None => VDict []
                        end in
      matches <~ run (get plagiarism "matches" VNone) ;;
      if truthy matches then
        show (subheader "Plagiarism Matches") >>
        p <~ run (getitem (VDict data) "plagiarism") ;;
        m <~ run (getitem p "matches") ;;
        matches_df <~ run (Pandas.DataFrame m) ;;
        show (dataframe matches_df)
      else ret tt
  | None => ret tt
  end.

(** Lines 634-648. *)
Definition show_details (data : dict) : ui unit :=
  show (header "Detailed Readability Analysis") >>
  read_detail_fig <~ run (plot_readability_details data) ;;
  chart read_detail_fig >>
  show (header "Text Analysis Timeline") >>
  timeline_fig <~ run (plot_readability_timeline data) ;;
  chart timeline_fig >>
  show (header "Sentence Complexity Heatmap") >>
  heatmap_fig <~ run (plot_sentence_heatmap data) ;;
  chart heatmap_fig.

Section Page.

(** plotly's rendering of a figure, and what the user does with the two
    widgets of the page: whether the button was pressed, whether the box
    is ticked. *)
Variable to_html : Figure -> string.
Variable generate : bool.
Variable show_raw : bool.

(** Lines 651-672. *)
Definition show_report (data : dict) : ui unit :=
  show (button "Generate HTML Report") >>
  if generate then
    figures <~ run (report_figures data) ;;
    insights <~ run (generate_detailed_insights data) ;;
    html_content <~ run (export_to_html to_html figures insights data) ;;
    show (markdown (Download.get_binary_file_downloader_html
                      html_content "analysis_report"))
  else ret tt.

(** Lines 675-676. *)
Definition show_raw_json (data : dict) : ui unit :=
  show (checkbox "Show Raw JSON") >>
  if show_raw then show (json data) else ret tt.

(** [display_analysis(data)] *)
Definition display_analysis (data : dict) : ui unit :=
  show_properties data >>
  show_ai_detection data >>
  show_readability data >>
  show_complexity data >>
  show_blocks data >>
  show_plagiarism data >>
  show_details data >>
  show_report data >>
  show_raw_json data.

End Page.

End Dashboard.

(* ================================================================== *)
(** * visualize.py: the application *)
(* ================================================================== *)

Module App.
Import Py.
Import Requests.
Import Streamlit.

(** The white space of [str.strip()] and [str.isspace()]: U+0009 to
    U+000D, U+001C to U+0020, U+0085, U+00A0, U+1680, U+2000 to U+200A,
    U+2028, U+2029, U+202F, U+205F and U+3000, each as the bytes of its
    UTF-8 form. *)
Definition is_space (char : string) : bool :=
  match list_ascii_of_string char with
  | [c] =>
      let n := N_of_ascii c in
      ((N.leb 9 n && N.leb n 13) || (N.leb 28 n && N.leb n 32))%bool
  | [c1; c2] =>
      (N.eqb (N_of_ascii c1) 194
       && (N.eqb (N_of_ascii c2) 133 || N.eqb (N_of_ascii c2) 160))%bool
  | [c1; c2; c3] =>
      let n1 := N_of_ascii c1 in
      let n2 := N_of_ascii c2 in
      let n3 := N_of_ascii c3 in
      ((N.eqb n1 225 && N.eqb n2 154 && N.eqb n3 128)
       || (N.eqb n1 226 && N.eqb n2 128
           && ((N.leb 128 n3 && N.leb n3 138)
               || N.eqb n3 168 || N.eqb n3 169 || N.eqb n3 175))
       || (N.eqb n1 226 && N.eqb n2 129 && N.eqb n3 159)
       || (N.eqb n1 227 && N.eqb n2 128 && N.eqb n3 128))%bool
  | _ => false
  end.

Fixpoint lstrip (chars : list string) : list string :=
  match chars with
  | [] => []
  | c :: rest => if is_space c then lstrip rest else chars
  end.

(** [s.strip()] *)
Definition strip (s : string) : string :=
  String.concat EmptyString (List.rev (lstrip (List.rev (lstrip (chars s))))).

(** What the user has done on the page: the JSON file that is uploaded,
    as [json.load] reads it, the text file that is uploaded, as
    [getvalue().decode()] reads it, the text of the text area, and
    whether "Analyze Text" was pressed. *)
Record visit : Type :=
  { json_file : option (attempt value);
    text_file : option (attempt string);
    text_input : string;
    analyze : bool }.

(** The tabs a visit uses. [main] is modelled for a visit that uses at
    most one of them: the two widgets of [display_analysis] have no key,
    and what streamlit does on a second call of it in one run is not
    modelled. *)
Definition displays (v : visit) : nat :=
  (match json_file v with Some _ => 1 | None => 0 end)
  + (match text_file v with Some _ => 1 | None => 0 end)
  + (if analyze v then 1 else 0).

Section Main.

Variable post : string -> dict -> option string -> attempt response.
Variable get : string -> dict -> attempt response.
Variable dumps : value -> string.
Variable dump_indented : value -> string.
Variable describe : exn -> string.
Variable ORIGINALITY_AI_API_KEY : value.
Variable to_html : Plotly.Figure -> string.
Variable generate : bool.
Variable show_raw : bool.

(** [display_analysis(data)] for the value a file or a scan gives. *)
Definition analysis (data : value) : ui unit :=
  match data with
  | VDict d => Dashboard.display_analysis to_html generate show_raw d
  | _ => ([], Unmodelled)
  end.

(** [try: ... except Exception as e: st.error(f"{prefix}{str(e)}")]
    around a page: what was shown stays, the error comes after it. *)
Definition shown_or_error (prefix : string) (m : ui unit)
  : option (list element) :=
  match m with
  | (shown, Return _) => Some shown
  | (shown, Raise e) => Some (List.app shown [error (prefix ++ describe e)])
  | (_, Unmodelled) => None
  end.

(** Lines 526-528 and 538-540 under their [try]. *)
Definition scan_and_show (prefix text : string)
  : option (list element * list Client.event) :=
  match Scanner.process_text_input post get dumps dump_indented describe
          ORIGINALITY_AI_API_KEY text with
  | (log, Done result) =>
      option_map (fun shown => (spinner "Processing text..." :: shown, log))
                 (shown_or_error prefix (analysis result))
  | (log, RequestException m) | (log, Failed m) =>
      Some ([spinner "Processing text..."; error (prefix ++ m)], log)
  | (_, NotModelled) => None
  end.

(** Lines 510-518. *)
Definition upload_json (file : option (attempt value))
  : option (list element * list Client.event) :=
  let widget := file_uploader "Upload JSON result file" in
  match file with
  | None => Some ([widget], [])
  | Some (Done data) =>
      option_map (fun shown => (widget :: shown, []))
                 (shown_or_error "Error analyzing JSON file: " (analysis data))
  | Some (RequestException m) | Some (Failed m) =>
      Some ([widget; error ("Error analyzing JSON file: " ++ m)], [])
  | Some NotModelled => None
  end.

(** Lines 520-530. *)
Definition upload_text (file : option (attempt string))
  : option (list element * list Client.event) :=
  let widget := file_uploader "Upload text file" in
  match file with
  | None => Some ([widget], [])
  | Some (Done text_content) =>
      option_map (fun r => (widget :: fst r, snd r))
                 (scan_and_show "Error processing text file: " text_content)
  | Some (RequestException m) | Some (Failed m) =>
      Some ([widget; error ("Error processing text file: " ++ m)], [])
  | Some NotModelled => None
  end.

(** Lines 532-544. *)
Definition enter_text (text_input : string) (analyze : bool)
  : option (list element * list Client.event) :=
  let widgets := [text_area "Enter text to analyze"; button "Analyze Text"] in
  if analyze then
    if truthy (VStr (strip text_input)) then
      option_map (fun r => (List.app widgets (fst r), snd r))
                 (scan_and_show "Error processing text: " text_input)
    else Some (List.app widgets
                 [warning "Please enter some text to analyze"], [])
  else Some (widgets, []).

(** [main()]: the page, and what was done to the world. *)
Definition main (v : visit) : option (list element * list Client.event) :=
  if Nat.ltb 1 (displays v) then None
  else
    match upload_json (json_file v), upload_text (text_file v),
          enter_text (text_input v) (analyze v) with
    | Some (page1, _), Some (page2, world2), Some (page3, world3) =>
        Some (List.app
                [page_config "Originality.AI Analysis" "wide";
                 title "Originality.AI Analysis Dashboard";
                 tabs ["Upload JSON"; "Upload Text File"; "Enter Text"]]
                (List.app (map (in_tab 1) page1)
                   (List.app (map (in_tab 2) page2) (map (in_tab 3) page3))),
              List.app world2 world3)
    | _, _, _ => None
    end.

End Main.

End App.

(* ================================================================== *)
(** * Reference definitions for the further properties *)
(* ================================================================== *)

Module Ref.
Import Py.
Import Spec.

(** Two documents hold the same thing under each of the keys [ks]. *)
Definition same_on (ks : list string) (d d' : dict) : Prop :=
  forall k, In k ks -> lookup k d = lookup k d'.

(** The keys [format_results] reads. *)
Definition summary_keys : list string :=
  ["error"; "ai"; "plagiarism"; "readability"; "grammarSpelling"; "credits"].

(** The keys the visualizer reads. *)
Definition visual_keys : list string := ["ai"; "readability"; "plagiarism"].

(** The keys [export_to_html] reads. *)
Definition report_keys : list string := ["properties"; "credits"].

(** An [ai] section that holds neither [classification] nor
    [confidence]. *)
Definition holds_no_scores (ai : value) : bool :=
  match isin "classification" ai, isin "confidence" ai with
  | Return false, Return false => true
  | _, _ => false
  end.

(** A [grammarSpelling] section that holds no [error]. *)
Definition holds_no_error (grammar : value) : bool :=
  match isin "error" grammar with
  | Return false => true
  | _ => false
  end.

(** The section under [k] is missing or falsy, or [p] holds of it. *)
Definition missing_or (k : string) (p : value -> bool) (result : dict) : bool :=
  match Script.section k result with
  | Some v => p v
  | None => true
  end.

(** A document none of whose sections gives the summary a line. *)
Definition quiet (result : dict) : bool :=
  missing_or "ai" holds_no_scores result
  && missing_or "plagiarism" (fun _ => false) result
  && missing_or "readability" (fun _ => false) result
  && missing_or "grammarSpelling" holds_no_error result
  && missing_or "credits" (fun _ => false) result.

(** ** The plagiarism section in the summary and in the insights *)

(** The summary line of one match. *)
Definition match_line (m : dict) : string :=
  "- " ++ str (field "url" (VStr "N/A") m) ++ ": "
  ++ str (field "score" (VStr "N/A") m) ++ "% match".

(** The score line: there when the section has a [score] key. *)
Definition score_lines (p : dict) : list string :=
  match lookup "score" p with
  | Some s => ["Plagiarism Score: " ++ str s ++ "%"]
  | None => []
  end.

(** The match lines under their heading: there when there is a match. *)
Definition match_lines (ms : list dict) : list string :=
  match ms with
  | [] => []
  | _ => (Script.nl ++ "Plagiarism Matches:") :: map match_line ms
  end.

(** The lines of the plagiarism section in the summary. *)
Definition plagiarism_block (p : dict) (ms : list dict) : list string :=
  (Script.nl ++ "Plagiarism Results:") :: (score_lines p ++ match_lines ms)%list.

(** The line of the insights that counts the matches. *)
Definition found_lines (ms : list dict) : list string :=
  match ms with
  | [] => []
  | _ => ["  - Found " ++ str (VInt (Z.of_nat (List.length ms)))
          ++ " potential matches"]
  end.

(** The lines of the plagiarism section in the insights. *)
Definition plagiarism_insight_block (p : dict) (ms : list dict) : list string :=
  List.app
    [Script.nl ++ "ðŸ” Plagiarism Check:";
     "  - Overall Score: " ++ str (field "score" (VInt 0) p) ++ "%"]
    (found_lines ms).

(** ** Sentences by their two flags *)

Definition is_hard (s : dict) : bool := truthy (field "isHard" (VBool false) s).

Definition is_very_hard (s : dict) : bool :=
  truthy (field "isVeryHard" (VBool false) s).

(** The number of the sentences that satisfy [p]. *)
Definition count_of (p : dict -> bool) (ss : list dict) : Z :=
  Z.of_nat (List.length (filter p ss)).

(** The figure lacks its data: the section under [k] is missing or
    falsy, or it is a mapping whose [sub] is missing or falsy. *)
Definition lacks (k sub : string) (data : dict) : Prop :=
  truthy (Visualize.data_get data k) = false
  \/ exists d, Visualize.data_get data k = VDict d
               /\ truthy (field sub VNone d) = false.

(** ** The blocks of the heat map *)

Definition is_str (v : value) : bool :=
  match v with
  | VStr _ => true
  | _ => false
  end.




(** ** Reading base64 back *)

Definition bits : list bool := [false; true].

(** The 64 sextets, in the order of the alphabet. *)
Definition sextets : list Base64.sextet :=
  flat_map (fun b5 => flat_map (fun b4 => flat_map (fun b3 =>
  flat_map (fun b2 => flat_map (fun b1 => map (fun b0 =>
    (b5, b4, b3, b2, b1, b0)) bits) bits) bits) bits) bits) bits.

(** The sextet of a character of the alphabet. *)
Definition sextet_of (c : ascii) : option Base64.sextet :=
  find (fun s => Ascii.eqb (Base64.digit s) c) sextets.

Definition is_pad (c : ascii) : bool := Ascii.eqb c Base64.pad.

(** The decoder of RFC 4648 for padded text: four characters give three
    bytes; the last four may end in one or two [=] and give two bytes
    or one. *)
Fixpoint b64decode (s : string) : option string :=
  match s with
  | EmptyString => Some EmptyString
  | String c1 (String c2 (String c3 (String c4 rest))) =>
      match sextet_of c1, sextet_of c2 with
      | Some (a7, a6, a5, a4, a3, a2), Some (a1, a0, b7, b6, b5, b4) =>
          let a := Ascii a0 a1 a2 a3 a4 a5 a6 a7 in
          if is_pad c3 then
            match rest with
            | EmptyString =>
                if is_pad c4 then Some (String a EmptyString) else None
            | _ => None
            end
          else
            match sextet_of c3 with
            | Some (b3, b2, b1, b0, c7, c6) =>
                let b := Ascii b0 b1 b2 b3 b4 b5 b6 b7 in
                if is_pad c4 then
                  match rest with
                  | EmptyString => Some (String a (String b EmptyString))
                  | _ => None
                  end
                else
                  match sextet_of c4 with
                  | Some (c5, c4', c3', c2', c1', c0) =>
                      let c := Ascii c0 c1' c2' c3' c4' c5 c6 c7 in
                      option_map (fun t => String a (String b (String c t)))
                                 (b64decode rest)
                  | None => None
                  end
            | None => None
            end
      | _, _ => None
      end
  | _ => None
  end.

(** A character of the base64 alphabet. *)
Definition in_alphabet (c : ascii) : bool :=
  existsb (Ascii.eqb c) (list_ascii_of_string Base64.alphabet).

(** A character that ends or opens something in HTML: a quote, an
    ampersand, an angle bracket. *)
Definition html_special (c : ascii) : bool :=
  existsb (Ascii.eqb c)
          (list_ascii_of_string ("&<>'" ++ String (ascii_of_nat 34) EmptyString)).

(** ** The dashboard *)

(** The keys [display_analysis] reads, the raw JSON box left aside. *)
Definition dashboard_keys : list string :=
  ["properties"; "ai"; "readability"; "plagiarism"; "credits"].

(** The page of a document without data: nine headers, two rows of
    columns, and the two widgets. *)
Definition bare_page : list Streamlit.element :=
  [Streamlit.header "Document Properties";
   Streamlit.header "AI Detection Analysis";
   Streamlit.columns 2;
   Streamlit.header "Readability Analysis";
   Streamlit.columns 2;
   Streamlit.header "Sentence Complexity";
   Streamlit.header "Detailed AI Detection by Text Block";
   Streamlit.header "Plagiarism Analysis";
   Streamlit.header "Detailed Readability Analysis";
   Streamlit.header "Text Analysis Timeline";
   Streamlit.header "Sentence Complexity Heatmap";
   Streamlit.button "Generate HTML Report"].

(** An element that tells the user something went wrong, at any depth
    of columns. *)
Fixpoint is_alert (e : Streamlit.element) : bool :=
  match e with
  | Streamlit.error _ | Streamlit.warning _ => true
  | Streamlit.in_column _ e' => is_alert e'
  | _ => false
  end.

(** The two backgrounds of [highlight_ai_score]. *)
Definition red : string := "background-color: #ffcccc".
Definition yellow : string := "background-color: #ffffcc".


(** ** The client *)

(** The document a failed request gives. *)
Definition error_document (message : string) : value :=
  VDict [("error", VStr message)].

(** The request of [new_scan]: its address, its headers, its payload. *)
Definition scan_url : string := "https://api.originality.ai/api/v2/scan".

Definition scan_headers (key : value) : dict :=
  [("X-OAI-API-KEY", key);
   ("Accept", VStr "application/json");
   ("Content-Type", VStr "application/json")].

Definition scan_payload (text scan_type title excluded_url : value) : dict :=
  [("content", text);
   ("title", if truthy title then title else VStr "Scan");
   ("excludedUrl", excluded_url);
   ("storeScan", VBool true);
   ("aiModel", VStr "lite");
   ("scan_ai", VBool (Scanner.one_of "ai" "all" scan_type));
   ("scan_plag", VBool (Scanner.one_of "plagiarism" "all" scan_type));
   ("scan_readability", VBool true);
   ("scan_grammar_spelling", VBool true)].

(** The requests among the events of a run. *)
Definition is_request (e : Client.event) : bool :=
  match e with Client.sent _ _ _ _ => true | _ => false end.

Definition requests {A} (run : Client.io A) : list Client.event :=
  filter is_request (fst run).

(** The address of the API. *)
Definition api : string := "https://api.originality.ai/api/v2".

(** ** The application *)

(** The page of [main] around what the three tabs show after their
    widgets. *)
Definition front (tab1 tab2 tab3 : list Streamlit.element)
  : list Streamlit.element :=
  List.app
    [Streamlit.page_config "Originality.AI Analysis" "wide";
     Streamlit.title "Originality.AI Analysis Dashboard";
     Streamlit.tabs ["Upload JSON"; "Upload Text File"; "Enter Text"]]
    (List.app
       (map (Streamlit.in_tab 1)
            (Streamlit.file_uploader "Upload JSON result file" :: tab1))
       (List.app
          (map (Streamlit.in_tab 2)
               (Streamlit.file_uploader "Upload text file" :: tab2))
          (map (Streamlit.in_tab 3)
               (Streamlit.text_area "Enter text to analyze"
                :: Streamlit.button "Analyze Text" :: tab3)))).

(** The text of the exception of [initialize_client]. *)
Definition no_key : string :=
  "API key not found. Please set your Originality.AI API key in config.py".

(** No line, or a first line that starts with a line feed. *)
Definition nil_or_headed (lines : list string) : Prop :=
  match lines with
  | [] => True
  | line :: _ => exists rest, line = Script.nl ++ rest
  end.

End Ref.

(* ================================================================== *)
(** * Properties *)
(* ================================================================== *)

Import Py Script Visualize Spec Binary64.


(** ** Binary64 rounding, on the specification of the floats *)

Lemma digits2_pos_size (p : positive) : digits2_pos p = Pos.size p.
Proof. induction p; simpl; congruence. Qed.

Lemma digits2_bounds (p : positive) :
  2 ^ (Z.pos (digits2_pos p) - 1) <= Z.pos p < 2 ^ Z.pos (digits2_pos p).
Proof.
  rewrite digits2_pos_size. split.
  - assert (H := Pos.size_le p).
    assert (H' : Z.pos (2 ^ Pos.size p) <= Z.pos p~0) by exact H.
    rewrite Pos2Z.inj_pow in H'.
    replace (Z.pos (Pos.size p)) with (Z.succ (Z.pos (Pos.size p) - 1)) in H' by lia.
    rewrite Z.pow_succ_r in H' by lia. lia.
  - assert (H := Pos.size_gt p).
    assert (H' : Z.pos p < Z.pos (2 ^ Pos.size p)) by exact H.
    now rewrite Pos2Z.inj_pow in H'.
Qed.

Lemma shr_1_div (mrs : shr_record) :
  0 <= shr_m mrs -> shr_m (shr_1 mrs) = shr_m mrs / 2.
Proof.
  destruct mrs as [m r s]. simpl. intros Hm.
  destruct m as [|p|p]; [reflexivity| |lia].
  destruct p; simpl shr_m.
  - rewrite Pos2Z.inj_xI. apply Z.div_unique with 1; lia.
  - rewrite Pos2Z.inj_xO. apply Z.div_unique with 0; lia.
  - reflexivity.
Qed.

Lemma iter_shr_1_div (p : positive) :
  forall mrs, 0 <= shr_m mrs ->
    shr_m (iter_pos shr_1 p mrs) = shr_m mrs / 2 ^ Z.pos p.
Proof.
  assert (Hpow : forall q : positive, 0 < 2 ^ Z.pos q) by (intros; apply Z.pow_pos_nonneg; lia).
  induction p as [p IH|p IH|]; intros mrs Hm; cbn [iter_pos].
  - assert (H1 : 0 <= shr_m (shr_1 mrs)).
    { rewrite shr_1_div by assumption. apply Z.div_pos; lia. }
    assert (H2 : 0 <= shr_m (iter_pos shr_1 p (shr_1 mrs))).
    { rewrite IH by assumption. apply Z.div_pos; [assumption|apply Hpow]. }
    rewrite IH, IH, shr_1_div by assumption.
    rewrite !Z.div_div by (try apply Hpow; lia). f_equal.
    replace (Z.pos p~1) with (1 + Z.pos p + Z.pos p) by lia.
    rewrite !Z.pow_add_r by lia. lia.
  - assert (H2 : 0 <= shr_m (iter_pos shr_1 p mrs)).
    { rewrite IH by assumption. apply Z.div_pos; [assumption|apply Hpow]. }
    rewrite IH, IH by assumption.
    rewrite !Z.div_div by (try apply Hpow; lia). f_equal.
    replace (Z.pos p~0) with (Z.pos p + Z.pos p) by lia.
    rewrite !Z.pow_add_r by lia. lia.
  - now rewrite shr_1_div.
Qed.

(** [shr] on an exact record, for a shift that is not negative. *)
Lemma shr_exact (m e n : Z) :
  0 <= m -> 0 <= n ->
  let '(mrs, e') := shr (shr_record_of_loc m loc_Exact) e n in
  shr_m mrs = m / 2 ^ n /\ e' = e + n.
Proof.
  intros Hm Hn. unfold shr. destruct n as [|p|p]; [| |lia].
  - cbn [shr_record_of_loc shr_m]. rewrite Z.pow_0_r, Z.div_1_r. lia.
  - split; [|reflexivity]. now rewrite iter_shr_1_div.
Qed.

Lemma round_nearest_even_cases (m : Z) (l : location) :
  round_nearest_even m l = m \/ round_nearest_even m l = m + 1.
Proof.
  destruct l as [|[| |]]; simpl; auto. destruct (Z.even m); auto.
Qed.

Lemma Zdigits2_bounds (m : Z) :
  0 < m -> 2 ^ (Zdigits2 m - 1) <= m < 2 ^ Zdigits2 m.
Proof. destruct m; try lia. intros _. apply digits2_bounds. Qed.

Lemma Zdigits2_le (m : Z) (k : Z) :
  0 < m -> m < 2 ^ k -> Zdigits2 m <= k.
Proof.
  intros Hm Hk. destruct (Zdigits2_bounds m Hm) as [Hlo _].
  destruct (Z.le_gt_cases (Zdigits2 m) k) as [|Hgt]; [assumption|].
  assert (2 ^ k <= 2 ^ (Zdigits2 m - 1)) by (apply Z.pow_le_mono_r; lia). lia.
Qed.

Lemma Zdigits2_ge (m : Z) (k : Z) :
  0 <= k -> 2 ^ k <= m -> k + 1 <= Zdigits2 m.
Proof.
  intros Hk Hm.
  assert (0 < 2 ^ k) by (apply Z.pow_pos_nonneg; lia).
  destruct (Zdigits2_bounds m ltac:(lia)) as [_ Hhi].
  destruct (Z.le_gt_cases (k + 1) (Zdigits2 m)) as [|Hgt]; [assumption|].
  assert (2 ^ Zdigits2 m <= 2 ^ k) by (apply Z.pow_le_mono_r; lia). lia.
Qed.

Lemma Zdigits2_pos (m : Z) : 0 < m -> 0 < Zdigits2 m.
Proof. destruct m; simpl; lia. Qed.

Lemma fexp_eq (e : Z) : fexp prec emax e = fexp64 e.
Proof. reflexivity. Qed.

Lemma shr_nonpos (mrs : shr_record) (e n : Z) :
  n <= 0 -> shr mrs e n = (mrs, e).
Proof. destruct n; try reflexivity. lia. Qed.

Lemma binary_round_aux_exact (s : bool) (mx ex : Z) :
  0 < mx ->
  ex <= fexp64 (Zdigits2 mx + ex) ->
  let e := fexp64 (Zdigits2 mx + ex) in
  let q := mx / 2 ^ (e - ex) in
  exists r, (r = q \/ r = q + 1) /\ 0 <= q /\ r <= 2 ^ 53 /\
            binary_round_aux prec emax s mx ex loc_Exact = rounded s r e.
Proof.
  intros Hmx Hal e q.
  unfold binary_round_aux, shr_fexp.
  change (fexp prec emax) with fexp64. fold e.
  assert (Hn : 0 <= e - ex) by lia.
  assert (H1 := shr_exact mx ex (e - ex) ltac:(lia) Hn).
  destruct (shr (shr_record_of_loc mx loc_Exact) ex (e - ex)) as [mrs e'].
  destruct H1 as [Hm1 He']. fold q in Hm1.
  replace e' with e by lia. clear He' e'.
  set (r := round_nearest_even (shr_m mrs) (loc_of_shr_record mrs)).
  assert (Hq0 : 0 <= q) by (apply Z.div_pos; [lia|apply Z.pow_pos_nonneg; lia]).
  assert (Hr : r = q \/ r = q + 1).
  { unfold r. rewrite <- Hm1. apply round_nearest_even_cases. }
  assert (Hq53 : q < 2 ^ 53).
  { unfold q. apply Z.div_lt_upper_bound; [apply Z.pow_pos_nonneg; lia|].
    rewrite <- Z.pow_add_r by lia.
    destruct (Zdigits2_bounds mx Hmx) as [_ Hhi].
    eapply Z.lt_le_trans; [exact Hhi|]. apply Z.pow_le_mono_r; [lia|].
    unfold e, fexp64. lia. }
  exists r. repeat split; [exact Hr|exact Hq0|lia|].
  assert (Hemin : -1074 <= e) by (unfold e, fexp64; lia).
  clearbody r. clear Hm1 mrs.
  destruct (Z.ltb_spec r (2 ^ 53)) as [Hlt|Hge].
  - (* the rounded mantissa fits: no second shift *)
    assert (Hd : Zdigits2 r <= 53).
    { destruct (Z.eq_dec r 0) as [->|]; [simpl; lia|apply Zdigits2_le; lia]. }
    rewrite shr_nonpos by (unfold fexp64; lia).
    cbn [shr_record_of_loc shr_m]. unfold rounded.
    destruct r as [|p|p]; try lia; [reflexivity|].
    destruct (Z.ltb_spec (Z.pos p) (2 ^ 53)); [reflexivity|lia].
  - assert (Hr53 : r = 2 ^ 53) by lia. subst r.
    change (Zdigits2 (2 ^ 53)) with 54.
    replace (fexp64 (54 + e) - e) with 1 by (unfold fexp64; lia).
    reflexivity.
Qed.

(** A rounded mantissa that is not negative never gives a NaN. *)
Lemma iter_shr_1_nonneg (p : positive) (mrs : shr_record) :
  0 <= shr_m mrs -> 0 <= shr_m (iter_pos shr_1 p mrs).
Proof.
  intros H. rewrite iter_shr_1_div by assumption.
  apply Z.div_pos; [assumption|apply Z.pow_pos_nonneg; lia].
Qed.

Lemma shr_nonneg (mrs : shr_record) (e n : Z) :
  0 <= shr_m mrs -> 0 <= shr_m (fst (shr mrs e n)).
Proof.
  intros H. unfold shr. destruct n; cbn [fst]; try assumption.
  now apply iter_shr_1_nonneg.
Qed.

Lemma shr_record_of_loc_m (m : Z) (l : location) :
  shr_m (shr_record_of_loc m l) = m.
Proof. destruct l as [|[| |]]; reflexivity. Qed.

Lemma binary_round_aux_not_nan (s : bool) (mx ex : Z) (lx : location) :
  0 <= mx -> binary_round_aux prec emax s mx ex lx <> S754_nan.
Proof.
  intros Hmx. unfold binary_round_aux, shr_fexp.
  set (n1 := fexp prec emax (Zdigits2 mx + ex) - ex).
  assert (H1 := shr_nonneg (shr_record_of_loc mx lx) ex n1).
  rewrite shr_record_of_loc_m in H1. specialize (H1 Hmx).
  destruct (shr (shr_record_of_loc mx lx) ex n1) as [mrs e']. cbn [fst] in H1.
  set (r := round_nearest_even (shr_m mrs) (loc_of_shr_record mrs)).
  assert (Hr : 0 <= r).
  { unfold r. destruct (round_nearest_even_cases (shr_m mrs) (loc_of_shr_record mrs)); lia. }
  set (n2 := fexp prec emax (Zdigits2 r + e') - e').
  assert (H2 := shr_nonneg (shr_record_of_loc r loc_Exact) e' n2 Hr).
  destruct (shr (shr_record_of_loc r loc_Exact) e' n2) as [mrs2 e2]. cbn [fst] in H2.
  destruct (shr_m mrs2); try lia; [discriminate|].
  destruct (e2 <=? emax - prec); discriminate.
Qed.

(** ** Aligned numbers: [binary_round] and [binary_normalize] *)

Lemma digits2_pos_iter_xO (d m : positive) :
  Z.pos (digits2_pos (Pos.iter xO m d)) = Z.pos (digits2_pos m) + Z.pos d.
Proof.
  induction d as [|d IH] using Pos.peano_ind.
  - simpl. lia.
  - rewrite Pos.iter_succ. cbn [digits2_pos]. lia.
Qed.

Lemma iter_xO_value (d m : positive) :
  Z.pos (Pos.iter xO m d) = Z.pos m * 2 ^ Z.pos d.
Proof.
  induction d as [|d IH] using Pos.peano_ind.
  - simpl. lia.
  - rewrite Pos.iter_succ, Pos2Z.inj_xO, IH, Pos2Z.inj_succ, Z.pow_succ_r by lia. lia.
Qed.

Lemma rounded_not_infinity (s : bool) (r e : Z) :
  r <= 2 ^ 53 -> e <= 970 ->
  forall s', rounded s r e <> S754_infinity s'.
Proof.
  intros Hr He s'. unfold rounded. destruct r; try discriminate.
  destruct (Z.pos p <? 2 ^ 53).
  - destruct (Z.leb_spec e 971); [discriminate|lia].
  - destruct (Z.leb_spec (e + 1) 971); [discriminate|lia].
Qed.

Lemma binary_round_shape (s : bool) (mx : positive) (ex : Z) :
  exists r, 0 <= r <= 2 ^ 53 /\
            binary_round prec emax s mx ex
            = rounded s r (fexp64 (Z.pos (digits2_pos mx) + ex)).
Proof.
  unfold binary_round, shl_align. change (fexp prec emax) with fexp64.
  set (e1 := fexp64 (Z.pos (digits2_pos mx) + ex)).
  destruct (e1 - ex) as [|p|p] eqn:En.
  - destruct (binary_round_aux_exact s (Z.pos mx) ex ltac:(lia)) as (r & Hr & Hq & Hr53 & ->).
    + cbn [Zdigits2]. fold e1. lia.
    + cbn [Zdigits2]. fold e1. exists r. split; [lia|reflexivity].
  - destruct (binary_round_aux_exact s (Z.pos mx) ex ltac:(lia)) as (r & Hr & Hq & Hr53 & ->).
    + cbn [Zdigits2]. fold e1. lia.
    + cbn [Zdigits2]. fold e1. exists r. split; [lia|reflexivity].
  - assert (Hd : Zdigits2 (Z.pos (Pos.iter xO mx p)) + e1
                 = Z.pos (digits2_pos mx) + ex).
    { cbn [Zdigits2]. rewrite digits2_pos_iter_xO. lia. }
    destruct (binary_round_aux_exact s (Z.pos (Pos.iter xO mx p)) e1 ltac:(lia))
      as (r & Hr & Hq & Hr53 & ->).
    + rewrite Hd. fold e1. lia.
    + rewrite Hd. fold e1. exists r. split; [lia|reflexivity].
Qed.

Lemma binary_normalize_not_infinity (m e : Z) (sz : bool) :
  Zdigits2 m + e <= 1023 ->
  forall s, binary_normalize prec emax m e sz <> S754_infinity s.
Proof.
  intros Hd s. unfold binary_normalize.
  destruct m as [|p|p]; [discriminate| |].
  - destruct (binary_round_shape false p e) as (r & Hr & ->).
    apply rounded_not_infinity; [lia|]. cbn [Zdigits2] in Hd. unfold fexp64. lia.
  - destruct (binary_round_shape true p e) as (r & Hr & ->).
    apply rounded_not_infinity; [lia|]. cbn [Zdigits2] in Hd. unfold fexp64. lia.
Qed.

Lemma Zdigits2_abs_le (z k : Z) :
  0 <= k -> Z.abs z < 2 ^ k -> Zdigits2 z <= k.
Proof.
  intros Hk Hz. destruct z as [|p|p]; [simpl; lia| |].
  - apply Zdigits2_le; lia.
  - change (Zdigits2 (Z.neg p)) with (Zdigits2 (Z.pos p)).
    apply Zdigits2_le; lia.
Qed.

(** ** A probability times 100 *)

Lemma Prim2SF_100 : Prim2SF 100 = S754_finite false m100 (-46).
Proof. reflexivity. Qed.

Lemma valid_finite (m : positive) (e : Z) :
  valid_binary (S754_finite false m e) = true ->
  Z.pos (digits2_pos m) <= 53
  /\ (Z.pos (digits2_pos m) = 53 \/ e = -1074)
  /\ -1074 <= e.
Proof.
  unfold valid_binary, bounded, canonical_mantissa.
  change (fexp prec emax) with fexp64. unfold fexp64.
  intros H. apply andb_prop in H. destruct H as [H _].
  apply Z.eqb_eq in H. lia.
Qed.

Lemma rounded_le_100 (r e : Z) :
  0 <= r <= 2 ^ 53 -> e <= -46 -> (e = -46 -> r <= Z.pos m100) ->
  SFleb (rounded false r e) (S754_finite false m100 (-46)) = true.
Proof.
  intros Hr He Hm. unfold rounded.
  destruct r as [|p|p]; [reflexivity| |lia].
  destruct (Z.ltb_spec (Z.pos p) (2 ^ 53)) as [Hlt|Hge].
  - destruct (Z.leb_spec e 971); [|lia].
    unfold SFleb, SFcompare.
    destruct (Z.compare_spec e (-46)) as [Heq|Hlt'|Hgt]; [|reflexivity|lia].
    specialize (Hm Heq).
    rewrite Pos.compare_cont_spec.
    destruct (p ?= m100)%positive eqn:Hc; [reflexivity|reflexivity|].
    pose proof (proj1 (Pos.compare_gt_iff _ _) Hc). lia.
  - assert (e < -46) by (destruct (Z.eq_dec e (-46)) as [E|]; [specialize (Hm E); unfold m100 in Hm; lia|lia]).
    destruct (Z.leb_spec (e + 1) 971); [|lia].
    unfold SFleb, SFcompare.
    destruct (Z.compare_spec (e + 1) (-46)) as [Heq|Hlt'|Hgt]; [reflexivity|reflexivity|lia].
Qed.

Lemma zero_le_rounded (r e : Z) :
  0 <= r -> SFleb (S754_zero false) (rounded false r e) = true.
Proof.
  intros Hr. unfold rounded. destruct r as [|p|p]; [reflexivity| |lia].
  destruct (Z.pos p <? 2 ^ 53).
  - destruct (e <=? 971); reflexivity.
  - destruct (e + 1 <=? 971); reflexivity.
Qed.

Lemma SFmul_100_shape (m : positive) (e : Z) :
  valid_binary (S754_finite false m e) = true -> e <= -53 ->
  exists r e1,
    0 <= r <= 2 ^ 53 /\ e1 <= -46 /\ (e1 = -46 -> r <= Z.pos m100) /\
    SFmul prec emax (S754_finite false m e) (S754_finite false m100 (-46))
    = rounded false r e1.
Proof.
  intros Hv He. destruct (valid_finite m e Hv) as (Hd53 & Hcanon & Hemin).
  cbn [SFmul xorb].
  set (M := Z.pos (m * m100)). set (E := e + -46).
  assert (HM : M = Z.pos m * Z.pos m100) by reflexivity.
  destruct (digits2_bounds m) as [Hmlo Hmhi].
  assert (Hm53 : Z.pos m < 2 ^ 53).
  { eapply Z.lt_le_trans; [exact Hmhi|]. apply Z.pow_le_mono_r; lia. }
  assert (HMpos : 0 < M) by (unfold M; lia).
  assert (HdM_hi : Zdigits2 M <= 106).
  { apply Zdigits2_le; [assumption|]. rewrite HM. unfold m100.
    change (2 ^ 106) with (2 ^ 53 * 2 ^ 53). nia. }
  assert (HdM_lo : Z.pos (digits2_pos m) + 52 <= Zdigits2 M).
  { replace (Z.pos (digits2_pos m) + 52) with ((Z.pos (digits2_pos m) - 1 + 52) + 1) by lia.
    apply Zdigits2_ge; [lia|]. rewrite HM, Z.pow_add_r by lia.
    unfold m100. change (2 ^ 52) with 4503599627370496.
    assert (0 < 2 ^ (Z.pos (digits2_pos m) - 1)) by (apply Z.pow_pos_nonneg; lia). nia. }
  destruct (binary_round_aux_exact false M E HMpos) as (r & Hr & Hq & Hr53 & Heq).
  { unfold fexp64, E. lia. }
  exists r, (fexp64 (Zdigits2 M + E)). repeat split.
  - lia.
  - exact Hr53.
  - unfold fexp64, E. lia.
  - intros He1.
    assert (HdM : Zdigits2 M = 106 /\ e = -53) by (unfold fexp64, E in He1; lia).
    destruct HdM as [HdM ->].
    rewrite He1 in Hr. unfold E in Hr.
    replace (-46 - (-53 + -46)) with 53 in Hr by lia.
    assert (M / 2 ^ 53 < Z.pos m100).
    { apply Z.div_lt_upper_bound; [lia|]. rewrite HM. nia. }
    lia.
  - exact Heq.
Qed.

(** A float in [0, 1] times 100 lies in [0, 100]. *)
Lemma unit_times_100 (f : float) :
  (0 <=? f)%float = true -> (f <=? 1)%float = true ->
  (0 <=? f * 100)%float = true /\ (f * 100 <=? 100)%float = true.
Proof.
  rewrite !FloatAxioms.leb_spec, FloatAxioms.mul_spec, Prim2SF_100.
  change (Prim2SF 0) with (S754_zero false).
  change (Prim2SF 1) with (S754_finite false 4503599627370496 (-52)).
  assert (Hv := Prim2SF_valid f).
  destruct (Prim2SF f) as [s|s| |s m e]; try discriminate.
  - intros _ _. destruct s; split; reflexivity.
  - destruct s; discriminate.
  - destruct s; [discriminate|]. intros _ H1.
    assert (Hcase : e <= -53 \/ (e = -52 /\ m = 4503599627370496%positive)).
    { destruct (valid_finite m e Hv) as (Hd53 & Hcanon & Hemin).
      destruct (digits2_bounds m) as [Hmlo Hmhi].
      unfold SFleb, SFcompare in H1.
      destruct (Z.compare_spec e (-52)) as [Heq|Hlt|Hgt]; [right|left; lia|discriminate].
      split; [assumption|].
      rewrite Pos.compare_cont_spec in H1.
      assert (Hd : Z.pos (digits2_pos m) = 53) by lia.
      rewrite Hd in Hmlo. change (2 ^ (53 - 1)) with 4503599627370496 in Hmlo.
      destruct (m ?= 4503599627370496)%positive eqn:Hc;
        [now apply Pos.compare_eq in Hc
        |pose proof (proj1 (Pos.compare_lt_iff _ _) Hc) as Hlt;
         exfalso; apply Pos2Z.pos_lt_pos in Hlt; clear - Hmlo Hlt;
         apply (Z.lt_irrefl (Z.pos m)); eapply Z.lt_le_trans; eassumption
        |discriminate]. }
    destruct Hcase as [He|[-> ->]]; [|split; reflexivity].
    destruct (SFmul_100_shape m e Hv He) as (r & e1 & Hr & He1 & Hm & Heq).
    change (SF64mul (S754_finite false m e) (S754_finite false m100 (-46)))
      with (SFmul prec emax (S754_finite false m e) (S754_finite false m100 (-46))).
    rewrite Heq. split.
    + apply zero_le_rounded. lia.
    + apply rounded_le_100; assumption.
Qed.

(** ** Stepping through a function body *)

(** Case analysis on the next call of a body written with [bind]. *)
Ltac step :=
  cbn [bind];
  match goal with
  | |- context [bind ?m _] =>
      lazymatch m with
      | bind _ _ => fail
      | Return _ => fail
      | (if _ then _ else _) => fail
      | _ => destruct m eqn:?; cbn [bind]; try reflexivity
      end
  | |- context [if ?b then _ else _] =>
      destruct b eqn:?; cbn [bind]; try reflexivity
  end.

Ltac bind_step :=
  cbn [bind];
  match goal with
  | |- context [bind ?m _] =>
      lazymatch m with
      | bind _ _ => fail
      | Return _ => fail
      | (if _ then _ else _) => fail
      | _ => destruct m eqn:?; cbn [bind]; try reflexivity; try discriminate
      end
  end.

(** ** Dictionaries *)

Lemma lookup_without_key (k k' : string) (d : dict) :
  k <> k' -> lookup k (without_key k' d) = lookup k d.
Proof.
  intros Hne. induction d as [|[k0 v] d IH]; simpl; [reflexivity|].
  destruct (String.eqb_spec k' k0) as [->|Hk0]; simpl.
  - rewrite IH. destruct (String.eqb_spec k k0); congruence.
  - rewrite IH. reflexivity.
Qed.

Lemma data_get_without_key (k k' : string) (d : dict) :
  k <> k' -> data_get (without_key k' d) k = data_get d k.
Proof. intros H. unfold data_get. now rewrite lookup_without_key. Qed.

Lemma getitem_without_key (k k' : string) (d : dict) :
  k <> k' -> getitem (VDict (without_key k' d)) k = getitem (VDict d) k.
Proof. intros H. unfold getitem. now rewrite lookup_without_key. Qed.

Lemma section_absent (k : string) (result : dict) :
  truthy (data_get result k) = false -> section k result = None.
Proof.
  unfold section, data_get. destruct (lookup k result); [|reflexivity].
  intros ->. reflexivity.
Qed.

Lemma as_dicts_map (l : list value) (ds : list dict) :
  as_dicts l = Some ds -> l = map VDict ds.
Proof.
  revert ds. induction l as [|v l IH]; simpl; intros ds H.
  - now injection H as <-.
  - destruct v; try discriminate.
    destruct (as_dicts l) as [ds'|]; simpl in H; [|discriminate].
    injection H as <-. simpl. now rewrite (IH ds' eq_refl).
Qed.

Lemma data_get_truthy_dict (data : dict) (k : string) (r : dict) :
  data_get data k = VDict r -> r <> [] ->
  truthy (data_get data k) = true /\ getitem (VDict data) k = Return (VDict r).
Proof.
  unfold data_get, getitem. destruct (lookup k data); intros H Hr; [|discriminate].
  subst v. split; [|reflexivity]. destruct r; [congruence|reflexivity].
Qed.

(** ** The plain-text summary without sections *)

(** C9: a document without an [error] key whose sections ai,
    plagiarism, readability, grammarSpelling and credits are all absent
    or falsy is formatted as exactly "No results available". *)
Theorem format_results_no_sections (result : dict) :
  lookup "error" result = None ->
  truthy (data_get result "ai") = false ->
  truthy (data_get result "plagiarism") = false ->
  truthy (data_get result "readability") = false ->
  truthy (data_get result "grammarSpelling") = false ->
  truthy (data_get result "credits") = false ->
  format_results result = Return "No results available".
Proof.
  intros He Ha Hp Hr Hg Hc. unfold format_results, when_section.
  rewrite He, !section_absent by assumption. reflexivity.
Qed.

Lemma format_results_no_sections_witness :
  format_results [("ai", VDict []); ("credits", VNone); ("plagiarism", VList [])]
  = Return "No results available"
  /\ format_results [] = Return "No results available".
Proof.
  split; apply format_results_no_sections; reflexivity.
Defined.

(** ** Error documents *)

Ltac same_lookups :=
  rewrite ?data_get_without_key, ?getitem_without_key by discriminate.

Lemma insights_without_error (data : dict) :
  generate_detailed_insights (without_key "error" data)
  = generate_detailed_insights data.
Proof.
  unfold generate_detailed_insights, ai_insights, readability_insights,
    plagiarism_insights, complexity_insight, analyze_sentence_complexity.
  same_lookups. reflexivity.
Qed.

Lemma figures_without_error (data : dict) :
  report_figures (without_key "error" data) = report_figures data.
Proof.
  unfold report_figures, plot_ai_detection_results, plot_readability_metrics,
    plot_text_statistics, plot_sentence_complexity, plot_plagiarism_metrics,
    plot_readability_details, plot_readability_timeline, plot_sentence_heatmap,
    analyze_sentence_complexity, no_sentences, no_blocks.
  same_lookups. reflexivity.
Qed.

Lemma export_without_error (to_html : Plotly.Figure -> string)
    (figs : list (option Plotly.Figure)) (insights : list string)
    (data : dict) :
  export_to_html to_html figs insights (without_key "error" data)
  = export_to_html to_html figs insights data.
Proof.
  unfold export_to_html. rewrite !lookup_without_key by discriminate.
  reflexivity.
Qed.

(** C1, as the code has it: for every document with a top-level [error]
    key, [format_results] returns exactly "Error: " followed by the text
    of the error value, whatever other sections are present; the HTML
    report never reads the [error] key, so it is the report of the same
    document without that key; the document of the scenario gives
    exactly "Error: rate limited". *)
Theorem error_document_renderings (result : dict) (e : value) :
  lookup "error" result = Some e ->
  format_results result = Return ("Error: " ++ str e)
  /\ (forall to_html,
        html_report to_html result
        = html_report to_html (without_key "error" result))
  /\ format_results rate_limited = Return "Error: rate limited".
Proof.
  intros He. split; [|split].
  - unfold format_results. rewrite He. reflexivity.
  - intros to_html. unfold html_report.
    rewrite figures_without_error, insights_without_error.
    destruct (report_figures result); cbn [bind]; try reflexivity.
    destruct (generate_detailed_insights result); cbn [bind]; try reflexivity.
    now rewrite export_without_error.
  - reflexivity.
Qed.

Lemma error_document_renderings_witness :
  format_results rate_limited = Return "Error: rate limited".
Proof.
  exact (proj1 (error_document_renderings rate_limited (VStr "rate limited")
                  eq_refl)).
Defined.

(** C1 fails for the HTML report: the report of an error document with
    a credits section never shows the error message and shows the
    credits. *)
Lemma error_document_html_counterexample :
  has_key "error" rate_limited_with_credits = true
  /\ forall to_html, exists html,
       html_report to_html rate_limited_with_credits = Return html
       /\ contains "rate limited" html = false
       /\ contains "Used Credits: 5" html = true.
Proof.
  split; [reflexivity|]. intros to_html. eexists. split; [|split].
  - vm_compute. reflexivity.
  - vm_compute. reflexivity.
  - vm_compute. reflexivity.
Qed.

(** ** The AI scenario *)

(** C3 fails as stated: the insight sequence of the scenario reports
    82.0% and carries no line about text blocks at all, so no count of
    0 is reported. *)
Lemma ai_scenario_no_count_line :
  exists insights,
    generate_detailed_insights ai_confidence_only = Return insights
    /\ mentions "82.0%" insights = true
    /\ mentions "text blocks show strong AI characteristics" insights = false.
Proof. eexists. repeat split; vm_compute; reflexivity. Qed.

(** C3, as the code has it: for the document of the scenario the
    insight sequence is the header and the line of an AI probability of
    82.0%, and nothing else: the line of the high-AI count is written
    only when [blocks] is not empty. The count itself is the number of
    blocks with [fake > 0.75], strictly: 0 for no block, and 2 for
    blocks with 0.75, 0.76, 0.5 and 1. *)
Theorem ai_scenario_insights :
  generate_detailed_insights ai_confidence_only
  = Return ["ðŸ¤– AI Detection:"; "  - Overall AI Probability: 82.0%"]
  /\ high_ai_count [] = Return 0
  /\ high_ai_count [scored_block (VFloat 0.75); scored_block (VFloat 0.76);
                    scored_block (VFloat 0.5); scored_block (VInt 1)]
     = Return 2.
Proof. repeat split; vm_compute; reflexivity. Qed.

(** ** The insight sequence is built block by block *)

Lemma ai_insights_after (data : dict) (acc : list string) :
  ai_insights data acc = after acc (ai_insights data []).
Proof.
  unfold ai_insights, after.
  repeat step; unfold extend; rewrite ?app_nil_r, <- ?app_assoc; reflexivity.
Qed.

Lemma complexity_insight_after (data : dict) (acc : list string) :
  complexity_insight data acc = after acc (complexity_insight data []).
Proof.
  unfold complexity_insight, after.
  repeat step; unfold extend; rewrite ?app_nil_r, <- ?app_assoc; reflexivity.
Qed.

Lemma readability_insights_after (data : dict) (acc : list string) :
  readability_insights data acc = after acc (readability_insights data []).
Proof.
  unfold readability_insights.
  destruct (truthy (data_get data "readability"));
    [|unfold after; cbn [bind]; now rewrite app_nil_r].
  repeat bind_step.
  rewrite (complexity_insight_after data (extend acc _)).
  rewrite (complexity_insight_after data (extend [] _)).
  unfold after. destruct (complexity_insight data []); cbn [bind]; try reflexivity.
  unfold extend. cbn [app]. now rewrite <- app_assoc.
Qed.

Lemma plagiarism_insights_after (data : dict) (acc : list string) :
  plagiarism_insights data acc = after acc (plagiarism_insights data []).
Proof.
  unfold plagiarism_insights, after.
  repeat step; unfold extend; rewrite ?app_nil_r, <- ?app_assoc; reflexivity.
Qed.

Lemma generate_detailed_insights_blocks (data : dict) :
  generate_detailed_insights data
  = bind (ai_insights data []) (fun a =>
    bind (readability_insights data []) (fun r =>
    bind (plagiarism_insights data []) (fun p =>
    Return (a ++ r ++ p)%list))).
Proof.
  unfold generate_detailed_insights.
  destruct (ai_insights data []) as [a| |]; cbn [bind]; try reflexivity.
  rewrite (readability_insights_after data a). unfold after.
  destruct (readability_insights data []) as [r| |]; cbn [bind]; try reflexivity.
  rewrite (plagiarism_insights_after data (a ++ r)). unfold after.
  destruct (plagiarism_insights data []) as [p| |]; cbn [bind]; try reflexivity.
  now rewrite app_assoc.
Qed.



(** ** Numbers that format *)

Lemma float_of_Z_returns (z : Z) :
  Z.abs z < 2 ^ 1023 -> exists f, float_of_Z z = Return f.
Proof.
  intros Hz. unfold float_of_Z.
  assert (Hni := binary_normalize_not_infinity z 0 false).
  assert (Hd : Zdigits2 z + 0 <= 1023).
  { rewrite Z.add_0_r. apply Zdigits2_abs_le; [lia|assumption]. }
  specialize (Hni Hd).
  destruct (binary_normalize prec emax z 0 false) as [s|s| |s m e];
    try (eexists; reflexivity).
  now destruct (Hni s).
Qed.

Lemma format_f_returns (p : nat) (v : value) :
  is_real v = true -> exists text, format_f p v = Return text.
Proof.
  destruct v as [|b|z|f|s|l|d]; simpl; try discriminate; intros H.
  - destruct (float_of_Z_returns (Z.b2z b)) as [f ->].
    + destruct b; simpl; lia.
    + eexists. reflexivity.
  - apply Z.ltb_lt in H.
    destruct (float_of_Z_returns z) as [f ->];
      [eapply Z.lt_trans; [exact H|reflexivity]|].
    eexists. reflexivity.
  - eexists. reflexivity.
Qed.

Lemma format_percent_returns (p : nat) (v : value) :
  is_real v = true -> exists text, format_percent p v = Return text.
Proof.
  destruct v as [|b|z|f|s|l|d]; simpl; try discriminate; intros H.
  - destruct (float_of_Z_returns (Z.b2z b)) as [f ->].
    + destruct b; simpl; lia.
    + eexists. reflexivity.
  - apply Z.ltb_lt in H.
    destruct (float_of_Z_returns z) as [f ->];
      [eapply Z.lt_trans; [exact H|reflexivity]|].
    eexists. reflexivity.
  - eexists. reflexivity.
Qed.

Lemma float_of_100 : float_of_Z 100 = Return 100%float.
Proof. vm_compute. reflexivity. Qed.

(** The quotient of two counts, the first at most twice the second,
    is a binary64. *)
Lemma int_truediv_returns (a b : Z) :
  0 <= a -> 0 < b -> a <= 2 * b -> exists q, int_truediv a b = Return q.
Proof.
  intros Ha Hb Hab. unfold int_truediv.
  destruct (Z.eqb_spec b 0) as [|_]; [lia|].
  destruct (Z.eqb_spec a 0) as [|Ha0]; [eexists; reflexivity|].
  replace (a <? 0) with false by (symmetry; apply Z.ltb_ge; lia).
  replace (b <? 0) with false by (symmetry; apply Z.ltb_ge; lia).
  cbn [xorb]. rewrite !Z.abs_eq by lia.
  set (k := Z.max 0 (55 + Z.log2 b - Z.log2 a)).
  set (q := a * 2 ^ k / b).
  set (sticky := if a * 2 ^ k mod b =? 0 then 0 else 1).
  assert (Hk : 0 <= k) by (unfold k; lia).
  assert (Hpow : 0 < 2 ^ k) by (apply Z.pow_pos_nonneg; lia).
  assert (Hq : 0 <= q <= 2 * 2 ^ k).
  { unfold q. split; [apply Z.div_pos; nia|].
    apply Z.div_le_upper_bound; [lia|]. nia. }
  assert (Hs : 0 <= sticky <= 1) by (unfold sticky; destruct (_ =? 0); lia).
  assert (Hni := binary_normalize_not_infinity (2 * q + sticky) (- k - 1) false).
  assert (Hd : Zdigits2 (2 * q + sticky) + (- k - 1) <= 1023).
  { assert (Zdigits2 (2 * q + sticky) <= k + 3); [|lia].
    apply Zdigits2_abs_le; [lia|]. rewrite Z.abs_eq by lia.
    replace (k + 3) with (3 + k) by lia. rewrite Z.pow_add_r by lia.
    change (2 ^ 3) with 8. lia. }
  specialize (Hni Hd).
  destruct (binary_normalize prec emax (2 * q + sticky) (- k - 1) false)
    as [s|s| |s m e]; try (eexists; reflexivity).
  now destruct (Hni s).
Qed.

(** ** The sentence complexity summary *)

Lemma count_if_filter (cond : value -> outcome bool) (p : dict -> bool)
    (ss : list dict) (n : Z) :
  (forall s, cond (VDict s) = Return (p s)) ->
  foldM (fun n x => bind (cond x) (fun b => Return (if b then n + 1 else n)))
        (map VDict ss) n
  = Return (n + Z.of_nat (List.length (filter p ss))).
Proof.
  intros Hc. revert n. induction ss as [|s ss IH]; intros n; simpl.
  - now rewrite Z.add_0_r.
  - rewrite Hc. cbn [bind]. rewrite IH.
    destruct (p s); simpl List.length; f_equal; lia.
Qed.

Lemma count_flag_dicts (k : string) (default : value) (ss : list dict) :
  count_flag k default (map VDict ss) = Return (count_truthy k default ss).
Proof.
  unfold count_flag, count_if, count_truthy.
  rewrite (count_if_filter _ (fun s => truthy (field k default s)));
    [reflexivity|].
  intros s. reflexivity.
Qed.

Lemma count_truthy_bounds (k : string) (default : value) (ss : list dict) :
  0 <= count_truthy k default ss <= Z.of_nat (List.length ss).
Proof.
  unfold count_truthy. split; [lia|]. apply inj_le, filter_length_le.
Qed.

Lemma analyze_sentence_complexity_summary (data r : dict) (ss : list dict) :
  data_get data "readability" = VDict r -> r <> [] ->
  sentences_of r = Some ss ->
  analyze_sentence_complexity data = Return (complexity_summary ss).
Proof.
  intros Hd Hr Hs. destruct (data_get_truthy_dict _ _ _ Hd Hr) as [Ht Hg].
  unfold analyze_sentence_complexity. rewrite Ht, Hg. cbn [negb bind get].
  unfold sentences_of, records_of in Hs.
  destruct (lookup "sentences" r) as [v|].
  - destruct v; try discriminate. apply as_dicts_map in Hs. subst l.
    cbn [bind len iter]. rewrite !count_flag_dicts. cbn [bind].
    unfold complexity_summary. now rewrite length_map.
  - injection Hs as <-. reflexivity.
Qed.

(** C10: [analyze_sentence_complexity] returns the empty mapping
    exactly when the readability section is absent or falsy; for a
    readability section that is a mapping which is not empty, with
    sentence mappings or no [sentences] at all, it returns the five
    counts, all of them 0 when [sentences] is missing or empty. *)
Theorem complexity_no_data_marker (data : dict) :
  (analyze_sentence_complexity data = Return []
   <-> truthy (data_get data "readability") = false)
  /\ (forall r ss,
        data_get data "readability" = VDict r -> r <> [] ->
        sentences_of r = Some ss ->
        analyze_sentence_complexity data = Return (complexity_summary ss)
        /\ keys (complexity_summary ss)
           = ["total_sentences"; "hard_sentences"; "very_hard_sentences";
              "sentences_with_long_words"; "sentences_with_complex_words"])
  /\ (forall r,
        data_get data "readability" = VDict r -> r <> [] ->
        lookup "sentences" r = None \/ lookup "sentences" r = Some (VList []) ->
        analyze_sentence_complexity data
        = Return [("total_sentences", VInt 0); ("hard_sentences", VInt 0);
                  ("very_hard_sentences", VInt 0);
                  ("sentences_with_long_words", VInt 0);
                  ("sentences_with_complex_words", VInt 0)]).
Proof.
  split; [|split].
  - unfold analyze_sentence_complexity.
    destruct (truthy (data_get data "readability")); cbn [negb]; split;
      try reflexivity; try discriminate.
    repeat bind_step.
  - intros r ss Hd Hr Hs. split; [|reflexivity].
    now apply analyze_sentence_complexity_summary with r.
  - intros r Hd Hr Hs.
    rewrite (analyze_sentence_complexity_summary data r [] Hd Hr); [reflexivity|].
    unfold sentences_of, records_of. now destruct Hs as [-> | ->].
Qed.

Lemma complexity_no_data_marker_witness :
  analyze_sentence_complexity six_sentence_document
  = Return (complexity_summary six_sentences)
  /\ analyze_sentence_complexity [("readability", VDict [("sentences", VList [])])]
     = Return [("total_sentences", VInt 0); ("hard_sentences", VInt 0);
               ("very_hard_sentences", VInt 0);
               ("sentences_with_long_words", VInt 0);
               ("sentences_with_complex_words", VInt 0)].
Proof.
  split.
  - refine (proj1 (proj1 (proj2 (complexity_no_data_marker six_sentence_document))
                     _ six_sentences eq_refl _ eq_refl)).
    discriminate.
  - refine (proj2 (proj2 (complexity_no_data_marker
                            [("readability", VDict [("sentences", VList [])])]))
                   [("sentences", VList [])] eq_refl _ _).
    + discriminate.
    + right. reflexivity.
Defined.

(** ** The percent-complex line *)

Lemma percent_complex_returns (hard very_hard total : Z) :
  0 <= hard <= total -> 0 <= very_hard <= total -> 0 < total ->
  exists text, percent_complex hard very_hard total = Return text.
Proof.
  intros Hh Hv Ht. unfold percent_complex.
  destruct (int_truediv_returns (hard + very_hard) total) as [q ->];
    [lia|lia|lia|]. eexists. reflexivity.
Qed.

Lemma complexity_insight_lines (data r : dict) (ss : list dict)
    (acc : list string) :
  data_get data "readability" = VDict r -> r <> [] ->
  sentences_of r = Some ss ->
  complexity_insight data acc
  = Return (acc ++ percent_lines
                     (count_truthy "isHard" (VBool false) ss)
                     (count_truthy "isVeryHard" (VBool false) ss)
                     (Z.of_nat (List.length ss)))%list.
Proof.
  intros Hd Hr Hs. unfold complexity_insight.
  rewrite (analyze_sentence_complexity_summary data r ss Hd Hr Hs).
  cbn [bind]. unfold complexity_summary at 1. cbn [truthy].
  unfold complexity_summary.
  cbn [getitem lookup String.eqb Ascii.eqb Bool.eqb bind gt as_num add truediv].
  unfold percent_lines.
  set (hard := count_truthy "isHard" (VBool false) ss).
  set (very_hard := count_truthy "isVeryHard" (VBool false) ss).
  set (n := Z.of_nat (List.length ss)).
  destruct (Z.ltb_spec 0 n) as [Hn|Hn]; [|now rewrite app_nil_r].
  destruct (percent_complex_returns hard very_hard n) as [text Htext];
    [apply count_truthy_bounds|apply count_truthy_bounds|assumption|].
  rewrite Htext. unfold percent_complex in Htext.
  destruct (int_truediv (hard + very_hard) n) as [q| |]; try discriminate.
  cbn [bind] in Htext |- *. injection Htext as <-.
  cbn [mul as_num]. rewrite float_of_100. reflexivity.
Qed.



(** ** The plagiarism metric mapping *)

Lemma string_of_Z_inj (x y : Z) : string_of_Z x = string_of_Z y -> x = y.
Proof.
  unfold string_of_Z. intros H.
  assert (Hnn : forall z, Z.to_int z <> Pos Nil /\ Z.to_int z <> Neg Nil).
  { intros [|p|p]; simpl; split; try discriminate;
      intros [= Hp]; now apply (Unsigned.to_uint_nonnil p). }
  apply DecimalZ.to_int_inj.
  assert (Hx := NilZero.isi (Z.to_int x) (proj1 (Hnn x)) (proj2 (Hnn x))).
  assert (Hy := NilZero.isi (Z.to_int y) (proj1 (Hnn y)) (proj2 (Hnn y))).
  rewrite H in Hx. congruence.
Qed.

Lemma match_key_inj (i j : Z) :
  "Match " ++ string_of_Z i = "Match " ++ string_of_Z j -> i = j.
Proof. simpl. intros [= H]. now apply string_of_Z_inj. Qed.

Lemma dict_set_fresh (k : string) (v : value) (d : dict) :
  lookup k d = None -> dict_set k v d = (d ++ [(k, v)])%list.
Proof.
  induction d as [|[k' v'] d IH]; simpl; [reflexivity|].
  destruct (String.eqb k k'); [discriminate|]. intros H. now rewrite IH.
Qed.

Lemma lookup_app_none (k : string) (d1 d2 : dict) :
  lookup k d1 = None -> lookup k d2 = None -> lookup k (d1 ++ d2)%list = None.
Proof.
  induction d1 as [|[k' v'] d1 IH]; simpl; [auto|].
  destruct (String.eqb k k'); [discriminate|auto].
Qed.

(** The loop over the matches appends one entry per match, as long as
    no later label is in the mapping yet. *)
Lemma add_matches_entries (ms : list dict) :
  forall (i : Z) (metrics : dict),
    (forall j, i <= j -> lookup ("Match " ++ string_of_Z j) metrics = None) ->
    add_matches i (map VDict ms) metrics
    = Return (metrics ++ match_entries i ms)%list.
Proof.
  induction ms as [|m ms IH]; intros i metrics Hfresh; simpl.
  - now rewrite app_nil_r.
  - change (str (VInt i)) with (string_of_Z i).
    rewrite dict_set_fresh by (apply Hfresh; lia).
    rewrite IH.
    + now rewrite <- app_assoc.
    + intros j Hj. apply lookup_app_none; [apply Hfresh; lia|].
      cbn [lookup].
      destruct (String.eqb _ _) eqn:E; [|reflexivity].
      apply String.eqb_eq in E. apply match_key_inj in E. lia.
Qed.

Lemma match_entries_length (ms : list dict) (i : Z) :
  List.length (match_entries i ms) = List.length ms.
Proof. revert i. induction ms; simpl; intros; [reflexivity|now rewrite IHms]. Qed.

Lemma match_entries_nth (ms : list dict) :
  forall (i : Z) (n : nat) (m : dict),
    nth_error ms n = Some m ->
    nth_error (match_entries i ms) n
    = Some ("Match " ++ string_of_Z (i + Z.of_nat n), field "score" (VInt 0) m).
Proof.
  induction ms as [|m0 ms IH]; intros i n m H.
  - destruct n; discriminate.
  - destruct n as [|n]; cbn [nth_error match_entries] in *.
    + injection H as ->. now rewrite Z.add_0_r.
    + rewrite (IH (i + 1) n m H).
      now replace (i + Z.of_nat (S n)) with (i + 1 + Z.of_nat n) by lia.
Qed.

Lemma plagiarism_metrics_set (p : dict) (ms : list dict) :
  matches_of p = Some ms ->
  plagiarism_metrics (VDict p) = Return (plagiarism_metric_set p ms).
Proof.
  unfold matches_of, records_of, plagiarism_metrics, plagiarism_metric_set, field.
  intros Hm. cbn [get bind getitem].
  destruct (lookup "matches" p) as [v|].
  - destruct v; try discriminate. apply as_dicts_map in Hm. subst l.
    destruct ms as [|m ms]; [reflexivity|].
    cbn [map truthy iter bind].
    change (VDict m :: map VDict ms) with (map VDict (m :: ms)).
    rewrite add_matches_entries; [reflexivity|].
    intros j _. reflexivity.
  - injection Hm as <-. reflexivity.
Qed.

(** C7: for a document whose plagiarism section is a mapping that is
    not empty, with match mappings or no [matches], the metric mapping
    of [plot_plagiarism_metrics], whose keys and values are the bars of
    the figure, has 1 + len(matches) entries; the first is "Overall
    Score" with the score of the document; entry n + 1 is "Match n + 1"
    with the score of match n, in the order of the matches; matches of
    40 and 10 give Overall Score, Match 1 = 40 and Match 2 = 10. *)
Theorem plagiarism_metric_mapping (data p : dict) (ms : list dict) :
  data_get data "plagiarism" = VDict p -> p <> [] ->
  matches_of p = Some ms ->
  let metrics := plagiarism_metric_set p ms in
  plagiarism_metrics (VDict p) = Return metrics
  /\ (exists layout text,
        plot_plagiarism_metrics data
        = Return (Some (Plotly.Build_Figure
                          [Plotly.Bar (keys metrics) (values metrics)
                                      (VStr "#FF9999") (Some text)]
                          layout)))
  /\ List.length metrics = S (List.length ms)
  /\ hd_error metrics = Some ("Overall Score", field "score" (VInt 0) p)
  /\ (forall n m, nth_error ms n = Some m ->
        nth_error metrics (S n)
        = Some ("Match " ++ string_of_Z (Z.of_nat n + 1),
                field "score" (VInt 0) m))
  /\ plagiarism_metrics (data_get two_matches "plagiarism")
     = Return [("Overall Score", VInt 25); ("Match 1", VInt 40);
               ("Match 2", VInt 10)].
Proof.
  intros Hd Hp Hm metrics.
  destruct (data_get_truthy_dict _ _ _ Hd Hp) as [Ht Hg].
  assert (Hpm := plagiarism_metrics_set p ms Hm). fold metrics in Hpm.
  split; [exact Hpm|]. split; [|split; [|split; [|split]]].
  - unfold plot_plagiarism_metrics. rewrite Ht, Hg. cbn [negb bind].
    rewrite Hpm. cbn [bind]. eexists _, _. reflexivity.
  - unfold metrics, plagiarism_metric_set. cbn [List.length].
    now rewrite match_entries_length.
  - reflexivity.
  - intros n m H. unfold metrics, plagiarism_metric_set. cbn [nth_error].
    rewrite (match_entries_nth ms 1 n m H).
    now replace (Z.of_nat n + 1) with (1 + Z.of_nat n) by lia.
  - vm_compute. reflexivity.
Qed.

Lemma plagiarism_metric_mapping_witness :
  plagiarism_metrics (data_get two_matches "plagiarism")
  = Return [("Overall Score", VInt 25); ("Match 1", VInt 40);
            ("Match 2", VInt 10)].
Proof.
  refine (proj1 (plagiarism_metric_mapping two_matches
    [("score", VInt 25);
     ("matches",
      VList [VDict [("url", VStr "https://a.example"); ("score", VInt 40)];
             VDict [("url", VStr "https://b.example"); ("score", VInt 10)]])]
    [[("url", VStr "https://a.example"); ("score", VInt 40)];
     [("url", VStr "https://b.example"); ("score", VInt 10)]]
    eq_refl _ eq_refl)).
  discriminate.
Defined.

(** ** The rolling timeline *)

Lemma total_app (a b : list Z) : total (a ++ b) = total a + total b.
Proof. unfold total. induction a; simpl; lia. Qed.

Lemma roll_mean_length (window min_periods : nat) (xs : list Z) :
  forall seen sum_x,
    List.length (Pandas.roll_mean window min_periods seen sum_x xs)
    = List.length xs.
Proof.
  induction xs as [|x xs IH]; intros seen sum_x; simpl; [reflexivity|].
  destruct (List.length seen <? window)%nat; [|destruct seen]; simpl;
    now rewrite IH.
Qed.

(** One step of the pass: the window before the entering value is
    the tail of the values seen so far. *)
Lemma window_step (window : nat) (pre : list Z) (x : Z) :
  (1 <= window)%nat ->
  let seen := skipn (List.length pre - window) pre in
  (if (List.length seen <? window)%nat then (seen, total seen)
   else match seen with
        | [] => (seen, total seen)
        | old :: rest => (rest, total seen - old)
        end)
  = (let seen1 := skipn (List.length (pre ++ [x]) - window) pre in
     (seen1, total seen1)).
Proof.
  intros Hw seen. rewrite length_app. cbn [List.length].
  assert (Hlen : List.length seen = Nat.min (List.length pre) window).
  { unfold seen. rewrite length_skipn. lia. }
  destruct (Nat.ltb_spec (List.length seen) window) as [Hlt|Hge].
  - unfold seen.
    replace (List.length pre + 1 - window)%nat with 0%nat by lia.
    replace (List.length pre - window)%nat with 0%nat by lia.
    reflexivity.
  - replace (List.length pre + 1 - window)%nat
      with (1 + (List.length pre - window))%nat by lia.
    rewrite <- skipn_skipn. fold seen.
    destruct seen as [|old rest]; [cbn [List.length] in *; lia|].
    cbn [skipn]. unfold total. cbn [fold_right]. f_equal. lia.
Qed.

Lemma roll_mean_windows (window : nat) (rest : list Z) :
  (1 <= window)%nat ->
  forall pre : list Z,
    Pandas.roll_mean window 1 (skipn (List.length pre - window) pre)
                     (total (skipn (List.length pre - window) pre)) rest
    = map (moving_average window (pre ++ rest))
          (seq (List.length pre) (List.length rest)).
Proof.
  intros Hw. induction rest as [|x rest IH]; intros pre; [reflexivity|].
  cbn [Pandas.roll_mean List.length seq map].
  rewrite (window_step window pre x Hw). cbv beta iota zeta.
  assert (Hwin : (skipn (List.length (pre ++ [x]) - window) pre ++ [x])%list
                 = window_at window (pre ++ x :: rest) (List.length pre)).
  { unfold window_at.
    replace (pre ++ x :: rest)%list with ((pre ++ [x]) ++ rest)%list
      by now rewrite <- app_assoc.
    rewrite firstn_app.
    replace (List.length pre + 1 - List.length (pre ++ [x]))%nat with 0%nat
      by (rewrite length_app; cbn [List.length]; lia).
    rewrite firstn_all2 by (rewrite length_app; cbn [List.length]; lia).
    cbn [firstn]. rewrite app_nil_r, skipn_app, length_app. cbn [List.length].
    replace (List.length pre + 1 - window - List.length pre)%nat with 0%nat by lia.
    reflexivity. }
  assert (Hsum : total (skipn (List.length (pre ++ [x]) - window) pre) + x
                 = total (window_at window (pre ++ x :: rest) (List.length pre))).
  { rewrite <- Hwin, total_app. unfold total. cbn [fold_right]. lia. }
  rewrite Hsum, Hwin.
  assert (Hpos : (1 <=? List.length (window_at window (pre ++ x :: rest)
                                       (List.length pre)))%nat = true).
  { apply Nat.leb_le. rewrite <- Hwin, length_app. cbn [List.length]. lia. }
  rewrite Hpos. f_equal.
  assert (Hskip : skipn (S (List.length pre) - window) (pre ++ [x])
                  = (skipn (List.length (pre ++ [x]) - window) pre ++ [x])%list).
  { rewrite skipn_app, length_app. cbn [List.length].
    replace (S (List.length pre) - window - List.length pre)%nat with 0%nat by lia.
    replace (S (List.length pre) - window)%nat
      with (List.length pre + 1 - window)%nat by lia.
    reflexivity. }
  specialize (IH (pre ++ [x])%list).
  rewrite <- app_assoc in IH. cbn [app] in IH.
  rewrite length_app in IH. cbn [List.length] in IH.
  replace (List.length pre + 1)%nat with (S (List.length pre)) in IH by lia.
  rewrite Hskip, Hwin in IH. exact IH.
Qed.

(** The pass of pandas computes the moving average of the words. *)
Lemma rolling_mean_moving_averages (window : nat) (xs : list Z) :
  (1 <= window)%nat ->
  Pandas.rolling_mean window 1 xs = moving_averages window xs.
Proof. intros Hw. exact (roll_mean_windows window xs Hw []). Qed.

Lemma moving_averages_length (window : nat) (xs : list Z) :
  List.length (moving_averages window xs) = List.length xs.
Proof. unfold moving_averages. now rewrite length_map, length_seq. Qed.

(** *** No average is a NaN *)

Lemma SFeqb_refl (x : spec_float) : x <> S754_nan -> SFeqb x x = true.
Proof.
  unfold SFeqb, SFcompare. destruct x as [s|s| |s m e]; intros Hx.
  - reflexivity.
  - now destruct s.
  - congruence.
  - rewrite Z.compare_refl.
    change (Pos.compare_cont Eq m m) with (m ?= m)%positive.
    rewrite Pos.compare_refl. now destruct s.
Qed.

Lemma rounded_not_nan (s : bool) (r e : Z) :
  0 <= r -> rounded s r e <> S754_nan.
Proof.
  intros Hr. unfold rounded. destruct r as [|p|p]; [discriminate| |lia].
  destruct (Z.pos p <? 2 ^ 53).
  - destruct (e <=? 971); discriminate.
  - destruct (e + 1 <=? 971); discriminate.
Qed.

Lemma to_float_not_nan (z : Z) :
  0 <= z -> Prim2SF (Pandas.to_float z) <> S754_nan.
Proof.
  intros Hz. unfold Pandas.to_float.
  replace (z <? 0) with false by (symmetry; apply Z.ltb_ge; lia).
  rewrite FloatAxioms.of_uint63_spec.
  assert (Hb := Uint63.to_Z_bounded (Uint63.of_Z z)).
  unfold binary_normalize.
  destruct (Uint63Axioms.to_Z (Uint63.of_Z z)) as [|p|p]; [discriminate| |lia].
  destruct (binary_round_shape false p 0) as (r & Hr & ->).
  apply rounded_not_nan. lia.
Qed.

Lemma SFdiv_finite_not_nan (x : spec_float) (sy : bool) (my : positive)
    (ey : Z) :
  x <> S754_nan -> SFdiv prec emax x (S754_finite sy my ey) <> S754_nan.
Proof.
  intros Hx. destruct x as [s|s| |s m e]; cbn [SFdiv]; try congruence;
    try discriminate.
  destruct (SFdiv_core_binary prec emax (Z.pos m) e (Z.pos my) ey)
    as [[mz ez] lz] eqn:Hcore.
  apply binary_round_aux_not_nan.
  unfold SFdiv_core_binary in Hcore.
  match type of Hcore with
  | context [Z.div_eucl ?a ?b] =>
      set (m' := a) in Hcore; assert (Ha : 0 <= m')
  end.
  { unfold m'.
    match goal with
    | |- 0 <= match ?s with _ => _ end => destruct s eqn:Es; [lia| |lia]
    end.
    rewrite Z.shiftl_mul_pow2 by lia.
    apply Z.mul_nonneg_nonneg; [lia|apply Z.pow_nonneg; lia]. }
  assert (Hq := Z.div_pos m' (Z.pos my) Ha ltac:(lia)). unfold Z.div in Hq.
  destruct (Z.div_eucl m' (Z.pos my)) as [q r].
  injection Hcore as <- _ _. exact Hq.
Qed.

Lemma window_count_finite (c : nat) :
  (1 <= c <= 5)%nat ->
  exists s m e, Prim2SF (Pandas.to_float (Z.of_nat c)) = S754_finite s m e.
Proof.
  intros Hc.
  assert (H : (c = 1 \/ c = 2 \/ c = 3 \/ c = 4 \/ c = 5)%nat) by lia.
  destruct H as [->|[->|[->|[->| ->]]]]; eexists _, _, _; vm_compute; reflexivity.
Qed.

Lemma total_nonneg (xs : list Z) : Forall (fun x => 0 <= x) xs -> 0 <= total xs.
Proof. unfold total. induction 1; simpl; lia. Qed.

Lemma Forall_window {A : Type} (P : A -> Prop) (n m : nat) (l : list A) :
  Forall P l -> Forall P (skipn n (firstn m l)).
Proof.
  intros H.
  assert (Hfirst : Forall P (firstn m l)).
  { revert m. induction H as [|a l Ha _ IH]; intros m.
    - rewrite firstn_nil. constructor.
    - destruct m; [constructor|]. constructor; [assumption|apply IH]. }
  revert n. induction Hfirst as [|a l0 Ha Hl IH]; intros n.
  - rewrite skipn_nil. constructor.
  - destruct n; [constructor; assumption|]. apply IH.
Qed.

Lemma moving_average_not_nan (xs : list Z) (i : nat) :
  Forall (fun x => 0 <= x) xs -> (i < List.length xs)%nat ->
  is_nan (moving_average 5 xs i) = false.
Proof.
  intros Hxs Hi. unfold is_nan, moving_average.
  rewrite FloatAxioms.eqb_spec, FloatAxioms.div_spec.
  set (w := window_at 5 xs i).
  assert (Hlen : (1 <= List.length w <= 5)%nat).
  { unfold w, window_at. rewrite length_skipn, length_firstn. lia. }
  assert (Hw : Forall (fun x => 0 <= x) w).
  { unfold w, window_at. now apply Forall_window. }
  destruct (window_count_finite _ Hlen) as (s & m & e & ->).
  rewrite SFeqb_refl; [reflexivity|].
  apply SFdiv_finite_not_nan, to_float_not_nan, total_nonneg, Hw.
Qed.

Lemma moving_averages_not_nan (xs : list Z) :
  Forall (fun x => 0 <= x) xs ->
  Forall (fun y => is_nan y = false) (moving_averages 5 xs).
Proof.
  intros Hxs. unfold moving_averages. apply Forall_map, Forall_forall.
  intros i Hi. apply in_seq in Hi. apply moving_average_not_nan; [assumption|lia].
Qed.

(** *** The frame of the sentence records *)

Lemma DataFrame_records (records : list dict) :
  Pandas.DataFrame (VList (map VDict records)) = Return records.
Proof.
  unfold Pandas.DataFrame. induction records as [|d ds IH]; [reflexivity|].
  cbn [map mapM bind]. now rewrite IH.
Qed.

Lemma column_of_records {A : Type} (k : string) (f : A -> value)
    (records : list dict) (ss : list A) :
  Forall2 (fun d s => lookup k d = Some (f s)) records ss ->
  records <> [] ->
  Pandas.column k records = Return (map f ss).
Proof.
  intros H Hne. unfold Pandas.column.
  assert (Hex : existsb (has_key k) records = true).
  { destruct H as [|d s ds ss' Hd _]; [congruence|].
    cbn [existsb]. unfold has_key at 1. now rewrite Hd. }
  rewrite Hex. f_equal. clear Hne Hex.
  induction H as [|d s ds ss' Hd _ IH]; [reflexivity|].
  cbn [map]. now rewrite Hd, IH.
Qed.

Lemma Forall2_weaken {A B : Type} (P Q : A -> B -> Prop) (l : list A)
    (l' : list B) :
  (forall a b, P a b -> Q a b) -> Forall2 P l l' -> Forall2 Q l l'.
Proof. intros HPQ H. induction H; constructor; auto. Qed.

Lemma astype_int_flags {A : Type} (f : A -> bool) (ss : list A) :
  Pandas.astype_int (map (fun s => VBool (f s)) ss)
  = Return (map (fun s => Z.b2z (f s)) ss).
Proof.
  unfold Pandas.astype_int. induction ss as [|s ss IH]; [reflexivity|].
  cbn [map mapM bind]. now rewrite IH.
Qed.

Lemma str_len_lists {A : Type} (f : A -> list string) (ss : list A) :
  Pandas.str_len (map (fun s => VList (map VStr (f s))) ss)
  = Return (map (fun s => Z.of_nat (List.length (f s))) ss).
Proof.
  unfold Pandas.str_len. induction ss as [|s ss IH]; [reflexivity|].
  cbn [map mapM bind len]. rewrite IH. cbn [bind]. now rewrite length_map.
Qed.

Lemma series_add_map {A : Type} (f g : A -> Z) (ss : list A) :
  Pandas.series_add (map f ss) (map g ss) = map (fun s => f s + g s) ss.
Proof.
  unfold Pandas.series_add. induction ss as [|s ss IH]; [reflexivity|].
  cbn [map combine fst snd]. f_equal. exact IH.
Qed.

Lemma timeline_metrics_series (sentences : list dict)
    (ss : list SentenceRecord) :
  Forall2 represents sentences ss -> sentences <> [] ->
  timeline_metrics sentences
  = Return [("Complexity", complexity_series ss);
            ("Long Words", long_word_series ss);
            ("Complex Words", complex_word_series ss)].
Proof.
  intros H Hne. unfold timeline_metrics.
  rewrite (column_of_records "isHard" (fun s => VBool (isHard s)) sentences ss);
    [|eapply Forall2_weaken; [|exact H]; now intros d s (H1 & _)|assumption].
  cbn [bind]. rewrite astype_int_flags. cbn [bind].
  rewrite (column_of_records "isVeryHard" (fun s => VBool (isVeryHard s))
             sentences ss);
    [|eapply Forall2_weaken; [|exact H]; now intros d s (_ & H2 & _)|assumption].
  cbn [bind]. rewrite astype_int_flags. cbn [bind].
  rewrite (column_of_records "wordsOver13Chars"
             (fun s => VList (map VStr (wordsOver13Chars s))) sentences ss);
    [|eapply Forall2_weaken; [|exact H]; now intros d s (_ & _ & H3 & _)
     |assumption].
  cbn [bind]. rewrite str_len_lists. cbn [bind].
  rewrite (column_of_records "wordsOver4Syllables"
             (fun s => VList (map VStr (wordsOver4Syllables s))) sentences ss);
    [|eapply Forall2_weaken; [|exact H]; now intros d s (_ & _ & _ & H4)
     |assumption].
  cbn [bind]. rewrite str_len_lists. cbn [bind].
  now rewrite series_add_map.
Qed.

Lemma timeline_trace_series (name : string) (xs : list Z) :
  timeline_trace (name, xs) = timeline_series name xs.
Proof.
  unfold timeline_trace, timeline_series, window_size. cbn [fst snd].
  rewrite rolling_mean_moving_averages by lia.
  now rewrite moving_averages_length.
Qed.

(** C5: for every list of sentence records held by the readability
    section, each of the three series of the timeline (complexity 0, 1
    or 2, long words, complex words) is the moving average over a
    window of 5 with min_periods = 1, the mean of however many points
    the window holds; it has one point per sentence and no point is a
    NaN; no sentence gives no figure and no error. The pass of pandas
    computes that moving average for every window of at least 1, and
    its output is as long as its input for every window. *)
Theorem rolling_timeline (data r : dict) (sentences : list dict)
    (ss : list SentenceRecord) :
  data_get data "readability" = VDict r ->
  lookup "sentences" r = Some (VList (map VDict sentences)) ->
  Forall2 represents sentences ss ->
  (ss = [] -> plot_readability_timeline data = Return None)
  /\ (ss <> [] ->
      exists layout,
        plot_readability_timeline data
        = Return (Some (Plotly.Build_Figure
                          [timeline_series "Complexity" (complexity_series ss);
                           timeline_series "Long Words" (long_word_series ss);
                           timeline_series "Complex Words"
                                           (complex_word_series ss)]
                          layout)))
  /\ (forall xs,
        In xs [complexity_series ss; long_word_series ss;
               complex_word_series ss] ->
        List.length (moving_averages 5 xs) = List.length ss
        /\ Forall (fun y => is_nan y = false) (moving_averages 5 xs)
        /\ forall i, (i < List.length ss)%nat ->
             nth i (moving_averages 5 xs) Pandas.nan
             = moving_average 5 xs i)
  /\ (forall window min_periods xs,
        List.length (Pandas.rolling_mean window min_periods xs)
        = List.length xs)
  /\ (forall window xs, (1 <= window)%nat ->
        Pandas.rolling_mean window 1 xs = moving_averages window xs).
Proof.
  intros Hd Hs H.
  assert (Hr : r <> []) by (intros ->; discriminate).
  destruct (data_get_truthy_dict _ _ _ Hd Hr) as [Ht Hg].
  assert (Hlen : List.length sentences = List.length ss)
    by (eapply Forall2_length; exact H).
  split; [|split; [|split; [|split]]].
  - intros ->. destruct sentences; [|discriminate].
    unfold plot_readability_timeline, no_sentences.
    rewrite Ht, Hg. cbn [negb bind get]. rewrite Hs. reflexivity.
  - intros Hne.
    assert (Hne' : sentences <> []) by (intros ->; destruct ss; [congruence|discriminate]).
    unfold plot_readability_timeline, no_sentences.
    rewrite Ht, Hg. cbn [negb bind get getitem]. rewrite Hs.
    destruct sentences as [|d ds] eqn:Es; [congruence|].
    cbn [map truthy negb bind].
    change (VDict d :: map VDict ds) with (map VDict (d :: ds)).
    rewrite DataFrame_records. cbn [bind].
    rewrite (timeline_metrics_series (d :: ds) ss H Hne'). cbn [bind map].
    rewrite !timeline_trace_series. eexists. reflexivity.
  - intros xs Hin.
    assert (Hxs : List.length xs = List.length ss /\ Forall (fun x => 0 <= x) xs).
    { cbn [In] in Hin. destruct Hin as [<-|[<-|[<-|[]]]]; split;
        unfold complexity_series, long_word_series, complex_word_series;
        rewrite ?length_map; try reflexivity;
        apply Forall_map, Forall_forall; intros s _;
        try lia; destruct (isHard s), (isVeryHard s); simpl; lia. }
    destruct Hxs as [Hl Hnn]. split; [|split].
    + now rewrite moving_averages_length.
    + now apply moving_averages_not_nan.
    + intros i Hi. unfold moving_averages.
      rewrite (nth_indep _ Pandas.nan (moving_average 5 xs 0))
        by (rewrite length_map, length_seq; lia).
      rewrite map_nth, seq_nth by lia. reflexivity.
  - intros window min_periods xs. apply roll_mean_length.
  - intros window xs Hw. now apply rolling_mean_moving_averages.
Qed.

Lemma rolling_timeline_witness :
  exists layout,
    plot_readability_timeline six_sentence_document
    = Return (Some (Plotly.Build_Figure
        [timeline_series "Complexity" [1; 0; 1; 1; 0; 0];
         timeline_series "Long Words" [0; 0; 0; 0; 0; 0];
         timeline_series "Complex Words" [0; 0; 0; 0; 0; 0]]
        layout)).
Proof.
  refine (proj1 (proj2 (rolling_timeline six_sentence_document
    [("textStats", VDict [("averageReadingTime", VFloat 0.5)]);
     ("readability", VDict [("fleschReadingEase", VFloat 61.5)]);
     ("sentences", VList (map VDict six_sentences))]
    six_sentences
    [Build_SentenceRecord true false [] [];
     Build_SentenceRecord false false [] [];
     Build_SentenceRecord false true [] [];
     Build_SentenceRecord true false [] [];
     Build_SentenceRecord false false [] [];
     Build_SentenceRecord false false [] []]
    eq_refl eq_refl _)) _).
  - repeat constructor.
  - discriminate.
Defined.

(** ** Scores per block *)

Lemma Forall2_same {A : Type} (P : A -> A -> Prop) (l : list A) :
  Forall (fun a => P a a) l -> Forall2 P l l.
Proof. induction 1; constructor; auto. Qed.

Lemma is_text_block_result (b : dict) :
  is_text_block b = true ->
  exists r, lookup "result" b = Some (VDict r)
            /\ is_number (field "fake" (VInt 0) r) = true
            /\ is_number (field "real" (VInt 0) r) = true
            /\ has_key "text" b = true.
Proof.
  unfold is_text_block. intros H. apply andb_prop in H. destruct H as [Ht H].
  destruct (lookup "result" b) as [[| | | | | |r]|]; try discriminate.
  apply andb_prop in H. destruct H as [Hf Hr]. now exists r.
Qed.

Lemma mul_number_100 (v : value) :
  is_number v = true -> mul v (VInt 100) = Return (times_100 v).
Proof.
  destruct v; try discriminate; intros _; cbn [mul as_num times_100].
  - reflexivity.
  - rewrite float_of_100. reflexivity.
Qed.

Lemma scores_of_blocks (k : string) (blocks : list dict) :
  Forall (fun b => exists r, lookup "result" b = Some (VDict r)
                             /\ is_number (field k (VInt 0) r) = true) blocks ->
  mapM (score_of k)
       (map (fun b => match lookup "result" b with
                      | Some v => v
                      | None => VNone
                      end) blocks)
  = Return (map (fun b => times_100 (result_field k b)) blocks).
Proof.
  induction 1 as [|b bs (r & Hr & Hn) _ IH]; [reflexivity|].
  cbn [map mapM]. rewrite IH, Hr.
  replace (result_field k b) with (field k (VInt 0) r)
    by (unfold result_field; now rewrite Hr).
  unfold score_of. cbn [get bind]. fold (field k (VInt 0) r).
  rewrite (mul_number_100 _ Hn). reflexivity.
Qed.

Lemma combine_rows (blocks : list dict) :
  map (fun r => {| text := fst (fst r);
                   ai_score := snd (fst r);
                   human_score := snd r |})
      (combine (combine (map (fun b => field "text" VNone b) blocks)
                        (map (fun b => times_100 (result_field "fake" b)) blocks))
               (map (fun b => times_100 (result_field "real" b)) blocks))
  = map derived_row blocks.
Proof.
  induction blocks as [|b bs IH]; [reflexivity|].
  cbn [map combine fst snd]. now rewrite IH.
Qed.

Lemma analyze_ai_blocks_rows (data ai : dict) (blocks : list dict) :
  data_get data "ai" = VDict ai ->
  lookup "blocks" ai = Some (VList (map VDict blocks)) ->
  forallb is_text_block blocks = true ->
  analyze_ai_blocks data = Return (map derived_row blocks).
Proof.
  intros Hd Hb Hok.
  assert (Hai : ai <> []) by (intros ->; discriminate).
  destruct (data_get_truthy_dict _ _ _ Hd Hai) as [Ht Hg].
  unfold analyze_ai_blocks, no_blocks. rewrite Ht, Hg.
  cbn [negb bind get getitem]. rewrite Hb.
  destruct blocks as [|b bs]; [reflexivity|].
  cbn [map truthy negb bind].
  change (VDict b :: map VDict bs) with (map VDict (b :: bs)).
  rewrite DataFrame_records. cbn [bind].
  set (blocks := b :: bs) in *.
  assert (Hall : Forall (fun b => is_text_block b = true) blocks)
    by (apply Forall_forall; now apply forallb_forall).
  assert (Hne : blocks <> []) by discriminate.
  rewrite (column_of_records "result"
             (fun b => match lookup "result" b with
                       | Some v => v
                       | None => VNone
                       end) blocks blocks).
  2:{ apply Forall2_same. eapply Forall_impl; [|exact Hall].
      intros d Hdok. destruct (is_text_block_result d Hdok) as (r & -> & _).
      reflexivity. }
  2: assumption.
  cbn [bind]. rewrite (scores_of_blocks "fake").
  2:{ eapply Forall_impl; [|exact Hall]. intros d Hdok.
      destruct (is_text_block_result d Hdok) as (r & Hr & Hf & _). now exists r. }
  cbn [bind]. rewrite (scores_of_blocks "real").
  2:{ eapply Forall_impl; [|exact Hall]. intros d Hdok.
      destruct (is_text_block_result d Hdok) as (r & Hr & _ & Hre & _).
      now exists r. }
  cbn [bind].
  rewrite (column_of_records "text" (fun b => field "text" VNone b)
             blocks blocks).
  2:{ apply Forall2_same. eapply Forall_impl; [|exact Hall].
      intros d Hdok. destruct (is_text_block_result d Hdok) as (r & _ & _ & _ & Htx).
      unfold has_key in Htx. unfold field.
      now destruct (lookup "text" d). }
  2: assumption.
  cbn [bind]. now rewrite combine_rows.
Qed.

Lemma times_100_percent (v : value) :
  in_unit_interval v = true -> in_percent_interval (times_100 v) = true.
Proof.
  destruct v as [|b|z|f|s|l|d]; try discriminate; cbn [in_unit_interval times_100
    in_percent_interval]; intros H; apply andb_prop in H; destruct H as [H0 H1].
  - apply Z.leb_le in H0, H1. apply andb_true_intro. split; apply Z.leb_le; lia.
  - destruct (unit_times_100 f H0 H1) as [Hlo Hhi]. now rewrite Hlo, Hhi.
Qed.



(** ** Documents of the expected shape are processed without raising *)

Ltac split_shape :=
  repeat match goal with
         | H : (_ && _)%bool = true |- _ =>
             apply andb_prop in H; destruct H
         end.

Lemma section_shape_cases (k : string) (p : value -> bool) (data : dict) :
  section_shape k p data = true ->
  truthy (data_get data k) = false
  \/ exists v, lookup k data = Some v /\ truthy v = true /\ p v = true.
Proof.
  unfold section_shape, data_get. destruct (lookup k data) as [v|]; [|now left].
  destruct (truthy v) eqn:Ht; [|now left]. intros Hp. right. now exists v.
Qed.

Lemma when_section_returns (k : string) (p : value -> bool) (data : dict)
    (body : value -> list string -> outcome (list string))
    (output : list string) :
  section_shape k p data = true ->
  (forall v out, p v = true -> exists out', body v out = Return out') ->
  exists out', when_section k data body output = Return out'.
Proof.
  intros Hs Hbody. unfold when_section.
  destruct (section_shape_cases k p data Hs) as [Hf|(v & Hl & Ht & Hp)].
  - rewrite (section_absent k data Hf). now exists output.
  - unfold section. rewrite Hl, Ht. now apply Hbody.
Qed.

Lemma mapM_returns {A B : Type} (f : A -> outcome B) (l : list A) :
  Forall (fun x => exists y, f x = Return y) l ->
  exists ys, mapM f l = Return ys.
Proof.
  induction 1 as [|x l [y Hy] _ [ys IH]]; [now exists []|].
  exists (y :: ys). cbn [mapM]. now rewrite Hy, IH.
Qed.

Lemma count_if_returns (cond : value -> outcome bool) (l : list value) :
  Forall (fun x => exists b, cond x = Return b) l ->
  exists n, count_if cond l = Return n.
Proof.
  unfold count_if. intros H. generalize 0.
  induction H as [|x l [b Hb] _ IH]; intros n; [now exists n|].
  cbn [foldM]. rewrite Hb. cbn [bind]. apply IH.
Qed.

Lemma list_of_Forall (p : dict -> bool) (l : list value) :
  list_of p (VList l) = true ->
  exists ds, l = map VDict ds /\ Forall (fun d => p d = true) ds.
Proof.
  cbn [list_of]. induction l as [|v l IH]; intros H.
  - now exists [].
  - cbn [forallb] in H. apply andb_prop in H. destruct H as [Hv Hl].
    destruct v as [| | | | | |d]; try discriminate.
    destruct (IH Hl) as (ds & -> & Hds). exists (d :: ds).
    split; [reflexivity|now constructor].
Qed.

Lemma as_dicts_of_map (ds : list dict) : as_dicts (map VDict ds) = Some ds.
Proof.
  induction ds as [|d ds IH]; [reflexivity|]. cbn [map as_dicts]. now rewrite IH.
Qed.

(** *** [format_results] *)

Lemma format_ai_returns (v : value) (output : list string) :
  mapping ai_shape v = true -> exists out, format_ai v output = Return out.
Proof.
  destruct v as [| | | | | |ai]; try discriminate. cbn [mapping].
  unfold ai_shape. intros H. split_shape.
  unfold format_ai, isin, has_key, getitem, optional, required in *.
  destruct (lookup "confidence" ai) as [[| | | | | |c]|]; try discriminate.
  cbn [mapping] in *. split_shape. unfold required in *.
  destruct (lookup "AI" c) as [a|] eqn:Ea; try discriminate.
  destruct (lookup "Original" c) as [o|] eqn:Eo; try discriminate.
  destruct (format_percent_returns 2 a) as [ta Hta]; [assumption|].
  destruct (format_percent_returns 2 o) as [to Hto]; [assumption|].
  destruct (lookup "classification" ai) as [[| | | | | |cl]|]; try discriminate;
    cbn [bind get]; rewrite ?Ea, ?Eo, Hta, Hto; cbn [bind]; eexists; reflexivity.
Qed.

Lemma format_match_returns (l : list value) :
  list_of (fun _ => true) (VList l) = true ->
  exists lines, mapM format_match l = Return lines.
Proof.
  intros H. destruct (list_of_Forall _ l H) as (ds & -> & _).
  apply mapM_returns, Forall_map, Forall_forall. intros d _.
  eexists. reflexivity.
Qed.

Lemma format_plagiarism_returns (v : value) (output : list string) :
  mapping plagiarism_shape v = true ->
  exists out, format_plagiarism v output = Return out.
Proof.
  destruct v as [| | | | | |p]; try discriminate. cbn [mapping].
  unfold plagiarism_shape, optional. intros H.
  unfold format_plagiarism, isin, has_key, getitem.
  destruct (lookup "score" p) as [s|]; cbn [bind];
    (destruct (lookup "matches" p) as [m|]; cbn [bind];
     [|eexists; reflexivity]);
    (destruct m as [| | | |  |l| ]; try discriminate;
     destruct l as [|x l]; [eexists; reflexivity|];
     cbn [truthy bind iter];
     destruct (format_match_returns (x :: l) H) as [lines ->];
     cbn [bind]; eexists; reflexivity).
Qed.

Lemma format_readability_returns (v : value) (output : list string) :
  mapping readability_shape v = true ->
  exists out, format_readability v output = Return out.
Proof.
  destruct v as [| | | | | |r]; try discriminate. cbn [mapping].
  unfold readability_shape, required. intros H. split_shape.
  unfold format_readability, isin, has_key, getitem.
  destruct (lookup "textStats" r) as [[| | | | | |s]|]; try discriminate.
  destruct (lookup "readability" r) as [[| | | | | |m]|]; try discriminate.
  cbn [bind get]. eexists. reflexivity.
Qed.

Lemma format_grammar_returns (v : value) (output : list string) :
  is_dict v = true -> exists out, format_grammar v output = Return out.
Proof.
  destruct v as [| | | | | |g]; try discriminate. intros _.
  unfold format_grammar, isin, has_key, getitem.
  destruct (lookup "error" g); cbn [bind]; eexists; reflexivity.
Qed.

Lemma format_credits_returns (v : value) (output : list string) :
  is_dict v = true -> exists out, format_credits v output = Return out.
Proof.
  destruct v as [| | | | | |c]; try discriminate. intros _.
  unfold format_credits. cbn [get bind]. eexists. reflexivity.
Qed.

Lemma format_results_returns (data : dict) :
  well_shaped data = true -> exists text, format_results data = Return text.
Proof.
  unfold well_shaped. intros H. split_shape. unfold format_results.
  destruct (lookup "error" data); [eexists; reflexivity|].
  destruct (when_section_returns "ai" (mapping ai_shape) data format_ai []) as [o1 ->];
    [assumption|intros; now apply format_ai_returns|]. cbn [bind].
  destruct (when_section_returns "plagiarism" (mapping plagiarism_shape) data format_plagiarism o1)
    as [o2 ->];
    [assumption|intros; now apply format_plagiarism_returns|]. cbn [bind].
  destruct (when_section_returns "readability" (mapping readability_shape) data format_readability o2)
    as [o3 ->];
    [assumption|intros; now apply format_readability_returns|]. cbn [bind].
  destruct (when_section_returns "grammarSpelling" is_dict data format_grammar o3)
    as [o4 ->];
    [assumption|intros; now apply format_grammar_returns|]. cbn [bind].
  destruct (when_section_returns "credits" is_dict data format_credits o4)
    as [o5 ->];
    [assumption|intros; now apply format_credits_returns|]. cbn [bind].
  eexists. reflexivity.
Qed.

(** *** [generate_detailed_insights] *)

Lemma section_value (k : string) (data : dict) (v : value) :
  lookup k data = Some v ->
  data_get data k = v /\ getitem (VDict data) k = Return v.
Proof. intros H. unfold data_get, getitem. now rewrite H. Qed.

Lemma truthy_dict_nonempty (d : dict) : truthy (VDict d) = true -> d <> [].
Proof. now destruct d. Qed.

(** A probability of the data model times 100 still formats. *)
Lemma mul_real_100 (v : value) :
  is_real v = true ->
  exists w, mul v (VInt 100) = Return w /\ is_number w = true
            /\ exists text, format_f 1 w = Return text.
Proof.
  destruct v as [|b|z|f|s|l|d]; try discriminate; intros H;
    cbn [mul as_num].
  - exists (VInt (Z.b2z b * 100)). split; [reflexivity|]. split; [reflexivity|].
    cbn [format_f].
    destruct (float_of_Z_returns (Z.b2z b * 100)) as [f ->].
    + destruct b; vm_compute; reflexivity.
    + eexists. reflexivity.
  - exists (VInt (z * 100)). split; [reflexivity|]. split; [reflexivity|].
    cbn [format_f]. cbn [is_real] in H. apply Z.ltb_lt in H.
    destruct (float_of_Z_returns (z * 100)) as [f ->].
    + rewrite Z.abs_mul. change (Z.abs 100) with 100.
      apply Z.lt_trans with (2 ^ 1000 * 2 ^ 7).
      * remember (2 ^ 1000) as P eqn:HP. change (2 ^ 7) with 128.
        assert (0 <= Z.abs z) by apply Z.abs_nonneg. clear HP. lia.
      * rewrite <- Z.pow_add_r by (clear; lia).
        apply Z.pow_lt_mono_r; clear; lia.
    + eexists. reflexivity.
  - rewrite float_of_100. cbn [bind]. eexists. split; [reflexivity|].
    split; [reflexivity|]. eexists. reflexivity.
Qed.

Lemma high_ai_count_returns (blocks : list dict) :
  Forall (fun b => is_text_block b = true) blocks ->
  exists n, high_ai_count (map VDict blocks) = Return n.
Proof.
  intros H. apply count_if_returns, Forall_map.
  eapply Forall_impl; [|exact H]. cbv beta. intros b Hb.
  destruct (is_text_block_result b Hb) as (r & Hr & Hfake & _).
  unfold getitem. rewrite Hr. cbn [bind get]. unfold field in Hfake.
  destruct (match lookup "fake" r with Some v => v | None => VInt 0 end)
    as [| |z|f| | |]; try discriminate; eexists; reflexivity.
Qed.

Lemma ai_insights_returns (data : dict) :
  section_shape "ai" (mapping ai_shape) data = true ->
  exists lines, ai_insights data [] = Return lines.
Proof.
  intros Hs. unfold ai_insights.
  destruct (section_shape_cases _ _ _ Hs) as [->|(v & Hl & Ht & Hp)];
    [eexists; reflexivity|].
  destruct (section_value _ _ _ Hl) as [-> ->]. rewrite Ht. cbn [bind].
  destruct v as [| | | | | |ai]; try discriminate. cbn [mapping] in Hp.
  unfold ai_shape in Hp. split_shape. unfold required, optional in *.
  unfold getitem at 1.
  destruct (lookup "confidence" ai) as [[| | | | | |c]|]; try discriminate.
  cbn [mapping] in *. split_shape. unfold required in *. cbn [bind get].
  destruct (lookup "AI" c) as [a|]; try discriminate.
  destruct (mul_real_100 a) as (w & Hw & _ & text & Htext); [assumption|].
  rewrite Hw. cbn [bind]. rewrite Htext. cbn [bind]. destruct (lookup "blocks" ai) as [bs|];
    [|eexists; reflexivity].
  destruct bs as [| | | | |l|]; try discriminate.
  destruct (list_of_Forall _ _ H0) as (blocks & -> & Hblocks).
  destruct (truthy (VList (map VDict blocks))); [|eexists; reflexivity].
  cbn [iter bind].
  destruct (high_ai_count_returns blocks Hblocks) as [n ->]. cbn [bind].
  eexists. reflexivity.
Qed.

Lemma readability_sentences (r : dict) :
  optional "sentences" (list_of (fun _ => true)) r = true ->
  exists ss, sentences_of r = Some ss.
Proof.
  unfold optional, sentences_of, records_of.
  destruct (lookup "sentences" r) as [v|]; [|now exists []].
  destruct v as [| | | | |l|]; try discriminate. intros H.
  destruct (list_of_Forall _ _ H) as (ss & -> & _). exists ss.
  apply as_dicts_of_map.
Qed.

Lemma readability_insights_returns (data : dict) :
  section_shape "readability" (mapping readability_shape) data = true ->
  exists lines, readability_insights data [] = Return lines.
Proof.
  intros Hs. unfold readability_insights.
  destruct (section_shape_cases _ _ _ Hs) as [->|(v & Hl & Ht & Hp)];
    [eexists; reflexivity|].
  destruct (section_value _ _ _ Hl) as [Hd Hg]. rewrite Hd, Hg, Ht.
  cbn [bind].
  destruct v as [| | | | | |r]; try discriminate. cbn [mapping] in Hp.
  unfold readability_shape in Hp. split_shape.
  destruct (readability_sentences r) as [ss Hss]; [assumption|].
  unfold required in *. unfold getitem.
  destruct (lookup "readability" r) as [[| | | | | |m]|]; try discriminate.
  destruct (lookup "textStats" r) as [[| | | | | |s]|]; try discriminate.
  cbn [mapping] in *. unfold optional in *. cbn [bind get].
  destruct (format_f_returns 1
              (match lookup "fleschReadingEase" m with
               | Some v => v
               | None => VInt 0
               end)) as [ease ->];
    [destruct (lookup "fleschReadingEase" m); [assumption|reflexivity]|].
  cbn [bind].
  destruct (format_f_returns 1
              (match lookup "averageReadingTime" s with
               | Some v => v
               | None => VInt 0
               end)) as [time ->];
    [destruct (lookup "averageReadingTime" s); [assumption|reflexivity]|].
  cbn [bind].
  rewrite (complexity_insight_lines data r ss);
    [eexists; reflexivity|assumption|now apply truthy_dict_nonempty|assumption].
Qed.

Lemma plagiarism_insights_returns (data : dict) :
  section_shape "plagiarism" (mapping plagiarism_shape) data = true ->
  exists lines, plagiarism_insights data [] = Return lines.
Proof.
  intros Hs. unfold plagiarism_insights.
  destruct (section_shape_cases _ _ _ Hs) as [->|(v & Hl & Ht & Hp)];
    [eexists; reflexivity|].
  destruct (section_value _ _ _ Hl) as [-> ->]. rewrite Ht. cbn [bind].
  destruct v as [| | | | | |p]; try discriminate. cbn [mapping] in Hp.
  unfold plagiarism_shape, optional in Hp. cbn [get bind]. unfold getitem.
  destruct (lookup "matches" p) as [m|]; [|eexists; reflexivity].
  destruct m as [| | | | |l|]; try discriminate.
  destruct (truthy (VList l)); cbn [len bind]; eexists; reflexivity.
Qed.

Lemma generate_detailed_insights_returns (data : dict) :
  well_shaped data = true ->
  exists insights, generate_detailed_insights data = Return insights.
Proof.
  unfold well_shaped. intros H. split_shape.
  rewrite generate_detailed_insights_blocks.
  destruct (ai_insights_returns data) as [a ->]; [assumption|].
  destruct (readability_insights_returns data) as [r ->]; [assumption|].
  destruct (plagiarism_insights_returns data) as [p ->]; [assumption|].
  eexists. reflexivity.
Qed.

(** *** The metric derivations *)

Lemma analyze_sentence_complexity_returns (data : dict) :
  section_shape "readability" (mapping readability_shape) data = true ->
  exists summary, analyze_sentence_complexity data = Return summary.
Proof.
  intros Hs.
  destruct (section_shape_cases _ _ _ Hs) as [Hf|(v & Hl & Ht & Hp)].
  - unfold analyze_sentence_complexity. rewrite Hf. eexists. reflexivity.
  - destruct v as [| | | | | |r]; try discriminate. cbn [mapping] in Hp.
    unfold readability_shape in Hp. split_shape.
    destruct (readability_sentences r) as [ss Hss]; [assumption|].
    exists (complexity_summary ss).
    apply (analyze_sentence_complexity_summary data r ss);
      [apply (section_value _ _ _ Hl)|now apply truthy_dict_nonempty
      |assumption].
Qed.

Lemma analyze_ai_blocks_returns (data : dict) :
  section_shape "ai" (mapping ai_shape) data = true ->
  exists rows, analyze_ai_blocks data = Return rows.
Proof.
  intros Hs.
  destruct (section_shape_cases _ _ _ Hs) as [Hf|(v & Hl & Ht & Hp)].
  - unfold analyze_ai_blocks, no_blocks. rewrite Hf. eexists. reflexivity.
  - destruct v as [| | | | | |ai]; try discriminate. cbn [mapping] in Hp.
    unfold ai_shape in Hp. split_shape. unfold optional in *.
    destruct (section_value _ _ _ Hl) as [Hd Hg].
    destruct (lookup "blocks" ai) as [bs|] eqn:Hb.
    + destruct bs as [| | | | |l|]; try discriminate.
      destruct (list_of_Forall _ _ H0) as (blocks & -> & Hblocks).
      exists (map derived_row blocks).
      apply (analyze_ai_blocks_rows data ai blocks); [assumption..|].
      now apply forallb_forall, Forall_forall.
    + unfold analyze_ai_blocks, no_blocks. rewrite Hd, Hg, Ht.
      cbn [negb bind get]. rewrite Hb. eexists. reflexivity.
Qed.

Lemma plot_plagiarism_metrics_returns (data : dict) :
  section_shape "plagiarism" (mapping plagiarism_shape) data = true ->
  exists figure, plot_plagiarism_metrics data = Return figure.
Proof.
  intros Hs. unfold plot_plagiarism_metrics.
  destruct (section_shape_cases _ _ _ Hs) as [->|(v & Hl & Ht & Hp)];
    [eexists; reflexivity|].
  destruct (section_value _ _ _ Hl) as [-> ->]. rewrite Ht.
  cbn [negb bind].
  destruct v as [| | | | | |p]; try discriminate. cbn [mapping] in Hp.
  unfold plagiarism_shape, optional in Hp.
  assert (Hms : exists ms, matches_of p = Some ms).
  { unfold matches_of, records_of.
    destruct (lookup "matches" p) as [m|]; [|now exists []].
    destruct m as [| | | | |l|]; try discriminate.
    destruct (list_of_Forall _ _ Hp) as (ms & -> & _). exists ms.
    apply as_dicts_of_map. }
  destruct Hms as [ms Hms]. rewrite (plagiarism_metrics_set p ms Hms).
  cbn [bind]. eexists. reflexivity.
Qed.

(** C2 does not hold as stated: a section that is not a mapping, a
    [confidence] that is not a mapping or whose [AI] is not a number, and
    a missing [confidence], [readability] or [textStats] each make a
    function raise. *)
Lemma malformed_documents_raise :
  format_results [("ai", VInt 5)] = Raise TypeError
  /\ format_results [("ai", VDict [("confidence", VStr "high")])]
     = Raise AttributeError
  /\ format_results [("readability", VDict [("textStats", VInt 3)])]
     = Raise AttributeError
  /\ generate_detailed_insights
       [("ai", VDict [("classification", VDict [("AI", VInt 1)])])]
     = Raise (KeyError "confidence")
  /\ generate_detailed_insights [("ai", VDict [("confidence", VStr "high")])]
     = Raise AttributeError
  /\ generate_detailed_insights
       [("ai", VDict [("confidence", VDict [("AI", VStr "high")])])]
     = Raise ValueError
  /\ generate_detailed_insights [("readability", VDict [("textStats", VDict [])])]
     = Raise (KeyError "readability")
  /\ generate_detailed_insights [("readability", VDict [("readability", VDict [])])]
     = Raise (KeyError "textStats")
  /\ analyze_sentence_complexity [("readability", VStr "x")]
     = Raise AttributeError
  /\ analyze_sentence_complexity [("readability", VDict [("sentences", VInt 3)])]
     = Raise TypeError
  /\ analyze_ai_blocks [("ai", VDict [("blocks", VList [VDict [("text", VStr "t")]])])]
     = Raise (KeyError "result").
Proof. repeat split; vm_compute; reflexivity. Qed.

(** C2, as the code has it: on every document whose present sections
    have the shape of the data model, [format_results],
    [generate_detailed_insights], [analyze_sentence_complexity],
    [analyze_ai_blocks] and the plagiarism metrics return without
    raising; and a leaf that is read with a default, such as each of the
    credits, is rendered as that default when it is missing, the other
    lines unchanged. *)
Theorem well_shaped_documents_return :
  (forall data : dict,
     well_shaped data = true ->
     (exists text, format_results data = Return text)
     /\ (exists insights, generate_detailed_insights data = Return insights)
     /\ (exists summary, analyze_sentence_complexity data = Return summary)
     /\ (exists rows, analyze_ai_blocks data = Return rows)
     /\ (exists figure, plot_plagiarism_metrics data = Return figure))
  /\ (forall credits : dict,
        credits <> [] ->
        format_results [("credits", VDict credits)]
        = Return (join Script.nl
            [Script.nl ++ "Credits Information:";
             "Used Credits: " ++ str (field "used" (VStr "N/A") credits);
             "Base Credits: "
             ++ str (field "base_credits" (VStr "N/A") credits);
             "Subscription Credits: "
             ++ str (field "subscription_credits" (VStr "N/A") credits)])).
Proof.
  split.
  - intros data H. split; [now apply format_results_returns|].
    split; [now apply generate_detailed_insights_returns|].
    unfold well_shaped in H. split_shape.
    split; [now apply analyze_sentence_complexity_returns|].
    split; [now apply analyze_ai_blocks_returns|].
    now apply plot_plagiarism_metrics_returns.
  - intros [|kv credits] Hc; [congruence|]. reflexivity.
Qed.

Lemma well_shaped_documents_return_witness :
  well_shaped full_document = true
  /\ (exists text, format_results full_document = Return text)
  /\ (exists insights, generate_detailed_insights full_document = Return insights)
  /\ (exists summary, analyze_sentence_complexity full_document = Return summary)
  /\ (exists rows, analyze_ai_blocks full_document = Return rows)
  /\ (exists figure, plot_plagiarism_metrics full_document = Return figure).
Proof.
  split; [reflexivity|].
  exact (proj1 well_shaped_documents_return full_document eq_refl).
Defined.

(* ================================================================== *)
(** * Further properties of the two files *)
(* ================================================================== *)

Import Ref.
Import Streamlit Dashboard.

(** ** What the renderings read *)

Ltac in_list := simpl; repeat (first [left; reflexivity | right]).

Lemma same_on_data_get (ks : list string) (d d' : dict) (k : string) :
  same_on ks d d' -> In k ks ->
  data_get d k = data_get d' k /\ getitem (VDict d) k = getitem (VDict d') k.
Proof.
  intros H Hk. unfold data_get, getitem. now rewrite (H k Hk).
Qed.

(** [format_results] reads six keys of the document: two documents that
    agree on error, ai, plagiarism, readability, grammarSpelling and
    credits get the same summary, whatever their other keys and whatever
    the order of their keys. *)
Theorem format_results_reads_six_keys (d d' : dict) :
  same_on summary_keys d d' -> format_results d = format_results d'.
Proof.
  intros H. unfold format_results, when_section, section.
  rewrite (H "error"), (H "ai"), (H "plagiarism"), (H "readability"),
    (H "grammarSpelling"), (H "credits") by in_list.
  reflexivity.
Qed.

Lemma format_results_reads_six_keys_witness :
  format_results
    [("properties", VDict [("title", VStr "Essay")]);
     ("credits", VDict [("used", VInt 1)]);
     ("ai", VDict [("classification", VDict [("AI", VInt 1)])])]
  = format_results
      [("ai", VDict [("classification", VDict [("AI", VInt 1)])]);
       ("credits", VDict [("used", VInt 1)])].
Proof.
  apply format_results_reads_six_keys.
  intros k Hk. simpl in Hk.
  repeat (destruct Hk as [<-|Hk]; [reflexivity|]). destruct Hk.
Defined.

Lemma visualizer_reads_three_keys_parts (d d' : dict) :
  same_on visual_keys d d' ->
  generate_detailed_insights d = generate_detailed_insights d'
  /\ analyze_ai_blocks d = analyze_ai_blocks d'
  /\ report_figures d = report_figures d'.
Proof.
  intros H.
  destruct (same_on_data_get _ d d' "ai" H) as [Ha Ha']; [in_list|].
  destruct (same_on_data_get _ d d' "readability" H) as [Hr Hr']; [in_list|].
  destruct (same_on_data_get _ d d' "plagiarism" H) as [Hp Hp']; [in_list|].
  assert (Hc : analyze_sentence_complexity d = analyze_sentence_complexity d').
  { unfold analyze_sentence_complexity. now rewrite Hr, Hr'. }
  split; [|split].
  - unfold generate_detailed_insights, ai_insights, readability_insights,
      plagiarism_insights, complexity_insight.
    now rewrite Hc, Ha, Ha', Hr, Hr', Hp, Hp'.
  - unfold analyze_ai_blocks, no_blocks. now rewrite Ha, Ha'.
  - unfold report_figures, plot_ai_detection_results, plot_readability_metrics,
      plot_text_statistics, plot_sentence_complexity, plot_plagiarism_metrics,
      plot_readability_details, plot_readability_timeline,
      plot_sentence_heatmap, no_sentences, no_blocks.
    now rewrite Hc, Ha, Ha', Hr, Hr', Hp, Hp'.
Qed.

(** The visualizer reads three keys of the document, and the report two
    more: the insights, the derived metrics and the eight figures of two
    documents that agree on ai, readability and plagiarism are the same,
    and so is the HTML report when they also agree on properties and
    credits. *)
Theorem visualizer_reads_three_keys (d d' : dict) :
  same_on visual_keys d d' ->
  generate_detailed_insights d = generate_detailed_insights d'
  /\ analyze_sentence_complexity d = analyze_sentence_complexity d'
  /\ analyze_ai_blocks d = analyze_ai_blocks d'
  /\ report_figures d = report_figures d'
  /\ (same_on report_keys d d' ->
      forall to_html, html_report to_html d = html_report to_html d').
Proof.
  intros H. destruct (visualizer_reads_three_keys_parts d d' H) as (Hi & Hb & Hf).
  destruct (same_on_data_get _ d d' "readability" H) as [Hr Hr']; [in_list|].
  split; [exact Hi|]. split; [|split; [exact Hb|split; [exact Hf|]]].
  - unfold analyze_sentence_complexity. now rewrite Hr, Hr'.
  - intros H' to_html. unfold html_report. rewrite Hf, Hi.
    destruct (report_figures d'); cbn [bind]; try reflexivity.
    destruct (generate_detailed_insights d'); cbn [bind]; try reflexivity.
    unfold export_to_html.
    now rewrite (H' "properties"), (H' "credits") by in_list.
Qed.

Lemma visualizer_reads_three_keys_witness :
  generate_detailed_insights
    [("success", VBool true);
     ("plagiarism", VDict [("score", VInt 3)]);
     ("error", VStr "rate limited")]
  = generate_detailed_insights [("plagiarism", VDict [("score", VInt 3)])].
Proof.
  apply visualizer_reads_three_keys.
  intros k Hk. simpl in Hk.
  repeat (destruct Hk as [<-|Hk]; [reflexivity|]). destruct Hk.
Defined.

(** ** The summary of a document that has nothing to show *)

(** Case analysis on the next call of a body, for a goal that assumes
    the body returns. *)
Ltac walk :=
  cbn [bind];
  match goal with
  | |- context [if ?b then _ else _] => destruct b eqn:?; cbn [bind]
  | |- context [bind ?m _] =>
      lazymatch m with
      | bind _ _ => fail
      | Return _ => fail
      | (if _ then _ else _) => fail
      | _ => destruct m eqn:?; cbn [bind]; try (intros; discriminate)
      end
  end.

Ltac appended :=
  intros [= <-]; unfold extend; rewrite <- ?app_assoc;
  first [ exists []; split; [now rewrite app_nil_r|]
        | eexists; split; [reflexivity|] ].

Ltac headed :=
  split;
  [ first [exact I | cbn; eexists; reflexivity]
  | split; intros; first [reflexivity | discriminate] ].

Lemma format_ai_appends (v : value) (out out' : list string) :
  format_ai v out = Return out' ->
  exists l, out' = (out ++ l)%list /\ nil_or_headed l
            /\ (l = [] <-> holds_no_scores v = true).
Proof.
  unfold format_ai. repeat walk; appended.
  all: unfold holds_no_scores.
  all: repeat match goal with H : isin _ _ = _ |- _ => rewrite H; clear H end.
  all: headed.
Qed.

Lemma format_grammar_appends (v : value) (out out' : list string) :
  format_grammar v out = Return out' ->
  exists l, out' = (out ++ l)%list /\ nil_or_headed l
            /\ (l = [] <-> holds_no_error v = true).
Proof.
  unfold format_grammar. repeat walk; appended.
  all: unfold holds_no_error.
  all: repeat match goal with H : isin _ _ = _ |- _ => rewrite H; clear H end.
  all: headed.
Qed.

Lemma format_plagiarism_appends (v : value) (out out' : list string) :
  format_plagiarism v out = Return out' ->
  exists l, out' = (out ++ l)%list /\ nil_or_headed l
            /\ (l = [] <-> false = true).
Proof. unfold format_plagiarism. repeat walk; appended; headed. Qed.

Lemma format_readability_appends (v : value) (out out' : list string) :
  format_readability v out = Return out' ->
  exists l, out' = (out ++ l)%list /\ nil_or_headed l
            /\ (l = [] <-> false = true).
Proof. unfold format_readability. repeat walk; appended; headed. Qed.

Lemma format_credits_appends (v : value) (out out' : list string) :
  format_credits v out = Return out' ->
  exists l, out' = (out ++ l)%list /\ nil_or_headed l
            /\ (l = [] <-> false = true).
Proof. unfold format_credits. repeat walk; appended; headed. Qed.

Lemma when_section_appends (k : string) (p : value -> bool)
    (body : value -> list string -> outcome (list string)) (result : dict)
    (out out' : list string) :
  (forall v o o', body v o = Return o' ->
     exists l, o' = (o ++ l)%list /\ nil_or_headed l /\ (l = [] <-> p v = true)) ->
  when_section k result body out = Return out' ->
  exists l, out' = (out ++ l)%list /\ nil_or_headed l
            /\ (l = [] <-> missing_or k p result = true).
Proof.
  intros Hbody. unfold when_section, missing_or.
  destruct (section k result) as [v|]; [apply Hbody|].
  intros [= <-]. exists []. rewrite app_nil_r. now repeat split.
Qed.

Lemma holds_no_scores_skips (v : value) (out : list string) :
  holds_no_scores v = true -> format_ai v out = Return out.
Proof.
  unfold holds_no_scores, format_ai.
  destruct (isin "classification" v) as [[|]| |]; try discriminate.
  destruct (isin "confidence" v) as [[|]| |]; try discriminate. reflexivity.
Qed.

Lemma holds_no_error_skips (v : value) (out : list string) :
  holds_no_error v = true -> format_grammar v out = Return out.
Proof.
  unfold holds_no_error, format_grammar.
  destruct (isin "error" v) as [[|]| |]; try discriminate. reflexivity.
Qed.

Lemma headed_join (l : list string) :
  l <> [] -> nil_or_headed l -> exists rest, join nl l = nl ++ rest.
Proof.
  destruct l as [|x l]; [congruence|]. intros _ [r ->]. unfold join.
  destruct l as [|y l]; cbn [String.concat].
  - now exists r.
  - eexists. cbn. reflexivity.
Qed.

Lemma nil_or_headed_app (a b : list string) :
  nil_or_headed a -> nil_or_headed b -> nil_or_headed (a ++ b).
Proof. destruct a; simpl; auto. Qed.

(** A document without an [error] key none of whose sections gives a
    line (each is missing or falsy, but for an ai section that holds
    neither classification nor confidence and a grammarSpelling section
    that holds no error) is summarised as "No results available"; the
    summary of every other document starts with a line feed, so it is
    never that text and never empty. *)
Theorem format_results_quiet (result : dict) :
  lookup "error" result = None ->
  (quiet result = true -> format_results result = Return "No results available")
  /\ (forall text,
        format_results result = Return text -> quiet result = false ->
        exists rest, text = nl ++ rest).
Proof.
  intros He. unfold format_results. rewrite He. split.
  - unfold quiet, missing_or, when_section. intros H. split_shape.
    repeat match goal with
           | H : match section ?k result with _ => _ end = true |- _ =>
               destruct (section k result); try discriminate
           end;
      rewrite ?holds_no_scores_skips by assumption; cbn [bind];
      rewrite ?holds_no_error_skips by assumption; reflexivity.
  - intros text.
    destruct (when_section "ai" result format_ai []) as [o1| |] eqn:H1;
      cbn [bind]; try discriminate.
    destruct (when_section "plagiarism" result format_plagiarism o1)
      as [o2| |] eqn:H2; cbn [bind]; try discriminate.
    destruct (when_section "readability" result format_readability o2)
      as [o3| |] eqn:H3; cbn [bind]; try discriminate.
    destruct (when_section "grammarSpelling" result format_grammar o3)
      as [o4| |] eqn:H4; cbn [bind]; try discriminate.
    destruct (when_section "credits" result format_credits o4)
      as [o5| |] eqn:H5; cbn [bind]; try discriminate.
    apply (when_section_appends _ _ _ _ _ _ format_ai_appends) in H1.
    apply (when_section_appends _ _ _ _ _ _ format_plagiarism_appends) in H2.
    apply (when_section_appends _ _ _ _ _ _ format_readability_appends) in H3.
    apply (when_section_appends _ _ _ _ _ _ format_grammar_appends) in H4.
    apply (when_section_appends _ _ _ _ _ _ format_credits_appends) in H5.
    destruct H1 as (l1 & -> & Hh1 & Hq1), H2 as (l2 & -> & Hh2 & Hq2),
      H3 as (l3 & -> & Hh3 & Hq3), H4 as (l4 & -> & Hh4 & Hq4),
      H5 as (l5 & -> & Hh5 & Hq5).
    cbn [app]. intros Ht Hq.
    assert (Hne : (l1 ++ l2 ++ l3 ++ l4 ++ l5)%list <> []).
    { intros Hnil. repeat (apply app_eq_nil in Hnil; destruct Hnil as [? Hnil]).
      unfold quiet in Hq.
      rewrite (proj1 Hq1), (proj1 Hq2), (proj1 Hq3), (proj1 Hq4), (proj1 Hq5)
        in Hq by assumption.
      discriminate. }
    rewrite <- !app_assoc in Ht.
    destruct (headed_join _ Hne) as [rest Hrest].
    { repeat apply nil_or_headed_app; assumption. }
    exists rest. rewrite <- Hrest.
    destruct (l1 ++ l2 ++ l3 ++ l4 ++ l5)%list; [congruence|].
    now injection Ht as <-.
Qed.

Lemma format_results_quiet_witness :
  format_results [("ai", VDict [("blocks", VList [])]);
                  ("grammarSpelling", VDict [("matches", VInt 0)])]
  = Return "No results available".
Proof.
  exact (proj1 (format_results_quiet
                  [("ai", VDict [("blocks", VList [])]);
                   ("grammarSpelling", VDict [("matches", VInt 0)])]
                  eq_refl) eq_refl).
Defined.

(** ** The matches in the summary and in the insights *)

Lemma format_match_lines (ms : list dict) :
  mapM format_match (map VDict ms) = Return (map match_line ms).
Proof.
  induction ms as [|m ms IH]; [reflexivity|].
  cbn [map mapM]. rewrite IH. reflexivity.
Qed.

Lemma matches_of_cases (p : dict) (ms : list dict) :
  matches_of p = Some ms ->
  (lookup "matches" p = None /\ ms = [])
  \/ lookup "matches" p = Some (VList (map VDict ms)).
Proof.
  unfold matches_of, records_of.
  destruct (lookup "matches" p) as [v|]; [|intros [= <-]; now left].
  destruct v; try discriminate. intros H. right.
  now rewrite (as_dicts_map _ _ H).
Qed.

Lemma truthy_records (ms : list dict) :
  truthy (VList (map VDict ms)) = match ms with [] => false | _ => true end.
Proof. now destruct ms. Qed.

Lemma format_plagiarism_block (p : dict) (ms : list dict) (out : list string) :
  matches_of p = Some ms ->
  format_plagiarism (VDict p) out = Return (out ++ plagiarism_block p ms)%list.
Proof.
  intros H. unfold format_plagiarism, plagiarism_block, score_lines, isin,
    has_key, getitem, extend.
  destruct (matches_of_cases p ms H) as [[-> ->]| ->].
  - destruct (lookup "score" p); cbn [bind match_lines];
      rewrite <- ?app_assoc; reflexivity.
  - destruct (lookup "score" p); cbn [bind]; rewrite truthy_records;
      (destruct ms as [|m ms];
       [cbn [match_lines]; rewrite <- ?app_assoc; reflexivity|]);
      cbn [iter bind]; rewrite format_match_lines; cbn [bind match_lines];
      rewrite <- ?app_assoc; reflexivity.
Qed.

(** For a plagiarism section that is a mapping with its matches, the
    summary holds the heading, the score line when the section has a
    [score] key, and one line per match in the order of the matches,
    under their own heading; the insights hold the score, 0 when it is
    missing, and the number of the matches. Without a match neither
    holds a line about matches. *)
Theorem plagiarism_lines (data p : dict) (ms : list dict) :
  data_get data "plagiarism" = VDict p -> p <> [] ->
  matches_of p = Some ms ->
  (forall out,
     format_plagiarism (VDict p) out = Return (out ++ plagiarism_block p ms)%list)
  /\ format_results [("plagiarism", VDict p)]
     = Return (join nl (plagiarism_block p ms))
  /\ plagiarism_insights data [] = Return (plagiarism_insight_block p ms)
  /\ List.length (match_lines ms)
     = match ms with [] => 0%nat | _ => S (List.length ms) end.
Proof.
  intros Hd Hp Hms. split; [|split; [|split]].
  - intros out. now apply format_plagiarism_block.
  - unfold format_results, when_section, section. cbn [lookup String.eqb].
    cbn. destruct p as [|kv p]; [congruence|]. cbn [bind].
    rewrite (format_plagiarism_block _ ms) by assumption. reflexivity.
  - destruct (data_get_truthy_dict _ _ _ Hd Hp) as [Ht Hg].
    unfold plagiarism_insights, plagiarism_insight_block, found_lines.
    rewrite Ht, Hg. cbn [bind get]. unfold getitem.
    destruct (matches_of_cases p ms Hms) as [[-> ->]| ->]; [reflexivity|].
    rewrite truthy_records. destruct ms as [|m ms]; [reflexivity|].
    cbn [len bind]. rewrite length_map. reflexivity.
  - destruct ms; cbn [match_lines List.length]; [reflexivity|].
    now rewrite length_map.
Qed.

Lemma plagiarism_lines_witness :
  format_results [("plagiarism", data_get two_matches "plagiarism")]
  = Return (join nl [nl ++ "Plagiarism Results:"; "Plagiarism Score: 25%";
                     nl ++ "Plagiarism Matches:";
                     "- https://a.example: 40% match";
                     "- https://b.example: 10% match"]).
Proof.
  refine (proj1 (proj2 (plagiarism_lines two_matches _ _ eq_refl _ eq_refl))).
  discriminate.
Defined.

(** ** The bars of the sentence complexity figure *)

(** The sentences split four ways by their two flags. *)
Lemma flags_partition (ss : list dict) :
  Z.of_nat (List.length ss) - count_of is_hard ss - count_of is_very_hard ss
  = count_of (fun s => negb (is_hard s) && negb (is_very_hard s)) ss
    - count_of (fun s => is_hard s && is_very_hard s) ss.
Proof.
  unfold count_of. induction ss as [|s ss IH]; [reflexivity|].
  cbn [filter List.length].
  destruct (is_hard s), (is_very_hard s); cbn [negb andb List.length]; lia.
Qed.

(** For a readability section that is a mapping with its sentences, the
    figure has the three bars Simple, Hard and Very Hard, with the
    heights total - hard - very hard, hard and very hard. The Simple bar
    is the number of the sentences with neither flag less the number of
    those with both: a sentence that is both hard and very hard is taken
    off twice, so the bar can be below the number of simple sentences,
    and below 0. Without a sentence the figure is still drawn, with
    three bars of height 0. *)
Theorem sentence_complexity_bars (data r : dict) (ss : list dict) :
  data_get data "readability" = VDict r -> r <> [] ->
  sentences_of r = Some ss ->
  let hard := count_of is_hard ss in
  let very_hard := count_of is_very_hard ss in
  let simple := Z.of_nat (List.length ss) - hard - very_hard in
  (exists layout,
     plot_sentence_complexity data
     = Return (Some (Plotly.Build_Figure
                       [Plotly.Bar ["Simple"; "Hard"; "Very Hard"]
                                   [VInt simple; VInt hard; VInt very_hard]
                                   (VList [VStr "#99FF99"; VStr "#FFCC99";
                                           VStr "#FF9999"])
                                   None]
                       layout)))
  /\ simple
     = count_of (fun s => negb (is_hard s) && negb (is_very_hard s)) ss
       - count_of (fun s => is_hard s && is_very_hard s) ss
  /\ (ss = [] -> simple = 0 /\ hard = 0 /\ very_hard = 0).
Proof.
  intros Hd Hr Hs hard very_hard simple. split; [|split].
  - unfold plot_sentence_complexity.
    rewrite (analyze_sentence_complexity_summary data r ss) by assumption.
    eexists. reflexivity.
  - apply flags_partition.
  - intros ->. now repeat split.
Qed.

Lemma sentence_complexity_bars_witness :
  exists layout,
    plot_sentence_complexity
      [("readability",
        VDict [("sentences",
                VList [VDict [("isHard", VBool true);
                              ("isVeryHard", VBool true)]])])]
    = Return (Some (Plotly.Build_Figure
                      [Plotly.Bar ["Simple"; "Hard"; "Very Hard"]
                                  [VInt (-1); VInt 1; VInt 1]
                                  (VList [VStr "#99FF99"; VStr "#FFCC99";
                                          VStr "#FF9999"])
                                  None]
                      layout)).
Proof.
  refine (proj1 (sentence_complexity_bars
                   [("readability",
                     VDict [("sentences",
                             VList [VDict [("isHard", VBool true);
                                           ("isVeryHard", VBool true)]])])]
                   _ [[("isHard", VBool true); ("isVeryHard", VBool true)]]
                   eq_refl _ eq_refl)).
  discriminate.
Defined.

(** ** When a figure is left out *)

Ltac never_none :=
  repeat walk; intros; discriminate.

Lemma no_blocks_lacks (data : dict) :
  no_blocks data = Return true <-> lacks "ai" "blocks" data.
Proof.
  unfold no_blocks, lacks, data_get, getitem, field.
  destruct (lookup "ai" data) as [v|]; cbn [truthy negb];
    [|split; [now left|reflexivity]].
  destruct (truthy v) eqn:Ht; cbn [negb]; [|split; [now left|reflexivity]].
  cbn [bind]. destruct v as [| | | | | |d]; cbn [get bind];
    try (split; [discriminate|intros [H|(d & H & _)]; discriminate]).
  split.
  - intros [= H]. right. exists d. split; [reflexivity|].
    now apply negb_true_iff in H.
  - intros [H|(d' & [= <-] & H)]; [discriminate|]. now rewrite H.
Qed.

Lemma no_sentences_lacks (data : dict) :
  no_sentences data = Return true <-> lacks "readability" "sentences" data.
Proof.
  unfold no_sentences, lacks, data_get, getitem, field.
  destruct (lookup "readability" data) as [v|]; cbn [truthy negb];
    [|split; [now left|reflexivity]].
  destruct (truthy v) eqn:Ht; cbn [negb]; [|split; [now left|reflexivity]].
  cbn [bind]. destruct v as [| | | | | |d]; cbn [get bind];
    try (split; [discriminate|intros [H|(d & H & _)]; discriminate]).
  split.
  - intros [= H]. right. exists d. split; [reflexivity|].
    now apply negb_true_iff in H.
  - intros [H|(d' & [= <-] & H)]; [discriminate|]. now rewrite H.
Qed.

(** Each of the eight figures is left out (the function returns None)
    exactly when its data is missing: the six figures of one section
    when that section is missing or falsy, the heat map and the timeline
    when also the blocks or the sentences of the section are. With the
    data there a function returns a figure or raises. *)
Theorem figure_left_out (data : dict) :
  (plot_ai_detection_results data = Return None
   <-> truthy (data_get data "ai") = false)
  /\ (plot_readability_metrics data = Return None
      <-> truthy (data_get data "readability") = false)
  /\ (plot_text_statistics data = Return None
      <-> truthy (data_get data "readability") = false)
  /\ (plot_sentence_complexity data = Return None
      <-> truthy (data_get data "readability") = false)
  /\ (plot_plagiarism_metrics data = Return None
      <-> truthy (data_get data "plagiarism") = false)
  /\ (plot_readability_details data = Return None
      <-> truthy (data_get data "readability") = false)
  /\ (plot_readability_timeline data = Return None
      <-> lacks "readability" "sentences" data)
  /\ (plot_sentence_heatmap data = Return None
      <-> lacks "ai" "blocks" data).
Proof.
  repeat match goal with |- _ /\ _ => split end.
  - unfold plot_ai_detection_results.
    destruct (truthy (data_get data "ai")); cbn [negb];
      split; try reflexivity; try discriminate. never_none.
  - unfold plot_readability_metrics.
    destruct (truthy (data_get data "readability")); cbn [negb];
      split; try reflexivity; try discriminate. never_none.
  - unfold plot_text_statistics.
    destruct (truthy (data_get data "readability")); cbn [negb];
      split; try reflexivity; try discriminate. never_none.
  - unfold plot_sentence_complexity, analyze_sentence_complexity.
    destruct (truthy (data_get data "readability")); cbn [negb bind truthy];
      split; try reflexivity; try discriminate. never_none.
  - unfold plot_plagiarism_metrics.
    destruct (truthy (data_get data "plagiarism")); cbn [negb];
      split; try reflexivity; try discriminate. never_none.
  - unfold plot_readability_details.
    destruct (truthy (data_get data "readability")); cbn [negb];
      split; try reflexivity; try discriminate. never_none.
  - rewrite <- no_sentences_lacks. unfold plot_readability_timeline.
    destruct (no_sentences data) as [[|]| |]; cbn [bind];
      split; try reflexivity; try discriminate. never_none.
  - rewrite <- no_blocks_lacks. unfold plot_sentence_heatmap.
    destruct (no_blocks data) as [[|]| |]; cbn [bind];
      split; try reflexivity; try discriminate. never_none.
Qed.

(** ** The slices of the AI detection figure *)

(** For an ai section whose confidence is a mapping with numbers, the
    figure is one pie with the slices AI Generated and Original, worth
    [confidence.AI * 100] and [confidence.Original * 100], 0 for a
    missing one; a probability between 0 and 1 gives a slice between 0
    and 100. *)
Theorem ai_detection_slices (data ai confidence : dict) :
  data_get data "ai" = VDict ai -> ai <> [] ->
  lookup "confidence" ai = Some (VDict confidence) ->
  let p_ai := field "AI" (VInt 0) confidence in
  let p_original := field "Original" (VInt 0) confidence in
  is_number p_ai = true -> is_number p_original = true ->
  (exists layout,
     plot_ai_detection_results data
     = Return (Some (Plotly.Build_Figure
                       [Plotly.Pie ["AI Generated"; "Original"]
                                   [times_100 p_ai; times_100 p_original]
                                   0.3 ["#FF9999"; "#66B2FF"]]
                       layout)))
  /\ (in_unit_interval p_ai = true ->
      in_percent_interval (times_100 p_ai) = true)
  /\ (in_unit_interval p_original = true ->
      in_percent_interval (times_100 p_original) = true)
  /\ (confidence = [] -> times_100 p_ai = VInt 0 /\ times_100 p_original = VInt 0).
Proof.
  intros Hd Hai Hc p_ai p_original Ha Ho. split; [|split; [|split]].
  - destruct (data_get_truthy_dict _ _ _ Hd Hai) as [Ht Hg].
    unfold plot_ai_detection_results. rewrite Ht, Hg. cbn [negb bind].
    unfold getitem. rewrite Hc. cbn [bind get].
    fold (field "AI" (VInt 0) confidence).
    fold (field "Original" (VInt 0) confidence).
    fold p_ai. fold p_original.
    rewrite (mul_number_100 p_ai Ha). cbn [bind].
    rewrite (mul_number_100 p_original Ho). cbn [bind].
    eexists. reflexivity.
  - apply times_100_percent.
  - apply times_100_percent.
  - intros ->. split; reflexivity.
Qed.

Lemma ai_detection_slices_witness :
  exists layout,
    plot_ai_detection_results ai_confidence_only
    = Return (Some (Plotly.Build_Figure
                      [Plotly.Pie ["AI Generated"; "Original"]
                                  [VFloat (0.82 * 100); VFloat (0.18 * 100)]
                                  0.3 ["#FF9999"; "#66B2FF"]]
                      layout)).
Proof.
  refine (proj1 (ai_detection_slices ai_confidence_only _ _ eq_refl _ eq_refl
                   eq_refl eq_refl)).
  discriminate.
Defined.

(** ** The matrix of the heat map *)







(** ** What the report holds *)

Lemma prefix_app (a b : string) : prefix a (a ++ b) = true.
Proof.
  induction a as [|c a IH]; [now destruct b|].
  cbn. destruct (ascii_dec c c); [exact IH|congruence].
Qed.

Lemma contains_here (needle rest : string) :
  contains needle (needle ++ rest) = true.
Proof.
  destruct (needle ++ rest) eqn:E; cbn [contains];
    rewrite <- E, prefix_app; reflexivity.
Qed.

Lemma contains_after (needle before hay : string) :
  contains needle hay = true -> contains needle (before ++ hay) = true.
Proof.
  intros H. induction before as [|c before IH]; [exact H|].
  cbn [append contains]. rewrite IH. now destruct (prefix _ _).
Qed.

Lemma prefix_before (needle hay rest : string) :
  prefix needle hay = true -> prefix needle (hay ++ rest) = true.
Proof.
  revert hay. induction needle as [|n needle IH]; intros hay;
    [now destruct (hay ++ rest)|].
  destruct hay as [|c hay]; [discriminate|]. cbn [prefix append].
  destruct (ascii_dec n c); [apply IH|discriminate].
Qed.

Lemma contains_before (needle hay rest : string) :
  contains needle hay = true -> contains needle (hay ++ rest) = true.
Proof.
  induction hay as [|c hay IH].
  - cbn [contains]. destruct (prefix needle EmptyString) eqn:Hp;
      [|discriminate]. intros _. apply (prefix_before _ _ rest) in Hp.
    cbn [append] in Hp |- *. destruct rest; cbn [contains]; now rewrite Hp.
  - cbn [contains append].
    destruct (prefix needle (String c hay)) eqn:Hp.
    + intros _. apply (prefix_before _ _ rest) in Hp. cbn [append] in Hp.
      now rewrite Hp.
    + intros H. rewrite (IH H).
      destruct (prefix needle (String c (hay ++ rest))); reflexivity.
Qed.

Lemma append_empty (s : string) : s ++ EmptyString = s.
Proof. induction s as [|c s IH]; [reflexivity|]. cbn. now rewrite IH. Qed.

Lemma concat_blocks_cons (b : string) (bs : list string) :
  concat_blocks (b :: bs) = b ++ concat_blocks bs.
Proof.
  unfold concat_blocks. cbn [String.concat].
  destruct bs; [now rewrite append_empty|reflexivity].
Qed.

Lemma contains_block (block : string -> string) (x : string)
    (xs : list string) :
  (forall y, contains y (block y) = true) -> In x xs ->
  contains x (concat_blocks (map block xs)) = true.
Proof.
  intros Hblock. induction xs as [|y xs IH]; [contradiction|].
  cbn [map]. rewrite concat_blocks_cons. intros [->|Hin].
  - apply contains_before, Hblock.
  - now apply contains_after, IH.
Qed.

Lemma plot_htmls_filter (to_html : Plotly.Figure -> string)
    (figs : list (option Plotly.Figure)) :
  plot_htmls to_html figs
  = plot_htmls to_html
      (filter (fun f => match f with Some _ => true | None => false end) figs).
Proof.
  induction figs as [|[f|] figs IH]; cbn [plot_htmls filter];
    [reflexivity|now rewrite IH|exact IH].
Qed.

Lemma plot_htmls_In (to_html : Plotly.Figure -> string)
    (figs : list (option Plotly.Figure)) (fig : Plotly.Figure) :
  In (Some fig) figs -> In (to_html fig) (plot_htmls to_html figs).
Proof.
  induction figs as [|[f|] figs IH]; cbn [plot_htmls In]; [tauto| |].
  - intros [[= ->]|H]; [now left|right; now apply IH].
  - intros [H|H]; [discriminate|now apply IH].
Qed.

Lemma render_credits_returns (credits : value) :
  exists h, render_credits credits = Return h.
Proof.
  unfold render_credits, Jinja.attribute.
  destruct credits; destruct (truthy _); eexists; reflexivity.
Qed.

Lemma render_properties_returns (properties : value) :
  is_str properties = false -> exists h, render_properties properties = Return h.
Proof.
  unfold render_properties, Jinja.attribute.
  destruct properties; try discriminate; intros _;
    destruct (truthy _); eexists; reflexivity.
Qed.

(** [export_to_html] returns a report for every list of figures, every
    list of insights and every document whose [properties] is not a
    str. The report holds each insight and the rendering of each figure
    as they are, with nothing escaped; a figure that is None leaves no
    trace: the report is that of the list without it. *)
Theorem report_holds_its_parts (to_html : Plotly.Figure -> string)
    (figs : list (option Plotly.Figure)) (insights : list string)
    (data : dict) :
  is_str (data_get data "properties") = false ->
  exists html,
    export_to_html to_html figs insights data = Return html
    /\ (forall insight, In insight insights -> contains insight html = true)
    /\ (forall fig, In (Some fig) figs -> contains (to_html fig) html = true)
    /\ export_to_html to_html
         (filter (fun f => match f with Some _ => true | None => false end) figs)
         insights data
       = Return html.
Proof.
  intros Hp. unfold export_to_html. rewrite <- plot_htmls_filter.
  unfold data_get in Hp.
  destruct (render_properties_returns
              match lookup "properties" data with
              | Some v => v
              | None => VDict []
              end) as [hp ->];
    [now destruct (lookup "properties" data)|].
  destruct (render_credits_returns
              match lookup "credits" data with
              | Some v => v
              | None => VDict []
              end) as [hc ->].
  cbn [bind].
  eexists. split; [reflexivity|]. split; [|split; [|reflexivity]].
  - intros insight Hin.
    apply contains_after, contains_after, contains_after, contains_before.
    apply contains_block; [|assumption].
    intros y. unfold insight_block. apply contains_after, contains_here.
  - intros fig Hin.
    do 5 apply contains_after. apply contains_before.
    apply contains_block; [|now apply plot_htmls_In].
    intros y. unfold plot_block. apply contains_after, contains_here.
Qed.

Lemma report_holds_its_parts_witness :
  exists html,
    export_to_html (fun _ => "<div>plot</div>") [None] ["<b>bold</b> & more"] []
    = Return html
    /\ contains "<b>bold</b> & more" html = true.
Proof.
  destruct (report_holds_its_parts (fun _ => "<div>plot</div>") [None]
              ["<b>bold</b> & more"] [] eq_refl) as (html & H & Hi & _).
  exists html. split; [exact H|]. apply Hi. now left.
Defined.

(** ** The download link *)

Lemma sextet_of_digit (s : Base64.sextet) : sextet_of (Base64.digit s) = Some s.
Proof.
  destruct s as [[[[[b5 b4] b3] b2] b1] b0].
  destruct b5, b4, b3, b2, b1, b0; vm_compute; reflexivity.
Qed.

Lemma digit_not_pad (s : Base64.sextet) : is_pad (Base64.digit s) = false.
Proof.
  destruct s as [[[[[b5 b4] b3] b2] b1] b0].
  destruct b5, b4, b3, b2, b1, b0; vm_compute; reflexivity.
Qed.

Lemma b64decode_encode_upto (n : nat) :
  forall s, (String.length s <= n)%nat ->
            b64decode (Base64.b64encode s) = Some s.
Proof.
  induction n as [|n IH]; intros s Hn.
  - destruct s; [reflexivity|cbn in Hn; lia].
  - destruct s as [|[a0 a1 a2 a3 a4 a5 a6 a7] s]; [reflexivity|].
    destruct s as [|[b0 b1 b2 b3 b4 b5 b6 b7] s].
    { cbn [Base64.b64encode b64decode]. rewrite !sextet_of_digit.
      reflexivity. }
    destruct s as [|[c0 c1 c2 c3 c4 c5 c6 c7] s].
    { cbn [Base64.b64encode b64decode]. rewrite !sextet_of_digit.
      rewrite digit_not_pad. reflexivity. }
    cbn [Base64.b64encode b64decode]. rewrite !sextet_of_digit.
    rewrite !digit_not_pad. rewrite IH; [reflexivity|].
    cbn [String.length] in Hn. lia.
Qed.

Lemma b64decode_encode (s : string) : b64decode (Base64.b64encode s) = Some s.
Proof. now apply (b64decode_encode_upto (String.length s)). Qed.

Lemma append_inv_head (p x y : string) : p ++ x = p ++ y -> x = y.
Proof.
  induction p as [|c p IH]; [trivial|]. cbn [append]. intros [= H]. now apply IH.
Qed.

Lemma append_length (x y : string) :
  String.length (x ++ y) = (String.length x + String.length y)%nat.
Proof. induction x as [|c x IH]; cbn; [reflexivity|now rewrite IH]. Qed.

Lemma append_inv_tail (x y q : string) : x ++ q = y ++ q -> x = y.
Proof.
  intros H.
  assert (Hlen : String.length x = String.length y).
  { apply (f_equal String.length) in H. rewrite !append_length in H. lia. }
  revert y H Hlen. induction x as [|c x IH]; intros [|d y] H Hlen;
    try discriminate; [reflexivity|].
  cbn [append] in H. injection H as -> H. f_equal. apply IH; [exact H|].
  cbn in Hlen. lia.
Qed.

(** The link of [get_binary_file_downloader_html] carries the whole
    file: the base64 text between the two fixed parts of the link
    decodes to the bytes of the file, so two files with one label get
    the same link only when they are the same file. *)
Theorem download_link_carries_file :
  (forall bin_file, b64decode (Base64.b64encode bin_file) = Some bin_file)
  /\ (forall bin_file file_label,
        Download.get_binary_file_downloader_html bin_file file_label
        = "<a href=" ++ Jinja.dq ++ "data:text/html;base64,"
          ++ Base64.b64encode bin_file ++ Jinja.dq
          ++ " download=" ++ Jinja.dq ++ file_label ++ ".html" ++ Jinja.dq
          ++ ">Download " ++ file_label ++ "</a>")
  /\ (forall file1 file2 file_label,
        Download.get_binary_file_downloader_html file1 file_label
        = Download.get_binary_file_downloader_html file2 file_label
        <-> file1 = file2).
Proof.
  split; [exact b64decode_encode|]. split; [reflexivity|].
  intros file1 file2 file_label. split; [|now intros ->].
  unfold Download.get_binary_file_downloader_html. intros H.
  do 3 apply append_inv_head in H. apply append_inv_tail in H.
  apply (f_equal b64decode) in H. rewrite !b64decode_encode in H.
  now injection H.
Qed.

Lemma digit_plain (s : Base64.sextet) :
  in_alphabet (Base64.digit s) = true /\ html_special (Base64.digit s) = false.
Proof.
  destruct s as [[[[[b5 b4] b3] b2] b1] b0].
  destruct b5, b4, b3, b2, b1, b0; vm_compute; split; reflexivity.
Qed.

Lemma b64encode_plain_upto (n : nat) :
  forall s, (String.length s <= n)%nat ->
    String.length (Base64.b64encode s) = (4 * ((String.length s + 2) / 3))%nat
    /\ forallb (fun c => (in_alphabet c || is_pad c)
                         && negb (html_special c))
               (list_ascii_of_string (Base64.b64encode s)) = true.
Proof.
  induction n as [|n IH]; intros s Hn.
  - destruct s; [split; reflexivity|cbn in Hn; lia].
  - destruct s as [|[a0 a1 a2 a3 a4 a5 a6 a7] s]; [split; reflexivity|].
    destruct s as [|[b0 b1 b2 b3 b4 b5 b6 b7] s].
    { cbn [Base64.b64encode list_ascii_of_string forallb String.length].
      split; [reflexivity|].
      repeat match goal with
             | |- context [Base64.digit ?s] =>
                 destruct (digit_plain s) as [-> ->]
             end.
      reflexivity. }
    destruct s as [|[c0 c1 c2 c3 c4 c5 c6 c7] s].
    { cbn [Base64.b64encode list_ascii_of_string forallb String.length].
      split; [reflexivity|].
      repeat match goal with
             | |- context [Base64.digit ?s] =>
                 destruct (digit_plain s) as [-> ->]
             end.
      reflexivity. }
    destruct (IH s) as [Hlen Hall]; [cbn [String.length] in Hn; lia|].
    cbn [Base64.b64encode list_ascii_of_string forallb String.length].
    split.
    + rewrite Hlen.
      replace (S (S (S (String.length s))) + 2)%nat
        with (1 * 3 + (String.length s + 2))%nat by lia.
      rewrite Nat.div_add_l by lia. lia.
    + rewrite Hall.
      repeat match goal with
             | |- context [Base64.digit ?s] =>
                 destruct (digit_plain s) as [-> ->]
             end.
      reflexivity.
Qed.

(** The base64 text of the link is four characters for every three
    bytes of the file, the last group padded; each character is one of
    the 64 of the alphabet or the padding [=], none of them a quote, an
    ampersand or an angle bracket: whatever the file holds, it cannot
    end the [href] of the link. *)
Theorem download_link_payload (bin_file : string) :
  String.length (Base64.b64encode bin_file)
  = (4 * ((String.length bin_file + 2) / 3))%nat
  /\ forallb (fun c => (in_alphabet c || is_pad c) && negb (html_special c))
             (list_ascii_of_string (Base64.b64encode bin_file)) = true.
Proof.
  destruct (b64encode_plain_upto (String.length bin_file) bin_file (le_n _))
    as [Hlength Hplain].
  split; [exact Hlength|exact Hplain].
Qed.

(** ** The page of the dashboard *)

Lemma same_on_has_key (ks : list string) (d d' : dict) (k : string) :
  same_on ks d d' -> In k ks -> has_key k d = has_key k d'.
Proof. intros H Hk. unfold has_key. now rewrite (H k Hk). Qed.

Lemma figures_same (d d' : dict) :
  same_on visual_keys d d' ->
  plot_ai_detection_results d = plot_ai_detection_results d'
  /\ plot_readability_metrics d = plot_readability_metrics d'
  /\ plot_text_statistics d = plot_text_statistics d'
  /\ plot_sentence_complexity d = plot_sentence_complexity d'
  /\ plot_plagiarism_metrics d = plot_plagiarism_metrics d'
  /\ plot_readability_details d = plot_readability_details d'
  /\ plot_readability_timeline d = plot_readability_timeline d'
  /\ plot_sentence_heatmap d = plot_sentence_heatmap d'.
Proof.
  intros H.
  destruct (same_on_data_get _ d d' "ai" H) as [Ha Ha']; [in_list|].
  destruct (same_on_data_get _ d d' "readability" H) as [Hr Hr']; [in_list|].
  destruct (same_on_data_get _ d d' "plagiarism" H) as [Hp Hp']; [in_list|].
  unfold plot_ai_detection_results, plot_readability_metrics,
    plot_text_statistics, plot_sentence_complexity, plot_plagiarism_metrics,
    plot_readability_details, plot_readability_timeline,
    plot_sentence_heatmap, no_sentences, no_blocks,
    analyze_sentence_complexity.
  rewrite Ha, Ha', Hr, Hr', Hp, Hp'. repeat split.
Qed.

(** The dashboard reads five keys of the document: with the raw JSON
    box not ticked, two documents that agree on properties, ai,
    readability, plagiarism and credits give the same page, whether the
    report is asked for or not. So the page of a document is that of
    the document without its [error] key: the dashboard never shows the
    error of a failed scan. *)
Theorem dashboard_reads_five_keys (to_html : Plotly.Figure -> string)
    (generate : bool) (d d' : dict) :
  same_on dashboard_keys d d' ->
  display_analysis to_html generate false d
  = display_analysis to_html generate false d'.
Proof.
  intros H.
  assert (Hvis : same_on visual_keys d d').
  { intros k Hk. apply H. unfold visual_keys, dashboard_keys in *.
    simpl in *. tauto. }
  destruct (same_on_data_get _ d d' "ai" H) as [Ha Ha']; [in_list|].
  destruct (same_on_data_get _ d d' "plagiarism" H) as [Hp Hp']; [in_list|].
  destruct (same_on_data_get _ d d' "properties" H) as [_ Hq']; [in_list|].
  assert (Hk : has_key "properties" d = has_key "properties" d')
    by (apply (same_on_has_key _ _ _ _ H); in_list).
  destruct (figures_same d d' Hvis)
    as (F1 & F2 & F3 & F4 & F5 & F6 & F7 & F8).
  destruct (visualizer_reads_three_keys_parts d d' Hvis) as (Hi & Hb & Hf).
  unfold display_analysis.
  replace (show_properties d) with (show_properties d')
    by (unfold show_properties; now rewrite Hk, Hq').
  replace (show_ai_detection d) with (show_ai_detection d')
    by (unfold show_ai_detection; now rewrite F1, Ha, Ha').
  replace (show_readability d) with (show_readability d')
    by (unfold show_readability; now rewrite F2, F3).
  replace (show_complexity d) with (show_complexity d')
    by (unfold show_complexity; now rewrite F4).
  replace (show_blocks d) with (show_blocks d')
    by (unfold show_blocks; now rewrite Hb).
  replace (show_plagiarism d) with (show_plagiarism d')
    by (unfold show_plagiarism;
        now rewrite F5, Hp', (H "plagiarism") by in_list).
  replace (show_details d) with (show_details d')
    by (unfold show_details; now rewrite F6, F7, F8).
  replace (show_report to_html generate d)
    with (show_report to_html generate d').
  2:{ unfold show_report, export_to_html.
      rewrite Hf, Hi, (H "properties"), (H "credits") by in_list.
      reflexivity. }
  reflexivity.
Qed.

Lemma dashboard_reads_five_keys_witness :
  display_analysis (fun _ => "<div></div>") true false
    [("error", VStr "rate limited")]
  = display_analysis (fun _ => "<div></div>") true false [].
Proof.
  apply dashboard_reads_five_keys.
  intros k Hk. simpl in Hk.
  repeat (destruct Hk as [<-|Hk]; [reflexivity|]). destruct Hk.
Defined.

Lemma nothing_to_plot (data : dict) :
  truthy (data_get data "ai") = false ->
  truthy (data_get data "readability") = false ->
  truthy (data_get data "plagiarism") = false ->
  report_figures data = Return [None; None; None; None; None; None; None; None]
  /\ generate_detailed_insights data = Return []
  /\ analyze_ai_blocks data = Return [].
Proof.
  intros Ha Hr Hp.
  unfold report_figures, plot_ai_detection_results, plot_readability_metrics,
    plot_text_statistics, plot_sentence_complexity, plot_plagiarism_metrics,
    plot_readability_details, plot_readability_timeline,
    plot_sentence_heatmap, no_sentences, no_blocks,
    analyze_sentence_complexity, generate_detailed_insights, ai_insights,
    readability_insights, plagiarism_insights, analyze_ai_blocks, no_blocks.
  rewrite Ha, Hr, Hp. repeat split.
Qed.

Lemma bare_display (to_html : Plotly.Figure -> string)
    (generate show_raw : bool) (data : dict) (report : list element) :
  has_key "properties" data = false ->
  truthy (data_get data "ai") = false ->
  truthy (data_get data "readability") = false ->
  truthy (data_get data "plagiarism") = false ->
  show_report to_html generate data
  = (button "Generate HTML Report" :: report, Return tt) ->
  display_analysis to_html generate show_raw data
  = ((bare_page ++ report ++ checkbox "Show Raw JSON"
      :: (if show_raw then [json data] else []))%list,
     Return tt).
Proof.
  intros Hk Ha Hr Hp Hrep.
  destruct (nothing_to_plot data Ha Hr Hp) as (Hf & Hi & Hb).
  assert (Hfigs : plot_ai_detection_results data = Return None
                  /\ plot_readability_metrics data = Return None
                  /\ plot_text_statistics data = Return None
                  /\ plot_sentence_complexity data = Return None
                  /\ plot_plagiarism_metrics data = Return None
                  /\ plot_readability_details data = Return None
                  /\ plot_readability_timeline data = Return None
                  /\ plot_sentence_heatmap data = Return None).
  { unfold plot_ai_detection_results, plot_readability_metrics,
      plot_text_statistics, plot_sentence_complexity, plot_plagiarism_metrics,
      plot_readability_details, plot_readability_timeline,
      plot_sentence_heatmap, no_sentences, no_blocks,
      analyze_sentence_complexity.
    rewrite Ha, Hr, Hp. repeat split. }
  destruct Hfigs as (F1 & F2 & F3 & F4 & F5 & F6 & F7 & F8).
  unfold display_analysis, show_properties, show_ai_detection,
    show_readability, show_complexity, show_blocks, show_plagiarism,
    show_details, show_raw_json.
  rewrite Hrep, Hk, Ha, F1, F2, F3, F4, F5, F6, F7, F8, Hb.
  destruct show_raw; cbn; rewrite <- ?app_assoc; reflexivity.
Qed.

(** A document with no properties and with no ai, readability and
    plagiarism sections (missing or falsy), such as the document of a
    failed scan, gives a page of nine headers and the two widgets and
    nothing else: no chart, no table, and no error or warning, whatever
    else the document holds. Asked for, the report is made all the same. *)
Theorem bare_dashboard (to_html : Plotly.Figure -> string) (show_raw : bool)
    (data : dict) :
  has_key "properties" data = false ->
  truthy (data_get data "ai") = false ->
  truthy (data_get data "readability") = false ->
  truthy (data_get data "plagiarism") = false ->
  let raw := if show_raw then [json data] else [] in
  display_analysis to_html false show_raw data
  = ((bare_page ++ checkbox "Show Raw JSON" :: raw)%list, Return tt)
  /\ (exists html,
        export_to_html to_html [] [] data = Return html
        /\ display_analysis to_html true show_raw data
           = ((bare_page
               ++ markdown (Download.get_binary_file_downloader_html
                              html "analysis_report")
                  :: checkbox "Show Raw JSON" :: raw)%list,
              Return tt))
  /\ forallb (fun e => negb (is_alert e))
             (fst (display_analysis to_html false show_raw data)) = true.
Proof.
  intros Hk Ha Hr Hp raw.
  destruct (nothing_to_plot data Ha Hr Hp) as (Hf & Hi & Hb).
  assert (Hbare : display_analysis to_html false show_raw data
                  = ((bare_page ++ checkbox "Show Raw JSON" :: raw)%list,
                     Return tt))
    by (apply (bare_display to_html false show_raw data []); auto).
  split; [exact Hbare|split].
  - assert (Hhtml : exists html, export_to_html to_html [] [] data = Return html).
    { unfold export_to_html.
      destruct (render_properties_returns
                  match lookup "properties" data with
                  | Some v => v
                  | None => VDict []
                  end) as [hp ->].
      { unfold has_key in Hk. now destruct (lookup "properties" data). }
      destruct (render_credits_returns
                  match lookup "credits" data with
                  | Some v => v
                  | None => VDict []
                  end) as [hc ->].
      eexists. reflexivity. }
    destruct Hhtml as [html Hhtml]. exists html. split; [exact Hhtml|].
    apply (bare_display to_html true show_raw data
             [markdown (Download.get_binary_file_downloader_html
                          html "analysis_report")]); try assumption.
    unfold show_report. rewrite Hf. cbn [run then_ show]. rewrite Hi.
    cbn [run then_ show].
    change (export_to_html to_html [None; None; None; None; None; None; None; None]
              [] data) with (export_to_html to_html [] [] data).
    rewrite Hhtml. reflexivity.
  - rewrite Hbare. subst raw. destruct show_raw; reflexivity.
Qed.

Lemma bare_dashboard_witness :
  display_analysis (fun _ => "<div></div>") false false
    [("error", VStr "rate limited")]
  = ((bare_page ++ [checkbox "Show Raw JSON"])%list, Return tt).
Proof.
  exact (proj1 (bare_dashboard (fun _ => "<div></div>") false
                  [("error", VStr "rate limited")]
                  eq_refl eq_refl eq_refl eq_refl)).
Defined.

(** ** A probability against a threshold, before and after [* 100] *)

(** The product of a float by 100, before it is rounded: the mantissa
    is cut to 53 bits, and the last bit may be rounded up. *)
Lemma SFmul_100_rounded (s : bool) (m : positive) (e : Z) :
  let M := Z.pos m * Z.pos m100 in
  let e' := fexp64 (Zdigits2 M + (e + -46)) in
  let q := M / 2 ^ (e' - (e + -46)) in
  exists r, (r = q \/ r = q + 1) /\ 0 <= q /\ r <= 2 ^ 53
            /\ SFmul prec emax (S754_finite s m e) (S754_finite false m100 (-46))
               = rounded s r e'.
Proof.
  intros M e' q. cbn [SFmul]. rewrite xorb_false_r.
  change (Z.pos (m * m100)) with M.
  assert (HMpos : 0 < M) by (unfold M; lia).
  assert (Hd : 53 <= Zdigits2 M).
  { change 53 with (52 + 1). apply Zdigits2_ge; [lia|].
    unfold M, m100. change (2 ^ 52) with 4503599627370496. nia. }
  apply (binary_round_aux_exact s M (e + -46) HMpos).
  unfold fexp64. lia.
Qed.

(** The product by 100 of a float with a mantissa of 53 bits. *)
Lemma normal_times_100 (s : bool) (m : positive) (e : Z) :
  2 ^ 52 <= Z.pos m < 2 ^ 53 -> -1074 <= e ->
  exists r e' q,
    SFmul prec emax (S754_finite s m e) (S754_finite false m100 (-46))
    = rounded s r e'
    /\ (r = q \/ r = q + 1) /\ r <= 2 ^ 53
    /\ ((Z.pos m * 100 < 2 ^ 59 /\ e' = e + 6 /\ q = Z.pos m * 100 / 64)
        \/ (2 ^ 59 <= Z.pos m * 100 /\ e' = e + 7 /\ q = Z.pos m * 100 / 128)).
Proof.
  intros Hm He.
  destruct (SFmul_100_rounded s m e) as (r & Hr & Hq & Hr53 & Heq).
  set (M := Z.pos m * Z.pos m100) in *.
  assert (HM : M = Z.pos m * 100 * 2 ^ 46) by (unfold M, m100; lia).
  assert (HMpos : 0 < M) by (unfold M; lia).
  change (2 ^ 52) with 4503599627370496 in Hm.
  change (2 ^ 53) with 9007199254740992 in Hm.
  change (2 ^ 59) with 576460752303423488.
  destruct (Z.lt_ge_cases (Z.pos m * 100) 576460752303423488) as [Hlo|Hhi].
  - assert (Hd : Zdigits2 M = 105).
    { apply Z.le_antisymm.
      - apply Zdigits2_le; [assumption|]. rewrite HM.
        change (2 ^ 105) with (576460752303423488 * 2 ^ 46). nia.
      - change 105 with (104 + 1). apply Zdigits2_ge; [lia|]. rewrite HM.
        change (2 ^ 104) with (288230376151711744 * 2 ^ 46). nia. }
    rewrite Hd in Hr, Heq.
    replace (fexp64 (105 + (e + -46))) with (e + 6) in Hr, Heq
      by (unfold fexp64; lia).
    replace (e + 6 - (e + -46)) with 52 in Hr by lia.
    exists r, (e + 6), (M / 2 ^ 52). repeat split; try assumption.
    left. repeat split; [assumption|]. rewrite HM.
    change (2 ^ 52) with (64 * 2 ^ 46).
    now rewrite Z.div_mul_cancel_r by lia.
  - assert (Hd : Zdigits2 M = 106).
    { apply Z.le_antisymm.
      - apply Zdigits2_le; [assumption|]. rewrite HM.
        change (2 ^ 106) with (1152921504606846976 * 2 ^ 46). nia.
      - change 106 with (105 + 1). apply Zdigits2_ge; [lia|]. rewrite HM.
        change (2 ^ 105) with (576460752303423488 * 2 ^ 46). nia. }
    rewrite Hd in Hr, Heq.
    replace (fexp64 (106 + (e + -46))) with (e + 7) in Hr, Heq
      by (unfold fexp64; lia).
    replace (e + 7 - (e + -46)) with 53 in Hr by lia.
    exists r, (e + 7), (M / 2 ^ 53). repeat split; try assumption.
    right. repeat split; [assumption|]. rewrite HM.
    change (2 ^ 53) with (128 * 2 ^ 46).
    now rewrite Z.div_mul_cancel_r by lia.
Qed.

(** The product by 100 of any float: its exponent. *)
Lemma small_times_100 (s : bool) (m : positive) (e : Z) :
  Z.pos m < 2 ^ 53 ->
  exists r e',
    SFmul prec emax (S754_finite s m e) (S754_finite false m100 (-46))
    = rounded s r e'
    /\ 0 <= r <= 2 ^ 53 /\ e' <= Z.max (e + 7) (-1074).
Proof.
  intros Hm.
  destruct (SFmul_100_rounded s m e) as (r & Hr & Hq & Hr53 & Heq).
  set (M := Z.pos m * Z.pos m100) in *.
  assert (HMpos : 0 < M) by (unfold M; lia).
  assert (Hd : Zdigits2 M <= 106).
  { apply Zdigits2_le; [assumption|]. unfold M, m100.
    change (2 ^ 53) with 9007199254740992 in Hm.
    change (2 ^ 106) with (9007199254740992 * 9007199254740992). nia. }
  exists r, (fexp64 (Zdigits2 M + (e + -46))).
  split; [exact Heq|]. split; [lia|]. unfold fexp64. lia.
Qed.

Lemma pow2_pos (k : Z) : 0 <= k -> 0 < 2 ^ k.
Proof. intros. apply Z.pow_pos_nonneg; lia. Qed.

Lemma pow2_succ (k : Z) : 0 <= k -> 2 ^ (k + 1) = 2 * 2 ^ k.
Proof. intros. rewrite Z.pow_add_r by lia. change (2 ^ 1) with 2. lia. Qed.

(** An int below a rounded float. *)
Lemma above_threshold (T r e' : Z) (g : float) :
  Prim2SF g = rounded false r e' ->
  0 < T < 2 ^ 52 -> 2 ^ 52 <= r <= 2 ^ 53 ->
  (e' < 0 -> T * 2 ^ (- e') < r) ->
  compare_Z_float T g = Some Lt.
Proof.
  intros Hg HT Hr Hlt. unfold compare_Z_float. rewrite Hg. unfold rounded.
  change (2 ^ 52) with 4503599627370496 in *.
  change (2 ^ 53) with 9007199254740992 in *.
  destruct r as [|p|p]; try lia.
  destruct (Z.ltb_spec (Z.pos p) 9007199254740992) as [Hp|Hp].
  - destruct (e' <=? 971); [|reflexivity]. f_equal.
    destruct (Z.leb_spec 0 e') as [He|He].
    + apply Z.compare_lt_iff. assert (1 <= 2 ^ e') by (pose proof (pow2_pos e' He); lia).
      nia.
    + apply Z.compare_lt_iff. apply Hlt. lia.
  - assert (Hp53 : Z.pos p = 9007199254740992) by lia.
    destruct (e' + 1 <=? 971); [|reflexivity]. f_equal.
    change (Z.pos (2 ^ 52)) with 4503599627370496.
    destruct (Z.leb_spec 0 (e' + 1)) as [He|He].
    + apply Z.compare_lt_iff.
      assert (1 <= 2 ^ (e' + 1)) by (pose proof (pow2_pos (e' + 1) He); lia).
      nia.
    + apply Z.compare_lt_iff. specialize (Hlt ltac:(lia)).
      replace (- e') with (- (e' + 1) + 1) in Hlt by lia.
      rewrite pow2_succ in Hlt by lia. lia.
Qed.

(** An int that is not below a rounded float. *)
Lemma not_above_threshold (T r e' : Z) (g : float) :
  Prim2SF g = rounded false r e' ->
  0 < T -> 0 <= r <= 2 ^ 53 -> e' <= -2 -> r <= T * 2 ^ (- e') ->
  match compare_Z_float T g with Some Lt => true | _ => false end = false.
Proof.
  intros Hg HT Hr He Hle. unfold compare_Z_float. rewrite Hg. unfold rounded.
  change (2 ^ 53) with 9007199254740992 in *.
  destruct r as [|p|p]; try lia.
  - destruct (Z.compare_spec T 0); try reflexivity; lia.
  - destruct (Z.ltb_spec (Z.pos p) 9007199254740992) as [Hp|Hp].
    + destruct (Z.leb_spec e' 971); [|lia].
      destruct (Z.leb_spec 0 e'); [lia|].
      destruct (Z.compare_spec (T * 2 ^ (- e')) (Z.pos p)); try reflexivity; lia.
    + destruct (Z.leb_spec (e' + 1) 971); [|lia].
      destruct (Z.leb_spec 0 (e' + 1)); [lia|].
      change (Z.pos (2 ^ 52)) with 4503599627370496.
      replace (- e') with (- (e' + 1) + 1) in Hle by lia.
      rewrite pow2_succ in Hle by lia.
      destruct (Z.compare_spec (T * 2 ^ (- (e' + 1))) 4503599627370496);
        try reflexivity; lia.
Qed.

(** A positive int is above every float that is not positive. *)
Lemma above_negative (T r e' : Z) (g : float) :
  Prim2SF g = rounded true r e' -> 0 < T -> 0 <= r ->
  match compare_Z_float T g with Some Lt => true | _ => false end = false.
Proof.
  intros Hg HT Hr. unfold compare_Z_float. rewrite Hg. unfold rounded.
  destruct r as [|p|p]; try lia.
  - destruct (Z.compare_spec T 0); try reflexivity; lia.
  - assert (Hneg : forall q e, match (if 0 <=? e then T ?= Z.neg q * 2 ^ e
                                     else T * 2 ^ (- e) ?= Z.neg q)
                               with Lt => true | _ => false end = false).
    { intros q e. destruct (Z.leb_spec 0 e) as [He|He].
      - pose proof (pow2_pos e He).
        destruct (Z.compare_spec T (Z.neg q * 2 ^ e)); try reflexivity; nia.
      - pose proof (pow2_pos (- e) ltac:(lia)).
        destruct (Z.compare_spec (T * 2 ^ (- e)) (Z.neg q)); try reflexivity; nia. }
    destruct (Z.pos p <? 2 ^ 53).
    + destruct (e' <=? 971); [apply Hneg|reflexivity].
    + destruct (e' + 1 <=? 971); [apply Hneg|reflexivity].
Qed.

Lemma pos_compare_cont_Z (p q : positive) :
  Pos.compare_cont Eq p q = (Z.pos p ?= Z.pos q).
Proof.
  rewrite Pos.compare_cont_spec.
  change (Z.pos p ?= Z.pos q) with (p ?= q)%positive.
  now destruct (p ?= q)%positive.
Qed.

Lemma pow2_le_46 (k : Z) : 0 <= k <= 46 -> 2 ^ k <= 70368744177664.
Proof. intros. change 70368744177664 with (2 ^ 46). apply Z.pow_le_mono_r; lia. Qed.

Lemma pow2_ge (k n : Z) : 0 <= n <= k -> 2 ^ n <= 2 ^ k.
Proof. intros. apply Z.pow_le_mono_r; lia. Qed.

(** A float is above 0.75 exactly when its product by 100 is above 75,
    and above 0.5 exactly when the product is above 50. *)
Lemma float_above_threshold (f : float) :
  PrimFloat.ltb 0.75 f
  = match compare_Z_float 75 (f * 100) with Some Lt => true | _ => false end
  /\ PrimFloat.ltb 0.5 f
     = match compare_Z_float 50 (f * 100) with Some Lt => true | _ => false end.
Proof.
  rewrite !FloatAxioms.ltb_spec.
  change (Prim2SF 0.75) with (S754_finite false 6755399441055744 (-53)).
  change (Prim2SF 0.5) with (S754_finite false 4503599627370496 (-53)).
  pose proof (FloatAxioms.mul_spec f 100) as Hmul. rewrite Prim2SF_100 in Hmul.
  change SF64mul with (SFmul prec emax) in Hmul.
  assert (Hv := Prim2SF_valid f).
  destruct (Prim2SF f) as [s|s| |s m e] eqn:Hf.
  - (* zero *)
    unfold compare_Z_float. rewrite Hmul. destruct s; split; reflexivity.
  - (* infinity *)
    unfold compare_Z_float. rewrite Hmul. destruct s; split; reflexivity.
  - (* NaN *)
    unfold compare_Z_float. rewrite Hmul. split; reflexivity.
  - destruct s.
    { (* negative *)
      destruct (SFmul_100_rounded true m e) as (r & Hr & Hq & _ & Heq).
      rewrite Heq in Hmul.
      rewrite !(above_negative _ r _ _ Hmul) by lia. split; reflexivity. }
    destruct (valid_finite m e Hv) as (Hd53 & Hcanon & Hemin).
    destruct (digits2_bounds m) as [Hmlo Hmhi].
    assert (Hm53 : Z.pos m < 2 ^ 53).
    { eapply Z.lt_le_trans; [exact Hmhi|]. apply Z.pow_le_mono_r; lia. }
    unfold SFltb, SFcompare. rewrite !pos_compare_cont_Z.
    destruct (Z.compare_spec (-53) e) as [He|He|He].
    + (* the exponent of 0.75 and of 0.5 *)
      subst e.
      assert (Hd : Z.pos (digits2_pos m) = 53) by lia.
      rewrite Hd in Hmlo. change (2 ^ (53 - 1)) with 4503599627370496 in Hmlo.
      destruct (normal_times_100 false m (-53)) as (r & e' & q & Heq & Hr & Hr53 & Hcase);
        [change (2 ^ 52) with 4503599627370496; lia|lia|].
      rewrite Heq in Hmul.
      change (2 ^ 53) with 9007199254740992 in *.
      change (2 ^ 59) with 576460752303423488 in Hcase.
      split.
      * destruct (Z.compare_spec 6755399441055744 (Z.pos m)) as [Hc|Hc|Hc].
        -- (* 0.75 itself *)
           injection Hc as <-. unfold compare_Z_float.
           rewrite <- Heq in Hmul. rewrite Hmul. vm_compute. reflexivity.
        -- destruct (Z.eq_dec (Z.pos m) 6755399441055745) as [Hn|Hn].
           ++ (* the float next to 0.75 *)
              injection Hn as ->. unfold compare_Z_float.
              rewrite <- Heq in Hmul. rewrite Hmul. vm_compute. reflexivity.
           ++ rewrite (above_threshold 75 r e' _ Hmul); [reflexivity|..].
              ** change (2 ^ 52) with 4503599627370496. lia.
              ** change (2 ^ 52) with 4503599627370496.
                 change (2 ^ 53) with 9007199254740992.
                 destruct Hcase as [(Hlo & -> & ->)|(Hhi & -> & ->)]; [lia|].
                 assert (5277655813324801 <= Z.pos m * 100 / 128)
                   by (apply Z.div_le_lower_bound; lia).
                 lia.
              ** destruct Hcase as [(Hlo & -> & ->)|(Hhi & -> & ->)]; [lia|].
                 intros _. change (2 ^ (- (-53 + 7))) with 70368744177664.
                 assert (5277655813324801 <= Z.pos m * 100 / 128)
                   by (apply Z.div_le_lower_bound; lia).
                 lia.
        -- rewrite (not_above_threshold 75 r e' _ Hmul); [reflexivity|lia|..].
           ** assert (0 <= q).
              { destruct Hcase as [(_ & _ & ->)|(_ & _ & ->)];
                  apply Z.div_pos; lia. }
              change (2 ^ 53) with 9007199254740992. lia.
           ** destruct Hcase as [(_ & -> & _)|(_ & -> & _)]; lia.
           ** destruct Hcase as [(Hlo & -> & ->)|(Hhi & -> & ->)].
              --- change (2 ^ (- (-53 + 6))) with 140737488355328. lia.
              --- change (2 ^ (- (-53 + 7))) with 70368744177664.
                  assert (Z.pos m * 100 / 128 < 5277655813324800)
                    by (apply Z.div_lt_upper_bound; lia).
                  lia.
      * destruct (Z.compare_spec 4503599627370496 (Z.pos m)) as [Hc|Hc|Hc];
          [| |lia].
        -- (* 0.5 itself *)
           injection Hc as <-. unfold compare_Z_float.
           rewrite <- Heq in Hmul. rewrite Hmul. vm_compute. reflexivity.
        -- rewrite (above_threshold 50 r e' _ Hmul); [reflexivity|..].
           ** change (2 ^ 52) with 4503599627370496. lia.
           ** change (2 ^ 52) with 4503599627370496.
              change (2 ^ 53) with 9007199254740992.
              destruct Hcase as [(Hlo & -> & ->)|(Hhi & -> & ->)].
              --- assert (7036874417766401 <= Z.pos m * 100 / 64)
                    by (apply Z.div_le_lower_bound; lia).
                  lia.
              --- assert (4503599627370496 <= Z.pos m * 100 / 128)
                    by (apply Z.div_le_lower_bound; lia).
                  lia.
           ** destruct Hcase as [(Hlo & -> & ->)|(Hhi & -> & ->)]; intros _.
              --- change (2 ^ (- (-53 + 6))) with 140737488355328.
                  assert (7036874417766401 <= Z.pos m * 100 / 64)
                    by (apply Z.div_le_lower_bound; lia).
                  lia.
              --- change (2 ^ (- (-53 + 7))) with 70368744177664.
                  assert (4503599627370496 <= Z.pos m * 100 / 128)
                    by (apply Z.div_le_lower_bound; lia).
                  lia.
    + (* at least 1 *)
      assert (Hd : Z.pos (digits2_pos m) = 53) by lia.
      rewrite Hd in Hmlo. change (2 ^ (53 - 1)) with 4503599627370496 in Hmlo.
      destruct (normal_times_100 false m e) as (r & e' & q & Heq & Hr & Hr53 & Hcase);
        [change (2 ^ 52) with 4503599627370496; lia|lia|].
      rewrite Heq in Hmul.
      change (2 ^ 53) with 9007199254740992 in *.
      change (2 ^ 59) with 576460752303423488 in Hcase.
      assert (Hq : (e' = e + 6 /\ 7036874417766400 <= q)
                   \/ (e' = e + 7 /\ 4503599627370496 <= q)).
      { destruct Hcase as [(Hlo & -> & ->)|(Hhi & -> & ->)]; [left|right];
          (split; [reflexivity|apply Z.div_le_lower_bound; lia]). }
      assert (Hbound : forall T, 0 < T <= 75 -> e' < 0 -> T * 2 ^ (- e') < r).
      { intros T HT Hneg. destruct Hq as [[-> Hq]|[-> Hq]].
        - pose proof (pow2_le_46 (- (e + 6)) ltac:(lia)).
          pose proof (pow2_pos (- (e + 6)) ltac:(lia)). nia.
        - assert (2 ^ (- (e + 7)) <= 35184372088832).
          { change 35184372088832 with (2 ^ 45). apply Z.pow_le_mono_r; lia. }
          pose proof (pow2_pos (- (e + 7)) ltac:(lia)). nia. }
      assert (Hr52 : 2 ^ 52 <= r <= 2 ^ 53).
      { change (2 ^ 52) with 4503599627370496.
        change (2 ^ 53) with 9007199254740992. lia. }
      rewrite (above_threshold 75 r e' _ Hmul);
        [|change (2 ^ 52) with 4503599627370496; lia|exact Hr52
         |apply Hbound; lia].
      rewrite (above_threshold 50 r e' _ Hmul);
        [|change (2 ^ 52) with 4503599627370496; lia|exact Hr52
         |apply Hbound; lia].
      split; reflexivity.
    + (* below one half *)
      destruct (small_times_100 false m e Hm53) as (r & e' & Heq & Hr & He').
      rewrite Heq in Hmul.
      assert (He47 : e' <= -47) by lia.
      pose proof (pow2_ge (- e') 47 ltac:(lia)) as Hp.
      change (2 ^ 47) with 140737488355328 in Hp.
      change (2 ^ 53) with 9007199254740992 in Hr.
      split.
      * rewrite (not_above_threshold 75 r e' _ Hmul); [reflexivity|lia| |lia|].
        -- change (2 ^ 53) with 9007199254740992. lia.
        -- nia.
      * destruct (Z.eq_dec e (-54)) as [->|Hne].
        -- (* one half of a float in [0.5, 1) *)
           assert (Hd : Z.pos (digits2_pos m) = 53) by lia.
           rewrite Hd in Hmlo.
           change (2 ^ (53 - 1)) with 4503599627370496 in Hmlo.
           clear r e' Heq Hr He' He47 Hp Hmul.
           pose proof (FloatAxioms.mul_spec f 100) as Hmul.
           rewrite Prim2SF_100, Hf in Hmul.
           change SF64mul with (SFmul prec emax) in Hmul.
           destruct (normal_times_100 false m (-54))
             as (r & e' & q & Heq & Hr & Hr53 & Hcase);
             [change (2 ^ 52) with 4503599627370496; lia|lia|].
           rewrite Heq in Hmul.
           change (2 ^ 53) with 9007199254740992 in *.
           change (2 ^ 59) with 576460752303423488 in Hcase.
           rewrite (not_above_threshold 50 r e' _ Hmul); [reflexivity|lia|..].
           ++ assert (0 <= q).
              { destruct Hcase as [(_ & _ & ->)|(_ & _ & ->)];
                  apply Z.div_pos; lia. }
              change (2 ^ 53) with 9007199254740992. lia.
           ++ destruct Hcase as [(_ & -> & _)|(_ & -> & _)]; lia.
           ++ destruct Hcase as [(Hlo & -> & ->)|(Hhi & -> & ->)].
              ** change (2 ^ (- (-54 + 6))) with 281474976710656. lia.
              ** change (2 ^ (- (-54 + 7))) with 140737488355328.
                 assert (Z.pos m * 100 / 128 < 7036874417766400)
                   by (apply Z.div_lt_upper_bound; lia).
                 lia.
        -- assert (He48 : e' <= -48) by lia.
           pose proof (pow2_ge (- e') 48 ltac:(lia)) as Hp'.
           change (2 ^ 48) with 281474976710656 in Hp'.
           rewrite (not_above_threshold 50 r e' _ Hmul); [reflexivity|lia| |lia|].
           ++ change (2 ^ 53) with 9007199254740992. lia.
           ++ nia.
Qed.

(** ** The risk level and the backgrounds of the table *)

(** A probability is above 0.75, or above 0.5, exactly when its
    hundredfold is above 75, or above 50. *)
Lemma thresholds_agree (p : value) :
  is_number p = true ->
  exists high moderate,
    gt p (VFloat 0.75) = Return high
    /\ gt p (VFloat 0.5) = Return moderate
    /\ gt (times_100 p) (VInt 75) = Return high
    /\ gt (times_100 p) (VInt 50) = Return moderate.
Proof.
  destruct p as [| |z|f| | |]; try discriminate; intros _.
  - cbn [gt as_num times_100]. unfold compare_Z_float.
    change (Prim2SF 0.75) with (S754_finite false 6755399441055744 (-53)).
    change (Prim2SF 0.5) with (S754_finite false 4503599627370496 (-53)).
    cbn [Z.leb Z.compare Z.opp]. change (2 ^ 53) with 9007199254740992.
    do 2 eexists. split; [reflexivity|]. split; [reflexivity|]. split.
    + f_equal. destruct (Z.ltb_spec 75 (z * 100));
        destruct (Z.compare_spec (z * 9007199254740992) 6755399441055744);
        try reflexivity; lia.
    + f_equal. destruct (Z.ltb_spec 50 (z * 100));
        destruct (Z.compare_spec (z * 9007199254740992) 4503599627370496);
        try reflexivity; lia.
  - cbn [gt as_num times_100].
    destruct (float_above_threshold f) as [H75 H50].
    do 2 eexists. split; [reflexivity|]. split; [reflexivity|].
    now rewrite H75, H50.
Qed.

(** The risk level the dashboard shows for the probability
    [confidence.AI] of the document, a number [p], whose hundredfold is
    the [ai_prob] of the code: high risk exactly when [p > 0.75],
    moderate risk exactly when [0.5 < p <= 0.75], low risk otherwise, a
    NaN included. A text block gets the red background under the same
    condition as the high risk, and the yellow one as the moderate
    risk. *)
Theorem risk_by_probability (p : value) :
  is_number p = true ->
  exists high moderate,
    gt p (VFloat 0.75) = Return high
    /\ gt p (VFloat 0.5) = Return moderate
    /\ mul p (VInt 100) = Return (times_100 p)
    /\ risk_level (times_100 p)
       = ([if high then error high_risk
           else if moderate then warning moderate_risk
                else success low_risk], Return tt)
    /\ highlight_ai_score (times_100 p)
       = Return (if high then red else if moderate then yellow else EmptyString).
Proof.
  intros Hp.
  destruct (thresholds_agree p Hp) as (high & moderate & H1 & H2 & H3 & H4).
  exists high, moderate. split; [exact H1|]. split; [exact H2|].
  split; [now apply mul_number_100|].
  unfold risk_level, highlight_ai_score. rewrite H3, H4.
  destruct high, moderate; split; reflexivity.
Qed.

Lemma risk_by_probability_witness :
  risk_level (VFloat (0.75 * 100)) = ([warning moderate_risk], Return tt)
  /\ risk_level (VInt (1 * 100)) = ([error high_risk], Return tt).
Proof.
  split.
  - destruct (risk_by_probability (VFloat 0.75) eq_refl)
      as (high & moderate & H1 & H2 & _ & H & _).
    injection H1 as <-. injection H2 as <-. exact H.
  - destruct (risk_by_probability (VInt 1) eq_refl)
      as (high & moderate & H1 & H2 & _ & H & _).
    injection H1 as <-. injection H2 as <-. exact H.
Defined.



(* ================================================================== *)
(** * Properties of the client *)
(* ================================================================== *)

Import Requests Client Scanner.

(** ** Requests that fail *)

(** [_make_request] never ends in a [RequestException]: when the
    sending, [raise_for_status()] or [json()] raises one with the text
    [m], the result is the document [{"error": m}], which
    [format_results] renders as "Error: m"; the status and the text of a
    response are printed before its status is checked. Without such an
    exception the result is the JSON of the response. *)
Theorem request_errors_are_documents
    (post : string -> dict -> option string -> attempt response)
    (get : string -> dict -> attempt response) (dumps : value -> string)
    (self : OriginalityAI) (method endpoint : string) (data : value) :
  let run := _make_request post get dumps self method endpoint data in
  (forall m, snd run <> RequestException m)
  /\ (forall u, upper method = Some u ->
        let url := base_url self ++ "/" ++ endpoint in
        let answer :=
          if String.eqb u "POST"
          then post url (headers self)
                    (if truthy data then Some (dumps data) else None)
          else get url (headers self) in
        (forall m, answer = RequestException m ->
                   snd run = Done (error_document m))
        /\ (forall r m,
              answer = Done r -> raise_for_status r = RequestException m ->
              snd run = Done (error_document m)
              /\ In (printed ("Response text: " ++ Requests.text r)) (fst run))
        /\ (forall r m,
              answer = Done r -> raise_for_status r = Done tt ->
              Requests.json r = RequestException m ->
              snd run = Done (error_document m))
        /\ (forall r v,
              answer = Done r -> raise_for_status r = Done tt ->
              Requests.json r = Done v -> snd run = Done v))
  /\ (forall m, match error_document m with
                | VDict d => format_results d = Return ("Error: " ++ m)
                | _ => False
                end).
Proof.
  intros run. split; [|split].
  - intros m. subst run. unfold _make_request, or_error_document.
    match goal with
    | |- context [Client.then_ ?a ?k] => destruct (Client.then_ a k) as [log [v|e|e|]]
    end; discriminate.
  - intros u Hu url answer. subst run. unfold _make_request.
    rewrite Hu. cbn [lift Client.then_]. fold url.
    assert (Hsend : forall (log0 : list event) (a : attempt response),
              a = answer ->
              (if String.eqb u "POST"
               then Client.then_
                      (emit (sent "POST" url (headers self)
                               (if truthy data then Some (dumps data) else None)))
                      (fun _ => lift (post url (headers self)
                                        (if truthy data then Some (dumps data)
                                         else None)))
               else Client.then_ (emit (sent "GET" url (headers self) None))
                                 (fun _ => lift (get url (headers self))))
              = ([if String.eqb u "POST"
                  then sent "POST" url (headers self)
                         (if truthy data then Some (dumps data) else None)
                  else sent "GET" url (headers self) None], answer)).
    { intros _ a _. subst answer. destruct (String.eqb u "POST");
        cbn [emit lift Client.then_ List.app]; reflexivity. }
    rewrite (Hsend [] answer eq_refl). clear Hsend.
    split; [|split; [|split]].
    + intros m ->. reflexivity.
    + intros r m -> Hs. cbn [Client.then_ emit lift List.app fst snd].
      rewrite Hs. split; [reflexivity|]. cbn [fst]. right. right. now left.
    + intros r m -> Hs Hj. cbn [Client.then_ emit lift List.app].
      rewrite Hs, Hj. reflexivity.
    + intros r v -> Hs Hj. cbn [Client.then_ emit lift List.app].
      rewrite Hs, Hj. reflexivity.
  - intros m. reflexivity.
Qed.

Lemma request_errors_are_documents_witness :
  snd (_make_request (fun _ _ _ => RequestException "Connection refused")
         (fun _ _ => RequestException "Connection refused") (fun _ => "{}")
         (new_client (VStr "key")) "post" "scan" (VDict []))
  = Done (error_document "Connection refused").
Proof.
  exact (proj1 (proj1 (proj2
           (request_errors_are_documents
              (fun _ _ _ => RequestException "Connection refused")
              (fun _ _ => RequestException "Connection refused")
              (fun _ => "{}") (new_client (VStr "key")) "post" "scan"
              (VDict []))) "POST" eq_refl) "Connection refused" eq_refl).
Defined.

(** ** The request of a scan *)

Lemma new_scan_run
    (post : string -> dict -> option string -> attempt response)
    (get : string -> dict -> attempt response) (dumps : value -> string)
    (key text scan_type title excluded_url : value) :
  let request :=
    sent "POST" scan_url (scan_headers key)
         (Some (dumps (VDict (scan_payload text scan_type title excluded_url)))) in
  new_scan post get dumps (new_client key) text scan_type title excluded_url
  = match post scan_url (scan_headers key)
               (Some (dumps (VDict (scan_payload text scan_type title
                                                 excluded_url)))) with
    | Done r =>
        ([request;
          printed ("Response status: " ++ str (VInt (status_code r)));
          printed ("Response text: " ++ Requests.text r)],
         match raise_for_status r with
         | Done _ => match Requests.json r with
                     | RequestException m => Done (error_document m)
                     | other => other
                     end
         | RequestException m => Done (error_document m)
         | Failed m => Failed m
         | NotModelled => NotModelled
         end)
    | RequestException m => ([request], Done (error_document m))
    | Failed m => ([request], Failed m)
    | NotModelled => ([request], NotModelled)
    end.
Proof.
  intros request. unfold new_scan, _make_request.
  change (upper "POST") with (Some "POST").
  cbn [lift Client.then_ String.eqb Ascii.eqb Bool.eqb truthy emit List.app].
  change (base_url (new_client key) ++ "/" ++ "scan") with scan_url.
  change (headers (new_client key)) with (scan_headers key).
  fold (scan_payload text scan_type title excluded_url). fold request.
  destruct (post scan_url (scan_headers key) _) as [r|m|m|];
    cbn [lift Client.then_ emit List.app or_error_document]; try reflexivity.
  destruct (raise_for_status r) as [[]|m|m|];
    cbn [lift Client.then_ emit List.app or_error_document]; try reflexivity.
  destruct (Requests.json r); reflexivity.
Qed.

(** [new_scan] sends one POST to the scan address of the API, with the
    key in its headers and a body, whatever the answer. Both the AI scan
    and the plagiarism scan are asked for exactly when the scan type is
    "all"; a scan type other than "ai", "plagiarism" and "all" asks for
    neither, without an error, and still for readability and grammar; a
    title that is missing or empty becomes "Scan". *)
Theorem new_scan_request
    (post : string -> dict -> option string -> attempt response)
    (get : string -> dict -> attempt response) (dumps : value -> string)
    (key text scan_type title excluded_url : value) :
  let payload := scan_payload text scan_type title excluded_url in
  let run := new_scan post get dumps (new_client key) text scan_type title
                      excluded_url in
  hd_error (fst run)
  = Some (sent "POST" scan_url (scan_headers key)
               (Some (dumps (VDict payload))))
  /\ List.length (filter (fun e => match e with sent _ _ _ _ => true
                                               | _ => false end) (fst run))
     = 1%nat
  /\ ((lookup "scan_ai" payload = Some (VBool true)
       /\ lookup "scan_plag" payload = Some (VBool true))
      <-> scan_type = VStr "all")
  /\ (scan_type <> VStr "ai" -> scan_type <> VStr "plagiarism" ->
      scan_type <> VStr "all" ->
      lookup "scan_ai" payload = Some (VBool false)
      /\ lookup "scan_plag" payload = Some (VBool false)
      /\ lookup "scan_readability" payload = Some (VBool true)
      /\ lookup "scan_grammar_spelling" payload = Some (VBool true))
  /\ (truthy title = false -> lookup "title" payload = Some (VStr "Scan")).
Proof.
  intros payload run. subst run. rewrite new_scan_run.
  fold payload.
  split; [|split; [|split; [|split]]].
  - destruct (post _ _ _); reflexivity.
  - destruct (post _ _ _); reflexivity.
  - cbn [payload scan_payload lookup String.eqb Ascii.eqb Bool.eqb].
    unfold one_of. destruct scan_type as [| | | |s| |];
      try (split; [intros [[=] _]|discriminate]).
    split.
    + intros [[= H1] [= H2]].
      destruct (String.eqb_spec s "all") as [->|Hall]; [reflexivity|].
      rewrite orb_false_r in H1, H2.
      apply String.eqb_eq in H1, H2. congruence.
    + intros [= ->]. split; reflexivity.
  - intros Hai Hplag Hall.
    cbn [payload scan_payload lookup String.eqb Ascii.eqb Bool.eqb].
    unfold one_of. destruct scan_type as [| | | |s| |]; try (repeat split).
    + destruct (String.eqb_spec s "ai") as [->|_]; [congruence|].
      destruct (String.eqb_spec s "all") as [->|_]; [congruence|]. reflexivity.
    + destruct (String.eqb_spec s "plagiarism") as [->|_]; [congruence|].
      destruct (String.eqb_spec s "all") as [->|_]; [congruence|]. reflexivity.
  - intros Ht. cbn [payload scan_payload lookup String.eqb Ascii.eqb Bool.eqb].
    now rewrite Ht.
Qed.

Lemma new_scan_request_witness :
  lookup "title" (scan_payload (VStr "Some text.") (VStr "all") (VStr "") VNone)
  = Some (VStr "Scan").
Proof.
  exact (proj2 (proj2 (proj2 (proj2
           (new_scan_request
              (fun _ _ _ => RequestException "Connection refused")
              (fun _ _ => RequestException "Connection refused")
              (fun _ => "{}") (VStr "key") (VStr "Some text.") (VStr "all")
              (VStr "") VNone)))) eq_refl).
Defined.

(** ** The files of [save_results] *)

Lemma save_results_run
    (dump_indented : value -> string) (path_join : string -> string -> string)
    (timestamp : string) (describe : exn -> string)
    (result : dict) (filename : option string) (save_raw : bool) :
  let name := match filename with
              | Some name => name
              | None => "scan_result_" ++ timestamp
              end in
  let formatted_path := path_join "originality_results" (name ++ ".txt") in
  let raw_path := path_join "originality_results" (name ++ "_raw.json") in
  save_results dump_indented path_join timestamp describe result filename
               save_raw
  = match format_results result with
    | Return summary =>
        ((made_dirs "originality_results" :: opened formatted_path
          :: wrote formatted_path summary
          :: (if save_raw
              then [opened raw_path;
                    wrote raw_path (dump_indented (VDict result))]
              else []))%list,
         Done (formatted_path, if save_raw then Some raw_path else None))
    | Raise e => ([made_dirs "originality_results"; opened formatted_path],
                  Failed (describe e))
    | Unmodelled => ([made_dirs "originality_results"; opened formatted_path],
                     NotModelled)
    end.
Proof.
  intros name formatted_path raw_path. unfold save_results.
  fold name. fold formatted_path. fold raw_path.
  destruct (format_results result); [destruct save_raw|..]; reflexivity.
Qed.

(** [save_results] makes the directory, empties the summary file and
    only then formats the result. For a document whose sections have
    the shape of the data model, and for every document with an [error]
    key, the formatter returns: the summary file gets the text
    ("Error: ..." for an error document) and, if the raw data is asked
    for, the raw file gets the JSON; the raw path is None exactly when
    it is not asked for. When the formatter raises, as it does on a
    confidence without its [AI], the exception goes on to the caller:
    the summary file stays empty and the raw file is never written,
    asked for or not. *)
Theorem save_results_files
    (dump_indented : value -> string) (path_join : string -> string -> string)
    (timestamp : string) (describe : exn -> string)
    (result : dict) (filename : option string) (save_raw : bool) :
  let name := match filename with
              | Some name => name
              | None => "scan_result_" ++ timestamp
              end in
  let formatted_path := path_join "originality_results" (name ++ ".txt") in
  let raw_path := path_join "originality_results" (name ++ "_raw.json") in
  let run := save_results dump_indented path_join timestamp describe
                          result filename save_raw in
  let saved summary :=
    ((made_dirs "originality_results" :: opened formatted_path
      :: wrote formatted_path summary
      :: (if save_raw
          then [opened raw_path; wrote raw_path (dump_indented (VDict result))]
          else []))%list,
     Done (formatted_path, if save_raw then Some raw_path else None)) in
  (well_shaped result = true -> exists summary, run = saved summary)
  /\ (forall e, lookup "error" result = Some e ->
                run = saved ("Error: " ++ str e))
  /\ (forall e, format_results result = Raise e ->
                run = ([made_dirs "originality_results"; opened formatted_path],
                       Failed (describe e)))
  /\ save_results dump_indented path_join timestamp describe
                  [("ai", VDict [("confidence", VDict [])])] filename true
     = ([made_dirs "originality_results"; opened formatted_path],
        Failed (describe ValueError)).
Proof.
  intros name formatted_path raw_path run saved. subst run.
  rewrite save_results_run. fold name. fold formatted_path. fold raw_path.
  split; [|split; [|split]].
  - intros Hw. destruct (format_results_returns result Hw) as [summary ->].
    now exists summary.
  - intros e He. unfold format_results. now rewrite He.
  - intros e ->. reflexivity.
  - rewrite save_results_run. reflexivity.
Qed.

Lemma save_results_files_witness :
  save_results (fun _ => "{}") (fun dir name => dir ++ "/" ++ name)
    "20240101_000000" (fun _ => "error") [("error", VStr "Bad key")]
    (Some "scan") false
  = ([made_dirs "originality_results";
      opened "originality_results/scan.txt";
      wrote "originality_results/scan.txt" "Error: Bad key"],
     Done ("originality_results/scan.txt", None)).
Proof.
  exact (proj1 (proj2
           (save_results_files (fun _ => "{}")
              (fun dir name => dir ++ "/" ++ name) "20240101_000000"
              (fun _ => "error") [("error", VStr "Bad key")] (Some "scan")
              false)) (VStr "Bad key") eq_refl).
Defined.

(** ** Text that is sent to be scanned *)

Lemma process_text_input_run
    (post : string -> dict -> option string -> attempt response)
    (get : string -> dict -> attempt response) (dumps : value -> string)
    (dump_indented : value -> string) (describe : exn -> string)
    (key : value) (text : string) :
  truthy key = true ->
  process_text_input post get dumps dump_indented describe key text
  = match new_scan post get dumps (new_client key) (VStr text) (VStr "all")
                   VNone VNone with
    | (log, Done (VDict d)) =>
        match format_results d with
        | Return summary =>
            ((log ++ [temp_opened ".txt"; temp_wrote ".txt" summary;
                      temp_opened ".json";
                      temp_wrote ".json" (dump_indented (VDict d))])%list,
             Done (VDict d))
        | Raise e =>
            ((log ++ [temp_opened ".txt"])%list,
             Failed ("Error processing text: " ++ describe e))
        | Unmodelled => ((log ++ [temp_opened ".txt"])%list, NotModelled)
        end
    | (log, Done _) => ((log ++ [temp_opened ".txt"])%list, NotModelled)
    | (log, RequestException m) =>
        (log, Failed ("Error processing text: " ++ m))
    | (log, Failed m) => (log, Failed ("Error processing text: " ++ m))
    | (log, NotModelled) => (log, NotModelled)
    end.
Proof.
  intros Hkey. unfold process_text_input, initialize_client. rewrite Hkey.
  cbn [negb lift Client.then_ List.app].
  destruct (new_scan _ _ _ _ _ _ _ _) as [log [v|m|m|]];
    cbn [or_processing_error]; try reflexivity.
  destruct v as [| | | | | |d]; cbn [emit lift Client.then_ List.app of_outcome
                                      or_processing_error]; try reflexivity.
  destruct (format_results d);
    cbn [emit lift Client.then_ List.app of_outcome or_processing_error
         Client.ret]; reflexivity.
Qed.

(** When the request of the scan fails with a [RequestException] of
    text [m], [process_text_input] raises nothing: it returns the
    document [{"error": m}], after it has kept a temporary file with
    "Error: m" and one with the JSON of that document; and the page
    [display_analysis] then makes of that document is the bare page,
    nine headers and the two widgets, with no word of the failure. *)
Theorem failed_scan_shows_nothing
    (post : string -> dict -> option string -> attempt response)
    (get : string -> dict -> attempt response) (dumps : value -> string)
    (dump_indented : value -> string) (describe : exn -> string)
    (key : value) (to_html : Plotly.Figure -> string) (text m : string) :
  truthy key = true ->
  (forall url headers body, post url headers body = RequestException m) ->
  process_text_input post get dumps dump_indented describe key text
  = ([sent "POST" scan_url (scan_headers key)
           (Some (dumps (VDict (scan_payload (VStr text) (VStr "all")
                                             VNone VNone))));
      temp_opened ".txt"; temp_wrote ".txt" ("Error: " ++ m);
      temp_opened ".json";
      temp_wrote ".json" (dump_indented (error_document m))],
     Done (error_document m))
  /\ display_analysis to_html false false [("error", VStr m)]
     = ((bare_page ++ [checkbox "Show Raw JSON"])%list, Return tt).
Proof.
  intros Hkey Hpost. split.
  - rewrite process_text_input_run by assumption.
    rewrite new_scan_run, Hpost. reflexivity.
  - apply (bare_display to_html false false [("error", VStr m)] []);
      reflexivity.
Qed.

Lemma failed_scan_shows_nothing_witness :
  snd (process_text_input (fun _ _ _ => RequestException "Connection refused")
         (fun _ _ => RequestException "Connection refused")
         (fun _ => "{}") (fun _ => "{}") (fun _ => "error") (VStr "key") "Some text.")
  = Done (error_document "Connection refused").
Proof.
  exact (f_equal snd
           (proj1 (failed_scan_shows_nothing
                     (fun _ _ _ => RequestException "Connection refused")
                     (fun _ _ => RequestException "Connection refused")
                     (fun _ => "{}") (fun _ => "{}") (fun _ => "error")
                     (VStr "key") (fun _ => "<div></div>") "Some text."
                     "Connection refused" eq_refl (fun _ _ _ => eq_refl)))).
Defined.

(** [process_text_input] never ends in a [RequestException], and every
    exception it ends in has a text that starts with "Error processing
    text: ". Without a key in [config.py] it raises before any request
    is sent. With a key, it returns the result of the scan exactly when
    [format_results] returns on it, after it has kept two temporary
    files; when [format_results] raises on the result of a scan that has
    succeeded, the result is lost: the exception of the formatter goes
    to the caller under the new text, and an empty temporary file is
    left. *)
Theorem processing_errors
    (post : string -> dict -> option string -> attempt response)
    (get : string -> dict -> attempt response) (dumps : value -> string)
    (dump_indented : value -> string) (describe : exn -> string)
    (key : value) (text : string) :
  let run := process_text_input post get dumps dump_indented describe key
                                text in
  let scan := new_scan post get dumps (new_client key) (VStr text)
                       (VStr "all") VNone VNone in
  (forall m, snd run <> RequestException m)
  /\ (forall message,
        snd run = Failed message ->
        exists cause, message = "Error processing text: " ++ cause)
  /\ (truthy key = false ->
      run = ([], Failed ("Error processing text: API key not found. " ++
                         "Please set your Originality.AI API key in config.py")))
  /\ (forall d e,
        truthy key = true -> snd scan = Done (VDict d) ->
        format_results d = Raise e ->
        run = ((fst scan ++ [temp_opened ".txt"])%list,
               Failed ("Error processing text: " ++ describe e)))
  /\ (forall d summary,
        truthy key = true -> snd scan = Done (VDict d) ->
        format_results d = Return summary ->
        run = ((fst scan
                ++ [temp_opened ".txt"; temp_wrote ".txt" summary;
                    temp_opened ".json";
                    temp_wrote ".json" (dump_indented (VDict d))])%list,
               Done (VDict d))).
Proof.
  intros run scan.
  assert (Hno_key : truthy key = false ->
            run = ([], Failed ("Error processing text: API key not found. " ++
                               "Please set your Originality.AI API key in config.py"))).
  { intros Hkey. subst run. unfold process_text_input, initialize_client.
    rewrite Hkey. reflexivity. }
  assert (Hrun : truthy key = true ->
            run = match scan with
                  | (log, Done (VDict d)) =>
                      match format_results d with
                      | Return summary =>
                          ((log ++ [temp_opened ".txt"; temp_wrote ".txt" summary;
                                    temp_opened ".json";
                                    temp_wrote ".json" (dump_indented (VDict d))])%list,
                           Done (VDict d))
                      | Raise e =>
                          ((log ++ [temp_opened ".txt"])%list,
                           Failed ("Error processing text: " ++ describe e))
                      | Unmodelled =>
                          ((log ++ [temp_opened ".txt"])%list, NotModelled)
                      end
                  | (log, Done _) =>
                      ((log ++ [temp_opened ".txt"])%list, NotModelled)
                  | (log, RequestException m) =>
                      (log, Failed ("Error processing text: " ++ m))
                  | (log, Failed m) =>
                      (log, Failed ("Error processing text: " ++ m))
                  | (log, NotModelled) => (log, NotModelled)
                  end)
    by (intros Hkey; now apply process_text_input_run).
  split; [|split; [|split; [exact Hno_key|split]]].
  - intros m. destruct (truthy key) eqn:Hkey.
    + rewrite (Hrun eq_refl).
      destruct scan as [log [[| | | | | |d]|m'|m'|]]; try discriminate.
      destruct (format_results d); discriminate.
    + rewrite (Hno_key eq_refl). discriminate.
  - intros message. destruct (truthy key) eqn:Hkey.
    + rewrite (Hrun eq_refl).
      destruct scan as [log [[| | | | | |d]|m'|m'|]]; try discriminate;
        try (intros [= <-]; eexists; reflexivity).
      destruct (format_results d); try discriminate.
      intros [= <-]. eexists. reflexivity.
    + rewrite (Hno_key eq_refl). intros [= <-]. eexists. reflexivity.
  - intros d e Hkey Hscan He. rewrite (Hrun Hkey).
    destruct scan as [log result]. cbn [fst snd] in *. subst result.
    now rewrite He.
  - intros d summary Hkey Hscan Hs. rewrite (Hrun Hkey).
    destruct scan as [log result]. cbn [fst snd] in *. subst result.
    now rewrite Hs.
Qed.

Lemma processing_errors_witness :
  process_text_input (fun _ _ _ => RequestException "Connection refused")
    (fun _ _ => RequestException "Connection refused") (fun _ => "{}")
    (fun _ => "{}") (fun _ => "error") (VStr "") "Some text."
  = ([], Failed ("Error processing text: API key not found. " ++
                 "Please set your Originality.AI API key in config.py")).
Proof.
  exact (proj1 (proj2 (proj2
           (processing_errors
              (fun _ _ _ => RequestException "Connection refused")
              (fun _ _ => RequestException "Connection refused")
              (fun _ => "{}") (fun _ => "{}") (fun _ => "error") (VStr "")
              "Some text."))) eq_refl).
Defined.

(** ** The application *)

Import App.

Lemma chars_not_empty (s : string) :
  Forall (fun c => c <> EmptyString) (chars s).
Proof.
  induction s as [|c s IH]; [constructor|]. cbn [chars].
  destruct (chars s) as [|g gs].
  - repeat constructor. discriminate.
  - inversion IH; subst.
    destruct (match s with
              | String c' _ => is_continuation c'
              | EmptyString => false
              end); constructor; try discriminate; assumption.
Qed.

Lemma lstrip_nil (l : list string) :
  lstrip l = [] <-> forallb is_space l = true.
Proof.
  induction l as [|c l IH]; [now split|]. cbn [lstrip forallb].
  destruct (is_space c); cbn [andb]; [exact IH|]. split; discriminate.
Qed.

Lemma lstrip_last (l : list string) (c : string) :
  is_space c = false -> lstrip (l ++ [c]) <> [].
Proof.
  intros Hc. induction l as [|x l IH]; cbn [List.app lstrip].
  - rewrite Hc. discriminate.
  - destruct (is_space x); [exact IH|discriminate].
Qed.

Lemma lstrip_head (l : list string) :
  lstrip l = [] \/ exists c rest, lstrip l = c :: rest /\ is_space c = false.
Proof.
  induction l as [|x l IH]; [now left|]. cbn [lstrip].
  destruct (is_space x) eqn:Hx; [exact IH|]. right. now exists x, l.
Qed.

Lemma concat_empty (l : list string) :
  Forall (fun c => c <> EmptyString) l ->
  String.concat EmptyString l = EmptyString -> l = [].
Proof.
  destruct l as [|c l]; [reflexivity|]. intros H. inversion H; subst.
  cbn [String.concat]. destruct l; [congruence|].
  destruct c; [congruence|discriminate].
Qed.

Lemma lstrip_Forall (P : string -> Prop) (l : list string) :
  Forall P l -> Forall P (lstrip l).
Proof.
  induction 1 as [|x l Hx Hl IH]; [constructor|]. cbn [lstrip].
  destruct (is_space x); [exact IH|now constructor].
Qed.

(** A text is blank for [strip] exactly when each of its characters is
    white space. *)
Lemma strip_blank (s : string) :
  strip s = EmptyString <-> forallb is_space (chars s) = true.
Proof.
  unfold strip. rewrite <- lstrip_nil. split.
  - intros H. apply concat_empty in H.
    + apply (f_equal (@List.rev string)) in H. rewrite rev_involutive in H.
      cbn [List.rev] in H.
      destruct (lstrip_head (chars s)) as [Hnil|(c & rest & Hl & Hc)];
        [exact Hnil|].
      rewrite Hl in H. cbn [List.rev] in H.
      exfalso. exact (lstrip_last (List.rev rest) c Hc H).
    + apply Forall_rev, lstrip_Forall, Forall_rev, lstrip_Forall,
        chars_not_empty.
  - intros ->. reflexivity.
Qed.

Lemma truthy_strip (s : string) :
  truthy (VStr (strip s)) = negb (forallb is_space (chars s)).
Proof.
  cbn [truthy]. destruct (forallb is_space (chars s)) eqn:Hs.
  - apply strip_blank in Hs. now rewrite Hs.
  - destruct (String.eqb_spec (strip s) EmptyString) as [He|He];
      [|reflexivity].
    apply strip_blank in He. congruence.
Qed.

(** On the tab "Enter Text", with no file uploaded. Until "Analyze Text"
    is pressed the page is its widgets. When it is pressed on a text of
    white space only, the page warns and nothing is sent. On any other
    text: without a key in [config.py] nothing is sent and the error on
    the page carries the prefix "Error processing text: " twice; with a
    key and a request that fails with a [RequestException], the request
    and the four writes to the temporary files are all that happens, and
    the tab shows the spinner and the bare page, with no error. *)
Theorem text_tab_pages
    (post : string -> dict -> option string -> attempt response)
    (get : string -> dict -> attempt response) (dumps : value -> string)
    (dump_indented : value -> string) (describe : exn -> string)
    (key : value) (to_html : Plotly.Figure -> string)
    (generate show_raw : bool) (text : string) :
  let visit pressed :=
    {| json_file := None; text_file := None; text_input := text;
       analyze := pressed |} in
  let page := main post get dumps dump_indented describe key to_html in
  page generate show_raw (visit false) = Some (front [] [] [], [])
  /\ (forallb is_space (chars text) = true ->
      page generate show_raw (visit true)
      = Some (front [] [] [warning "Please enter some text to analyze"], []))
  /\ (forallb is_space (chars text) = false -> truthy key = false ->
      page generate show_raw (visit true)
      = Some (front [] []
                [spinner "Processing text...";
                 error ("Error processing text: Error processing text: "
                        ++ no_key)], []))
  /\ (forall m,
        forallb is_space (chars text) = false -> truthy key = true ->
        (forall url headers body,
            post url headers body = RequestException m) ->
        page false false (visit true)
        = Some (front [] []
                  (spinner "Processing text..."
                   :: bare_page ++ [checkbox "Show Raw JSON"])%list,
                [sent "POST" scan_url (scan_headers key)
                      (Some (dumps (VDict (scan_payload (VStr text)
                                             (VStr "all") VNone VNone))));
                 temp_opened ".txt"; temp_wrote ".txt" ("Error: " ++ m);
                 temp_opened ".json";
                 temp_wrote ".json" (dump_indented (error_document m))])).
Proof.
  intros visit page. subst page visit.
  unfold main, displays, upload_json, upload_text, enter_text.
  cbn [json_file text_file text_input analyze Nat.add Nat.ltb Nat.leb].
  rewrite truthy_strip.
  split; [reflexivity|split; [|split]].
  - intros ->. reflexivity.
  - intros -> Hkey. cbn [negb]. unfold scan_and_show, process_text_input,
      initialize_client. rewrite Hkey. reflexivity.
  - intros m -> Hkey Hpost. cbn [negb]. unfold scan_and_show.
    rewrite process_text_input_run by assumption.
    rewrite new_scan_run, Hpost.
    cbn -[Dashboard.display_analysis bare_page front scan_payload
          scan_headers scan_url].
    unfold error_document. cbn [analysis].
    rewrite (bare_display to_html false false [("error", VStr m)] [])
      by reflexivity.
    reflexivity.
Qed.

Lemma text_tab_pages_witness :
  main (fun _ _ _ => RequestException "Connection refused")
       (fun _ _ => RequestException "Connection refused")
       (fun _ => "{}") (fun _ => "{}") (fun _ => "error") VNone
       (fun _ => "<div></div>") false false
       {| json_file := None; text_file := None; text_input := " a ";
          analyze := true |}
  = Some (front [] []
            [spinner "Processing text...";
             error ("Error processing text: Error processing text: "
                    ++ no_key)], []).
Proof.
  exact (proj1 (proj2 (proj2
           (text_tab_pages (fun _ _ _ => RequestException "Connection refused")
              (fun _ _ => RequestException "Connection refused")
              (fun _ => "{}") (fun _ => "{}") (fun _ => "error") VNone
              (fun _ => "<div></div>") false false " a ")))
           eq_refl eq_refl).
Defined.

(** On the tab "Upload JSON", with nothing done on the other tabs, no
    request is sent, and no exception leaves [main]: when
    [display_analysis] raises on the uploaded document, what it had
    shown stays on the page and an error with the text of the exception
    comes after it; when the file cannot be read as JSON, the error is
    all the tab shows under its widget. A document whose "ai" lacks
    "confidence", and which has no "properties", stops the page after
    three elements. *)
Theorem uploaded_json_page
    (post : string -> dict -> option string -> attempt response)
    (get : string -> dict -> attempt response) (dumps : value -> string)
    (dump_indented : value -> string) (describe : exn -> string)
    (key : value) (to_html : Plotly.Figure -> string)
    (generate show_raw : bool) (text : string) (data : dict) :
  let visit file :=
    {| json_file := Some file; text_file := None; text_input := text;
       analyze := false |} in
  let page := main post get dumps dump_indented describe key to_html
                   generate show_raw in
  let display := Dashboard.display_analysis to_html generate show_raw data in
  (forall e,
      snd display = Raise e ->
      page (visit (Done (VDict data)))
      = Some (front (fst display
                     ++ [error ("Error analyzing JSON file: " ++ describe e)])
                    [] [], []))
  /\ (snd display = Return tt ->
      page (visit (Done (VDict data))) = Some (front (fst display) [] [], []))
  /\ (forall m,
        page (visit (Failed m))
        = Some (front [error ("Error analyzing JSON file: " ++ m)] [] [], []))
  /\ (forall ai,
        has_key "properties" data = false ->
        lookup "ai" data = Some (VDict ai) -> ai <> [] ->
        lookup "confidence" ai = None ->
        display = ([header "Document Properties";
                    header "AI Detection Analysis"; columns 2],
                   Raise (KeyError "confidence"))).
Proof.
  intros visit page display. subst page visit.
  unfold main, displays, upload_json, upload_text, enter_text.
  cbn [json_file text_file text_input analyze Nat.add Nat.ltb Nat.leb
       analysis].
  fold display. split; [|split; [|split]].
  - intros e He. destruct display as [shown result]. cbn [snd fst] in *.
    subst result. reflexivity.
  - intros Hr. destruct display as [shown result]. cbn [snd fst] in *.
    subst result. reflexivity.
  - reflexivity.
  - intros ai Hprops Hai Hne Hconf. subst display.
    unfold Dashboard.display_analysis, show_properties, show_ai_detection,
      plot_ai_detection_results, data_get.
    rewrite Hprops. cbn [getitem]. rewrite Hai.
    destruct ai as [|entry ai]; [congruence|].
    cbn [truthy negb getitem bind]. rewrite Hconf. reflexivity.
Qed.

Lemma uploaded_json_page_witness :
  main (fun _ _ _ => RequestException "Connection refused")
       (fun _ _ => RequestException "Connection refused")
       (fun _ => "{}") (fun _ => "{}") (fun _ => "'confidence'") VNone
       (fun _ => "<div></div>") false false
       {| json_file := Some (Done (VDict [("ai", VDict [("score", VInt 1)])]));
          text_file := None; text_input := ""; analyze := false |}
  = Some (front [header "Document Properties";
                 header "AI Detection Analysis"; columns 2;
                 error "Error analyzing JSON file: 'confidence'"] [] [], []).
Proof.
  exact (proj1 (uploaded_json_page
                  (fun _ _ _ => RequestException "Connection refused")
                  (fun _ _ => RequestException "Connection refused")
                  (fun _ => "{}") (fun _ => "{}") (fun _ => "'confidence'")
                  VNone (fun _ => "<div></div>") false false ""
                  [("ai", VDict [("score", VInt 1)])])
               (KeyError "confidence") eq_refl).
Defined.

(** ** The requests of the client *)

Lemma make_request_log
    (post : string -> dict -> option string -> attempt response)
    (get : string -> dict -> attempt response) (dumps : value -> string)
    (self : OriginalityAI) (method endpoint u : string) (data : value) :
  upper method = Some u ->
  exists rest,
    fst (_make_request post get dumps self method endpoint data)
    = (if String.eqb u "POST"
       then sent "POST" (base_url self ++ "/" ++ endpoint) (headers self)
                 (if truthy data then Some (dumps data) else None)
       else sent "GET" (base_url self ++ "/" ++ endpoint) (headers self) None)
      :: rest
    /\ forallb (fun e => negb (is_request e)) rest = true.
Proof.
  intros Hu. unfold _make_request. rewrite Hu.
  cbn [lift Client.then_ List.app].
  destruct (String.eqb u "POST"); cbn [emit lift Client.then_ List.app].
  - destruct (post _ _ _) as [r|m|m|];
      cbn [emit lift Client.then_ List.app or_error_document fst];
      try (now exists []).
    destruct (raise_for_status r) as [[]|m|m|];
      cbn [emit lift Client.then_ List.app or_error_document fst];
      try (now eexists).
    destruct (Requests.json r); cbn [or_error_document fst]; now eexists.
  - destruct (get _ _) as [r|m|m|];
      cbn [emit lift Client.then_ List.app or_error_document fst];
      try (now exists []).
    destruct (raise_for_status r) as [[]|m|m|];
      cbn [emit lift Client.then_ List.app or_error_document fst];
      try (now eexists).
    destruct (Requests.json r); cbn [or_error_document fst]; now eexists.
Qed.

Lemma make_request_requests
    (post : string -> dict -> option string -> attempt response)
    (get : string -> dict -> attempt response) (dumps : value -> string)
    (self : OriginalityAI) (method endpoint u : string) (data : value) :
  upper method = Some u ->
  requests (_make_request post get dumps self method endpoint data)
  = [if String.eqb u "POST"
     then sent "POST" (base_url self ++ "/" ++ endpoint) (headers self)
               (if truthy data then Some (dumps data) else None)
     else sent "GET" (base_url self ++ "/" ++ endpoint) (headers self) None].
Proof.
  intros Hu.
  destruct (make_request_log post get dumps self method endpoint u data Hu)
    as (rest & Hlog & Hrest).
  unfold requests. rewrite Hlog. cbn [filter].
  assert (Hnone : filter is_request rest = []).
  { clear Hlog. induction rest as [|e rest IH]; [reflexivity|].
    cbn [forallb] in Hrest. apply andb_prop in Hrest as [He Hrest].
    cbn [filter]. destruct (is_request e); [discriminate|]. now apply IH. }
  destruct (String.eqb u "POST"); cbn [is_request]; now rewrite Hnone.
Qed.

(** Each call of the client sends exactly one request, whatever the
    answer is. [url_scan] and [batch_scan] send a POST with a body to
    "scan/url" and to "scan/batch", [batch_scan] also for no items;
    [get_scan] and [get_scans] send a GET without body, the id, the page
    and the limit written into the address as they are. In
    [_make_request], a method that is not "POST" in some letter case is
    sent as a GET and its data is left out, and a POST of data that is
    empty is sent without a body. *)
Theorem client_requests
    (post : string -> dict -> option string -> attempt response)
    (get : string -> dict -> attempt response) (dumps : value -> string)
    (key : value) :
  let self := new_client key in
  (forall url scan_type,
      requests (url_scan post get dumps self url scan_type)
      = [sent "POST" (api ++ "/scan/url") (scan_headers key)
              (Some (dumps (VDict
                 [("url", url);
                  ("aidetect", VBool (one_of "ai" "all" scan_type));
                  ("plagiarism",
                   VBool (one_of "plagiarism" "all" scan_type))])))])
  /\ (forall items,
        requests (batch_scan post get dumps self items)
        = [sent "POST" (api ++ "/scan/batch") (scan_headers key)
                (Some (dumps (VDict [("items", items)])))])
  /\ (forall scan_id,
        requests (get_scan post get dumps self scan_id)
        = [sent "GET" (api ++ "/scan/" ++ str scan_id) (scan_headers key)
                None])
  /\ (forall page limit,
        requests (get_scans post get dumps self page limit)
        = [sent "GET" (api ++ "/scans?page=" ++ str page ++ "&limit="
                       ++ str limit) (scan_headers key) None])
  /\ (forall method u endpoint data,
        upper method = Some u -> u <> "POST" ->
        requests (_make_request post get dumps self method endpoint data)
        = [sent "GET" (api ++ "/" ++ endpoint) (scan_headers key) None])
  /\ (forall method endpoint data,
        upper method = Some "POST" -> truthy data = false ->
        requests (_make_request post get dumps self method endpoint data)
        = [sent "POST" (api ++ "/" ++ endpoint) (scan_headers key) None]).
Proof.
  intros self. subst self.
  split; [|split; [|split; [|split; [|split]]]].
  - intros url scan_type. unfold url_scan.
    now rewrite (make_request_requests _ _ _ _ "POST" _ "POST").
  - intros items. unfold batch_scan.
    now rewrite (make_request_requests _ _ _ _ "POST" _ "POST").
  - intros scan_id. unfold get_scan.
    now rewrite (make_request_requests _ _ _ _ "GET" _ "GET").
  - intros page limit. unfold get_scans.
    now rewrite (make_request_requests _ _ _ _ "GET" _ "GET").
  - intros method u endpoint data Hu Hne.
    rewrite (make_request_requests _ _ _ _ method _ u) by assumption.
    destruct (String.eqb_spec u "POST"); [contradiction|reflexivity].
  - intros method endpoint data Hu Hdata.
    rewrite (make_request_requests _ _ _ _ method _ "POST") by assumption.
    now rewrite Hdata.
Qed.

Lemma client_requests_witness :
  requests (_make_request (fun _ _ _ => RequestException "Connection refused")
              (fun _ _ => RequestException "Connection refused")
              (fun _ => "{}") (new_client (VStr "key")) "delete" "scan/7"
              (VDict [("id", VInt 7)]))
  = [sent "GET" (api ++ "/scan/7") (scan_headers (VStr "key")) None].
Proof.
  apply (proj1 (proj2 (proj2 (proj2 (proj2
           (client_requests
              (fun _ _ _ => RequestException "Connection refused")
              (fun _ _ => RequestException "Connection refused")
              (fun _ => "{}") (VStr "key"))))))
           "delete" "DELETE" "scan/7" (VDict [("id", VInt 7)]) eq_refl).
  discriminate.
Defined.
